(** * Remote-custody signing adapters: the three Hedera signer scripts

    A shallow embedding of the helper functions of
    - [hedera-gcp-kms-signing/gcp-hedera-hsm.js]  ([kmsSigner], [fetchKmsPublicKey]),
    - [hedera-azure-kms-signing/azure-hedera-hsm.js] ([azureSigner], [fetchAzurePublicKey]),
    - the Vault transit script ([vaultSigner], [getVaultPublicKey]),
    together with the parts of the npm packages and of the Node runtime
    that these functions call and whose behaviour decides the properties
    below: the DER decoder of asn1.js, [BN] of bn.js, [Buffer] base64 and
    hex conversions, [String.prototype.split], Keccak-256.

    Bytes are integers in [0, 256); a [Buffer] or [Uint8Array] is a
    [list Z].  A JavaScript exception is the [Throw] outcome of [result]. *)

From Stdlib Require Import ZArith Lia List String Ascii Bool.
From stdpp Require Import base option list strings gmap.
Import ListNotations.
Local Open Scope Z_scope.

(** ** Outcomes of a JavaScript call *)

Inductive exn : Type :=
| ReporterError (msg : string)      (* asn1.js decoding error *)
| AssertionError (msg : string)     (* bn.js / minimalistic-assert *)
| TypeError (msg : string)
| RangeError (msg : string)
| CryptoError (msg : string)        (* node:crypto / OpenSSL *)
| BackendError (msg : string).      (* rejected promise of a remote call *)

(** [Unmodelled] is not a JavaScript outcome: it marks an input on which
    this development does not say what the runtime does (the iteration
    bound of a modelled [for (;;)] loop was reached, or a key format other
    than the one the scripts handle was met). *)
Inductive result (A : Type) : Type :=
| Ok (a : A)
| Throw (e : exn)
| Unmodelled (why : string).
Arguments Ok {A} a.
Arguments Throw {A} e.
Arguments Unmodelled {A} why.

Definition rbind {A B} (m : result A) (k : A -> result B) : result B :=
  match m with
  | Ok a => k a
  | Throw e => Throw e
  | Unmodelled why => Unmodelled why
  end.

Notation "'let*' x := m 'in' k" := (rbind m (fun x => k))
  (at level 10, x pattern, m at level 100, k at level 200).

(** ** Bytes and 32-bit integer arithmetic *)

Definition is_byte (b : Z) : Prop := 0 <= b < 256.
Definition bytes_ok (l : list Z) : Prop := Forall is_byte l.

Definition len (l : list Z) : Z := Z.of_nat (length l).

(** JavaScript bit operators work on 32-bit two's complement integers. *)
Definition to_int32 (z : Z) : Z := (z + 2^31) mod 2^32 - 2^31.
Definition shl32 (a n : Z) : Z := to_int32 (Z.shiftl a n).
Definition or32 (a b : Z) : Z := to_int32 (Z.lor a b).
Definition and32 (a b : Z) : Z := to_int32 (Z.land a b).
Definition sar32 (a n : Z) : Z := Z.shiftr (to_int32 a) n.

(** ** bn.js *)
Module BN.

(** [new BN(buffer)]: the bytes read as an unsigned big-endian number
    ([_initArray] with the default endianness); an empty buffer is 0. *)
Definition of_bytes (l : list Z) : Z :=
  fold_left (fun acc b => acc * 256 + b) l 0.

(** [bitLength] and [byteLength] of a non-negative number. *)
Definition bitLength (v : Z) : Z :=
  if v =? 0 then 0 else Z.log2 v + 1.

Definition byteLength (v : Z) : Z := (bitLength v + 7) / 8.

(** The [n] low-order bytes of [v], most significant first. *)
Fixpoint be_bytes (n : nat) (v : Z) : list Z :=
  match n with
  | O => []
  | S n' => be_bytes n' (v / 256) ++ [v mod 256]
  end.

(** [toArray(endian = "be", length)], that is [toArrayLike]:
<<
    var byteLength = this.byteLength();
    var reqLength = length || Math.max(1, byteLength);
    assert(byteLength <= reqLength, 'byte array longer than desired length');
    assert(reqLength > 0, 'Requested array length <= 0');
>>
    followed by zero fill on the left and the bytes of the number. *)
Definition toArray_be (v : Z) (length : Z) : result (list Z) :=
  let byteLength := byteLength v in
  let reqLength := if length =? 0 then Z.max 1 byteLength else length in
  if negb (byteLength <=? reqLength)
  then Throw (AssertionError "byte array longer than desired length")
  else if negb (0 <? reqLength)
  then Throw (AssertionError "Requested array length <= 0")
  else Ok (be_bytes (Z.to_nat reqLength) v).

End BN.

(** ** asn1.js, DER decoder *)
Module Asn1.

(** [DecoderBuffer]: a window [offset, length) on the shared [base]. *)
Record DecoderBuffer : Type := mkBuf {
  base : list Z;
  offset : Z;
  length : Z
}.

Definition of_bytes (data : list Z) : DecoderBuffer :=
  mkBuf data 0 (len data).

(** [Buffer.prototype.slice(start, end)]: negative indices count from
    the end, both are clamped to the buffer. *)
Definition adjustOffset (o l : Z) : Z :=
  if o <? 0 then Z.max (o + l) 0 else Z.min o l.

Definition slice (b : list Z) (start end_ : Z) : list Z :=
  let s := adjustOffset start (len b) in
  let e := adjustOffset end_ (len b) in
  firstn (Z.to_nat (e - s)) (skipn (Z.to_nat s) b).

(** [readUInt8(fail)]: one byte at [offset], or the reporter's error when
    the window is exhausted.  [Buffer.readUInt8] itself raises a
    [RangeError] for an index outside the base. *)
Definition readUInt8 (buf : DecoderBuffer) (fail : string)
  : result (Z * DecoderBuffer) :=
  if buf.(offset) + 1 <=? buf.(length) then
    if (0 <=? buf.(offset)) && (buf.(offset) <? len buf.(base)) then
      Ok (nth (Z.to_nat buf.(offset)) buf.(base) 0,
          mkBuf buf.(base) (buf.(offset) + 1) buf.(length))
    else Throw (RangeError "ERR_OUT_OF_RANGE")
  else Throw (ReporterError fail).

(** [skip(bytes, fail)]: the sub-window of the next [bytes] bytes and the
    buffer advanced past it. *)
Definition skip (buf : DecoderBuffer) (bytes : Z) (fail : string)
  : result (DecoderBuffer * DecoderBuffer) :=
  if negb (buf.(offset) + bytes <=? buf.(length)) then
    Throw (ReporterError fail)
  else
    Ok (mkBuf buf.(base) buf.(offset) (buf.(offset) + bytes),
        mkBuf buf.(base) (buf.(offset) + bytes) buf.(length)).

(** [raw()]: [base.slice(offset, length)]. *)
Definition raw (buf : DecoderBuffer) : list Z :=
  slice buf.(base) buf.(offset) buf.(length).

Record DecodedTag : Type := mkTag {
  cls : Z;            (* index into der.tagClass *)
  primitive : bool;
  tag : Z             (* tag number; der.tag maps it to its name *)
}.

(** Tag numbers of the names the schema and the decoder compare with. *)
Definition tag_end : Z := 0.
Definition tag_int : Z := 2.
Definition tag_seq : Z := 16.

(** The loop of [derDecodeTag] for a multi-octet tag:
<<
    while ((oct & 0x80) === 0x80) {
      oct = buf.readUInt8(fail);
      tag <<= 7;
      tag |= oct & 0x7f;
    }
>> *)
Fixpoint multiOctetTag (fuel : nat) (oct tag : Z) (buf : DecoderBuffer)
         (fail : string) : result (Z * DecoderBuffer) :=
  if and32 oct 128 =? 128 then
    match fuel with
    | O => Unmodelled "loop bound"
    | S fuel' =>
        let* (oct', buf') := readUInt8 buf fail in
        multiOctetTag fuel' oct' (or32 (shl32 tag 7) (and32 oct' 127))
                      buf' fail
    end
  else Ok (tag, buf).

Definition derDecodeTag (buf : DecoderBuffer) (fail : string)
  : result (DecodedTag * DecoderBuffer) :=
  let* (t, buf1) := readUInt8 buf fail in
  let cls := sar32 t 6 in
  let primitive := and32 t 32 =? 0 in
  if and32 t 31 =? 31 then
    let* (t', buf2) :=
      multiOctetTag (Z.to_nat (buf1.(length) - buf1.(offset)) + 1)
                    t 0 buf1 fail in
    Ok (mkTag cls primitive t', buf2)
  else
    Ok (mkTag cls primitive (and32 t 31), buf1).

(** The loop of the long form in [derDecodeLen]:
<<
    for (let i = 0; i < num; i++) {
      len <<= 8;
      const j = buf.readUInt8(fail);
      len |= j;
    }
>> *)
Fixpoint longFormLen (num : nat) (l : Z) (buf : DecoderBuffer)
         (fail : string) : result (Z * DecoderBuffer) :=
  match num with
  | O => Ok (l, buf)
  | S num' =>
      let* (j, buf') := readUInt8 buf fail in
      longFormLen num' (or32 (shl32 l 8) j) buf' fail
  end.

(** [derDecodeLen]: [None] is JavaScript's [null], the indefinite form. *)
Definition derDecodeLen (buf : DecoderBuffer) (primitive : bool)
           (fail : string) : result (option Z * DecoderBuffer) :=
  let* (l, buf1) := readUInt8 buf fail in
  if negb primitive && (l =? 128) then Ok (None, buf1)
  else if and32 l 128 =? 0 then Ok (Some l, buf1)
  else
    let num := and32 l 127 in
    if 4 <? num then Throw (ReporterError "length octect is too long")
    else
      let* (l', buf2) := longFormLen (Z.to_nat num) 0 buf1 fail in
      Ok (Some l', buf2).

(** [null] in arithmetic position is 0. *)
Definition len_number (l : option Z) : Z :=
  match l with Some n => n | None => 0 end.

(** [_skipUntilEnd]: consume elements up to and including the first one
    whose tag is [end]; nested indefinite forms recurse. *)
Fixpoint _skipUntilEnd (fuel : nat) (buf : DecoderBuffer) (fail : string)
  : result DecoderBuffer :=
  match fuel with
  | O => Unmodelled "loop bound"
  | S fuel' =>
      let* (t, buf1) := derDecodeTag buf fail in
      let* (l, buf2) := derDecodeLen buf1 t.(primitive) fail in
      let* buf3 :=
        (if t.(primitive) || (if l is Some _ then true else false)
         then let* (_, b) := skip buf2 (len_number l) "DecoderBuffer overrun" in
              Ok b
         else _skipUntilEnd fuel' buf2 fail) in
      if t.(tag) =? tag_end then Ok buf3
      else _skipUntilEnd fuel' buf3 fail
  end.

(** [_decodeTag(buffer, tag, any = false)]: the body of the element as a
    sub-buffer, and the buffer advanced past the element.  The schema
    tag is a name; it matches when the decoded tag number carries that
    name, whatever the class and the constructed bit. *)
Definition _decodeTag (buf : DecoderBuffer) (want : Z)
  : result (DecoderBuffer * DecoderBuffer) :=
  let* (t, buf1) := derDecodeTag buf "Failed to decode tag" in
  let* (l, buf2) := derDecodeLen buf1 t.(primitive) "Failed to get length" in
  if negb (t.(tag) =? want) then
    Throw (ReporterError "Failed to match tag")
  else if t.(primitive) || (if l is Some _ then true else false) then
    skip buf2 (len_number l) "Failed to match body"
  else
    let* buf3 := _skipUntilEnd (Z.to_nat (len buf2.(base)) + 1) buf2
                   "Failed to skip indefinite length body" in
    skip buf2 (buf3.(offset) - buf2.(offset)) "Failed to match body".

(** [_decodeInt(buffer)]: [new bignum(buffer.raw())]. *)
Definition _decodeInt (buf : DecoderBuffer) : Z :=
  BN.of_bytes (raw buf).

(** The schema of the script,
<<
    const EcdsaSig = asn1.define("EcdsaSig", function () {
      this.seq().obj(this.key("r").int(), this.key("s").int());
    });
>>
    decoded by [EcdsaSig.decode(data, "der")]: the [seq] node yields its
    body, on which the children [r] and [s] are decoded in order.
    Without the [partial] option every reported error is thrown. *)
Definition EcdsaSig_decode (data : list Z) : result (Z * Z) :=
  let input := of_bytes data in
  let* (body, _) := _decodeTag input tag_seq in
  let* (rbuf, body1) := _decodeTag body tag_int in
  let r := _decodeInt rbuf in
  let* (sbuf, _) := _decodeTag body1 tag_int in
  let s := _decodeInt sbuf in
  Ok (r, s).

End Asn1.

(** ** [Uint8Array] operations *)

(** [new Uint8Array(n)]: [n] zero bytes. *)
Definition Uint8Array_new (n : nat) : list Z := repeat 0 n.

(** [target.set(source, offset)]: [RangeError] when the source does not fit. *)
Definition Uint8Array_set (target source : list Z) (off : nat)
  : result (list Z) :=
  if (off + length source <=? length target)%nat then
    Ok (firstn off target ++ map (fun b => b mod 256) source
          ++ skipn (off + length source) target)
  else Throw (RangeError "offset is out of bounds").

(** ** The signature reconstruction of [kmsSigner]
<<
      const { r, s } = EcdsaSig.decode(signResponse.signature, "der");
      const signature = new Uint8Array(64);
      signature.set(r.toArray("be", 32), 0);
      signature.set(s.toArray("be", 32), 32);
      return signature;
>> *)
Definition kms_normalize (sig : list Z) : result (list Z) :=
  let* (r, s) := Asn1.EcdsaSig_decode sig in
  let signature := Uint8Array_new 64 in
  let* rbytes := BN.toArray_be r 32 in
  let* signature := Uint8Array_set signature rbytes 0 in
  let* sbytes := BN.toArray_be s 32 in
  let* signature := Uint8Array_set signature sbytes 32 in
  Ok signature.

(** [new Uint8Array(arrayLike)]: a copy, each element taken modulo 256. *)
Definition Uint8Array_from (source : list Z) : list Z :=
  map (fun b => b mod 256) source.

(** The signature handling of [azureSigner]:
<<
      // The signature from Azure is already in the correct format.
      return new Uint8Array(signResponse.result);
>> *)
Definition azure_normalize (result : list Z) : list Z :=
  Uint8Array_from result.

(** ** Text encodings of [Buffer] *)
Module Base64.

Definition alphabet : string :=
  "ABCDEFGHIJKLMNOPQRSTUVWXYZabcdefghijklmnopqrstuvwxyz0123456789+/".
Definition alphabet_url : string :=
  "ABCDEFGHIJKLMNOPQRSTUVWXYZabcdefghijklmnopqrstuvwxyz0123456789-_".

Definition char_of (alpha : string) (v : Z) : ascii :=
  match String.get (Z.to_nat v) alpha with
  | Some c => c
  | None => "?"%char
  end.

Fixpoint index_of (c : ascii) (alpha : string) : option Z :=
  match alpha with
  | EmptyString => None
  | String a rest =>
      if Ascii.eqb c a then Some 0
      else match index_of c rest with
           | Some i => Some (i + 1)
           | None => None
           end
  end.

(** The decoder of [Buffer.from(s, "base64")] accepts both alphabets. *)
Definition unbase64 (c : ascii) : option Z :=
  match index_of c alphabet with
  | Some v => Some v
  | None => index_of c alphabet_url
  end.

(** [buf.toString("base64")] ([pad = true], standard alphabet) and
    [buf.toString("base64url")] ([pad = false], URL alphabet). *)
Fixpoint encode_with (alpha : string) (pad : bool) (l : list Z) : string :=
  match l with
  | a :: b :: c :: rest =>
      String (char_of alpha (a / 4))
        (String (char_of alpha (a mod 4 * 16 + b / 16))
           (String (char_of alpha (b mod 16 * 4 + c / 64))
              (String (char_of alpha (c mod 64))
                 (encode_with alpha pad rest))))
  | [a; b] =>
      String (char_of alpha (a / 4))
        (String (char_of alpha (a mod 4 * 16 + b / 16))
           (String (char_of alpha (b mod 16 * 4))
              (if pad then "=" else "")))
  | [a] =>
      String (char_of alpha (a / 4))
        (String (char_of alpha (a mod 4 * 16))
           (if pad then "==" else ""))
  | [] => ""
  end.

Definition encode (l : list Z) : string := encode_with alphabet true l.
Definition encode_url (l : list Z) : string :=
  encode_with alphabet_url false l.

(** [Buffer.from(s, "base64")]: characters outside the alphabets are
    skipped, the first ['='] ends the input; every complete group of
    four characters gives three bytes, a final group of three gives two
    and one of two gives one. *)
Fixpoint sextets (s : string) : list Z :=
  match s with
  | EmptyString => []
  | String c rest =>
      if Ascii.eqb c "="%char then []
      else match unbase64 c with
           | Some v => v :: sextets rest
           | None => sextets rest
           end
  end.

Fixpoint bytes_of_sextets (l : list Z) : list Z :=
  match l with
  | a :: b :: c :: d :: rest =>
      (a * 4 + b / 16) :: (b mod 16 * 16 + c / 4) :: (c mod 4 * 64 + d)
        :: bytes_of_sextets rest
  | [a; b; c] => [a * 4 + b / 16; b mod 16 * 16 + c / 4]
  | [a; b] => [a * 4 + b / 16]
  | _ => []
  end.

Definition decode (s : string) : list Z := bytes_of_sextets (sextets s).

End Base64.

Module Hex.

Definition digit (n : Z) : ascii :=
  match String.get (Z.to_nat n) "0123456789abcdef" with
  | Some c => c
  | None => "?"%char
  end.

(** [buf.toString("hex")] *)
Fixpoint encode (l : list Z) : string :=
  match l with
  | [] => ""
  | b :: rest => String (digit (b / 16)) (String (digit (b mod 16)) (encode rest))
  end.

End Hex.

(** [s.split(sep)] for a one-character separator. *)
Fixpoint split (sep : ascii) (s : string) : list string :=
  match s with
  | EmptyString => [EmptyString]
  | String c rest =>
      if Ascii.eqb c sep then EmptyString :: split sep rest
      else match split sep rest with
           | field :: fields => String c field :: fields
           | [] => [String c EmptyString]
           end
  end.

(** [fields.join(sep)], the composite strings the transit engine sends. *)
Fixpoint join (sep : ascii) (fields : list string) : string :=
  match fields with
  | [] => ""
  | [f] => f
  | f :: rest => f ++ String sep (join sep rest)
  end.

Fixpoint contains (c : ascii) (s : string) : bool :=
  match s with
  | EmptyString => false
  | String a rest => Ascii.eqb a c || contains c rest
  end.

(** The signature handling of [vaultSigner]:
<<
      const signature = data.data.signature.split(":")[2];
      return Buffer.from(signature, "base64");
>>
      [Buffer.from(undefined, "base64")] is a [TypeError]. *)
Definition vault_normalize (signature : string) : result (list Z) :=
  match split ":"%char signature !! 2%nat with
  | Some field => Ok (Base64.decode field)
  | None => Throw (TypeError "ERR_INVALID_ARG_TYPE")
  end.

(** ** Digests: Keccak-256 (the [keccak256] package) and SHA-256 *)
Module Keccak.

Definition w64 (x : Z) : Z := x mod 2 ^ 64.

Definition rotl64 (x n : Z) : Z :=
  Z.lor (w64 (Z.shiftl x n)) (Z.shiftr x (64 - n)).

Definition lane (st : list Z) (x y : Z) : Z :=
  nth (Z.to_nat (x mod 5 + 5 * (y mod 5))) st 0.

Definition coords : list (Z * Z) :=
  map (fun i => (Z.of_nat i mod 5, Z.of_nat i / 5)) (seq 0 25).

Definition rotc : list Z :=
  [ 0;  1; 62; 28; 27;
   36; 44;  6; 55; 20;
    3; 10; 43; 25; 39;
   41; 45; 15; 21;  8;
   18;  2; 61; 56; 14].

Definition RC : list Z :=
  [0x0000000000000001; 0x0000000000008082; 0x800000000000808A;
   0x8000000080008000; 0x000000000000808B; 0x0000000080000001;
   0x8000000080008081; 0x8000000000008009; 0x000000000000008A;
   0x0000000000000088; 0x0000000080008009; 0x000000008000000A;
   0x000000008000808B; 0x800000000000008B; 0x8000000000008089;
   0x8000000000008003; 0x8000000000008002; 0x8000000000000080;
   0x000000000000800A; 0x800000008000000A; 0x8000000080008081;
   0x8000000000008080; 0x0000000080000001; 0x8000000080008008].

Definition theta (st : list Z) : list Z :=
  let C := map (fun x => fold_left Z.lxor
                   (map (fun y => lane st x y) [0; 1; 2; 3; 4]) 0)
               [0; 1; 2; 3; 4] in
  let c x := nth (Z.to_nat (x mod 5)) C 0 in
  map (fun '(x, y) => Z.lxor (lane st x y)
                        (Z.lxor (c (x + 4)) (rotl64 (c (x + 1)) 1)))
      coords.

Definition rho_pi (st : list Z) : list Z :=
  map (fun '(x, y) =>
         let x0 := (x + 3 * y) mod 5 in
         rotl64 (lane st x0 x) (lane rotc x0 x))
      coords.

Definition chi (st : list Z) : list Z :=
  map (fun '(x, y) =>
         Z.lxor (lane st x y)
                (Z.ldiff (lane st (x + 2) y) (lane st (x + 1) y)))
      coords.

Definition iota (rc : Z) (st : list Z) : list Z :=
  match st with
  | a :: rest => Z.lxor a rc :: rest
  | [] => []
  end.

Definition round (st : list Z) (rc : Z) : list Z :=
  iota rc (chi (rho_pi (theta st))).

Definition keccak_f (st : list Z) : list Z := fold_left round RC st.

Definition le64 (bs : list Z) : Z :=
  fold_right (fun b acc => b mod 256 + 256 * acc) 0 bs.

Fixpoint lanes_of (n : nat) (bs : list Z) : list Z :=
  match n with
  | O => []
  | S n' => le64 (firstn 8 bs) :: lanes_of n' (skipn 8 bs)
  end.

Definition absorb_block (st block : list Z) : list Z :=
  let ls := lanes_of 17 block in
  keccak_f (map (fun i => Z.lxor (nth i st 0) (nth i ls 0)) (seq 0 25)).

Definition rate : nat := 136.

(** [cur] holds the bytes of the block being filled, newest first. *)
Fixpoint absorb (st cur : list Z) (msg : list Z) : list Z * list Z :=
  match msg with
  | [] => (st, cur)
  | b :: msg' =>
      let cur' := b :: cur in
      if (length cur' =? rate)%nat
      then absorb (absorb_block st (rev cur')) [] msg'
      else absorb st cur' msg'
  end.

Definition pad (cur : list Z) : list Z :=
  let n := (rate - length cur)%nat in
  if (n =? 1)%nat then rev cur ++ [0x81]
  else rev cur ++ [0x01] ++ repeat 0 (n - 2) ++ [0x80].

Definition bytes_of_lane (l : Z) : list Z :=
  map (fun k => Z.shiftr l (8 * Z.of_nat k) mod 256) (seq 0 8).

Definition keccak256 (msg : list Z) : list Z :=
  let '(st, cur) := absorb (repeat 0 25) [] msg in
  let st' := absorb_block st (pad cur) in
  flat_map bytes_of_lane (firstn 4 st').

End Keccak.

Module Sha256.
Definition w32 (x : Z) : Z := x mod 2 ^ 32.
Definition rotr (x n : Z) : Z :=
  Z.lor (Z.shiftr x n) (w32 (Z.shiftl x (32 - n))).
(** The round constants are the first 32 fractional bits of the cube
    roots of the first 64 primes, the initial hash value those of the
    square roots of the first 8 primes. *)
Definition is_prime (n : nat) : bool :=
  (2 <=? n)%nat && forallb (fun d => negb (n mod d =? 0)%nat) (seq 2 (n - 2)).

Definition primes (count : nat) : list Z :=
  map Z.of_nat (firstn count (List.filter is_prime (seq 2 320))).

(** The largest [x] in [lo, hi) with [x ^ 3 <= n], by bisection. *)
Fixpoint cube_root (steps : nat) (n lo hi : Z) : Z :=
  match steps with
  | O => lo
  | S steps' =>
      let mid := (lo + hi) / 2 in
      if mid * mid * mid <=? n then cube_root steps' n mid hi
      else cube_root steps' n lo mid
  end.

Definition K : list Z :=
  map (fun q => w32 (cube_root 40 (q * 2 ^ 96) 0 (2 ^ 35))) (primes 64).

Definition H0 : list Z :=
  map (fun q => w32 (Z.sqrt (q * 2 ^ 64))) (primes 8).

Definition be32 (bs : list Z) : Z := fold_left (fun acc b => acc * 256 + b mod 256) bs 0.

Fixpoint words_of (n : nat) (bs : list Z) : list Z :=
  match n with O => [] | S n' => be32 (firstn 4 bs) :: words_of n' (skipn 4 bs) end.

(** Message schedule: [w] holds the words so far, newest first. *)
Fixpoint schedule (n : nat) (w : list Z) : list Z :=
  match n with
  | O => w
  | S n' =>
      let w2 := nth 1 w 0 in let w7 := nth 6 w 0 in
      let w15 := nth 14 w 0 in let w16 := nth 15 w 0 in
      let s0 := Z.lxor (Z.lxor (rotr w15 7) (rotr w15 18)) (Z.shiftr w15 3) in
      let s1 := Z.lxor (Z.lxor (rotr w2 17) (rotr w2 19)) (Z.shiftr w2 10) in
      schedule n' (w32 (w16 + s0 + w7 + s1) :: w)
  end.

Definition step (v : list Z) (kw : Z * Z) : list Z :=
  match v with
  | [a; b; c; d; e; f; g; h] =>
      let S1 := Z.lxor (Z.lxor (rotr e 6) (rotr e 11)) (rotr e 25) in
      let ch := Z.lxor (Z.land e f) (Z.land (Z.lxor e (2^32 - 1)) g) in
      let t1 := w32 (h + S1 + ch + fst kw + snd kw) in
      let S0 := Z.lxor (Z.lxor (rotr a 2) (rotr a 13)) (rotr a 22) in
      let maj := Z.lxor (Z.lxor (Z.land a b) (Z.land a c)) (Z.land b c) in
      let t2 := w32 (S0 + maj) in
      [w32 (t1 + t2); a; b; c; w32 (d + t1); e; f; g]
  | _ => v
  end.

Definition compress (h block : list Z) : list Z :=
  let w := rev (schedule 48 (rev (words_of 16 block))) in
  let v := fold_left step (combine K w) h in
  map (fun '(x, y) => w32 (x + y)) (combine h v).

Fixpoint absorb (h cur : list Z) (msg : list Z) : list Z * list Z :=
  match msg with
  | [] => (h, cur)
  | b :: msg' =>
      let cur' := b :: cur in
      if (length cur' =? 64)%nat
      then absorb (compress h (rev cur')) [] msg'
      else absorb h cur' msg'
  end.

Definition be_bytes8 (v : Z) : list Z :=
  map (fun k => Z.shiftr v (8 * (7 - Z.of_nat k)) mod 256) (seq 0 8).
Definition be_bytes4 (v : Z) : list Z :=
  map (fun k => Z.shiftr v (8 * (3 - Z.of_nat k)) mod 256) (seq 0 4).

Definition sha256 (msg : list Z) : list Z :=
  let '(h, cur) := absorb H0 [] msg in
  let bits := be_bytes8 (8 * Z.of_nat (length msg)) in
  let n := length cur in
  let tail :=
    if (n <? 56)%nat
    then rev cur ++ [0x80] ++ repeat 0 (55 - n) ++ bits
    else rev cur ++ [0x80] ++ repeat 0 (119 - n) ++ bits in
  let h' := if (n <? 56)%nat then compress h tail
            else compress (compress h (firstn 64 tail)) (skipn 64 tail) in
  flat_map be_bytes4 h'.
End Sha256.

(** ** Values of JavaScript objects handled by the scripts *)

Inductive jsval : Type :=
| JString (s : string)
| JBuffer (b : list Z)
| JOther.                       (* any other value: number, array, object *)

(** [v.toString("base64url")] for the value of a property: a missing
    property is [undefined], which has no method; a string returns
    itself whatever the argument. *)
Definition toString_base64url (v : option jsval) : result string :=
  match v with
  | None => Throw (TypeError "Cannot read properties of undefined")
  | Some (JBuffer b) => Ok (Base64.encode_url b)
  | Some (JString s) => Ok s
  | Some JOther => Unmodelled "toString of a value that is no Buffer"
  end.

(** ** node:crypto public keys on secp256k1 *)
Module Secp256k1.

Definition p : Z := 2 ^ 256 - 2 ^ 32 - 977.

(** y^2 = x^3 + 7 over the field of [p] elements. *)
Definition on_curve (x y : Z) : bool :=
  (y * y) mod p =? (x * x * x + 7) mod p.

Definition in_field (x : Z) : bool := (0 <=? x) && (x <? p).

End Secp256k1.

(** A [KeyObject] for a public key on the named curve secp256k1, kept as
    its affine point. *)
Record KeyObject : Type := mkKeyObject { kx : Z; ky : Z }.

(** Setting the public key from affine coordinates: the coordinates have
    to be field elements and the point has to be on the curve.  What is
    thrown for a point that is refused depends on the format that was
    being read, so the caller names it. *)
Definition import_point (refused : exn) (x y : Z) : result KeyObject :=
  if Secp256k1.in_field x && Secp256k1.in_field y && Secp256k1.on_curve x y
  then Ok (mkKeyObject x y)
  else Throw refused.

Definition one_of (s : string) (l : list string) : bool :=
  existsb (String.eqb s) l.

(** [createPublicKey({ key, format: "jwk" })].  The property checks are
    those of the runtime; of the key types and curves it supports, the
    import itself is modelled for [kty = "EC"], [crv = "secp256k1"], the
    only values the script passes. *)
Definition createPublicKey_jwk (key : gmap string jsval) : result KeyObject :=
  match key !! "kty" with
  | Some (JString kty) =>
      if negb (one_of kty ["RSA"; "EC"; "OKP"]) then
        Throw (TypeError "ERR_INVALID_ARG_VALUE key.kty")
      else if negb (String.eqb kty "EC") then
        Unmodelled "key type other than EC"
      else
        match key !! "crv" with
        | Some (JString crv) =>
            if negb (one_of crv ["P-256"; "secp256k1"; "P-384"; "P-521"]) then
              Throw (TypeError "ERR_INVALID_ARG_VALUE key.crv")
            else
              match key !! "x", key !! "y" with
              | Some (JString x), Some (JString y) =>
                  if negb (String.eqb crv "secp256k1") then
                    Unmodelled "curve other than secp256k1"
                  else
                    import_point (TypeError "ERR_CRYPTO_INVALID_JWK")
                                 (BN.of_bytes (Base64.decode x))
                                 (BN.of_bytes (Base64.decode y))
              | _, _ => Throw (TypeError "ERR_INVALID_ARG_TYPE key.x, key.y")
              end
        | _ => Throw (TypeError "ERR_INVALID_ARG_TYPE key.crv")
        end
  | _ => Throw (TypeError "ERR_INVALID_ARG_VALUE key.kty")
  end.

(** SubjectPublicKeyInfo of a secp256k1 key: the algorithm identifier
    (id-ecPublicKey, secp256k1) and the BIT STRING header, followed by the
    uncompressed point 04 || X || Y. *)
Definition spki_prefix : list Z :=
  [0x30; 0x56; 0x30; 0x10; 0x06; 0x07; 0x2a; 0x86; 0x48; 0xce; 0x3d; 0x02;
   0x01; 0x06; 0x05; 0x2b; 0x81; 0x04; 0x00; 0x0a; 0x03; 0x42; 0x00; 0x04].

(** [keyObject.export({ type: "spki", format: "der" })] *)
Definition export_spki_der (k : KeyObject) : list Z :=
  (spki_prefix ++ BN.be_bytes 32 k.(kx) ++ BN.be_bytes 32 k.(ky))%list.

Module Pem.

Definition nl : ascii := ascii_of_nat 10.
Definition header : string :=
  "-----BEGIN PUBLIC KEY-----" ++ String nl "".
Definition footer : string := "-----END PUBLIC KEY-----".

(** Lines of 64 characters; [room] is what is left on the current line. *)
Fixpoint wrap (room : nat) (s : string) : string :=
  match s with
  | EmptyString => String nl ""
  | String c rest =>
      match room with
      | O => String nl (String c (wrap 63 rest))
      | S room' => String c (wrap room' rest)
      end
  end.

(** The PEM text of a DER structure, as the KMS service returns it. *)
Definition encode (der : list Z) : string :=
  header ++ wrap 64 (Base64.encode der) ++ footer ++ String nl "".

Fixpoint strip_prefix (pre s : string) : option string :=
  match pre with
  | EmptyString => Some s
  | String a pre' =>
      match s with
      | String b s' => if Ascii.eqb a b then strip_prefix pre' s' else None
      | EmptyString => None
      end
  end.

(** The text before the first ['-'] and the text from it on. *)
Fixpoint until_dash (s : string) : string * string :=
  match s with
  | EmptyString => ("", "")
  | String c rest =>
      if Ascii.eqb c "-"%char then ("", s)
      else let (body, tail) := until_dash rest in (String c body, tail)
  end.

Fixpoint remove_newlines (s : string) : string :=
  match s with
  | EmptyString => ""
  | String c rest =>
      if Ascii.eqb c nl then remove_newlines rest
      else String c (remove_newlines rest)
  end.

(** Reading a PEM text: the DER bytes of a "PUBLIC KEY" block whose
    body is canonical base64 broken into lines. *)
Definition decode (pem : string) : result (list Z) :=
  match strip_prefix header pem with
  | None => Unmodelled "PEM block other than PUBLIC KEY"
  | Some rest =>
      let (body, tail) := until_dash rest in
      let text := remove_newlines body in
      let der := Base64.decode text in
      if String.eqb (Base64.encode der) text
         && (if strip_prefix footer tail is Some _ then true else false)
      then Ok der
      else Unmodelled "PEM body"
  end.

End Pem.

(** Reading a SubjectPublicKeyInfo: modelled for the named-curve
    secp256k1 form with an uncompressed point. *)
Definition parse_spki (der : list Z) : result KeyObject :=
  if bool_decide (take 24 der = spki_prefix) && (length der =? 88)%nat
  then import_point (CryptoError "ERR_OSSL_EVP_DECODE_ERROR")
                    (BN.of_bytes (take 32 (drop 24 der)))
                    (BN.of_bytes (drop 56 der))
  else Unmodelled "SubjectPublicKeyInfo other than uncompressed secp256k1".

(** [createPublicKey(pem)] for a string argument. *)
Definition createPublicKey_pem (pem : string) : result KeyObject :=
  let* der := Pem.decode pem in
  parse_spki der.

(** ** The key conversions of the two secp256k1 scripts *)

(** [fetchAzurePublicKey], the four assignments on the JWK:
<<
      azureJwk.kty = "EC";
      azureJwk.crv = "secp256k1";
      azureJwk.x = azureJwk.x.toString('base64url');
      azureJwk.y = azureJwk.y.toString('base64url');
>> *)
Definition azure_rewrite_jwk (azureJwk : gmap string jsval)
  : result (gmap string jsval) :=
  let azureJwk := <["kty" := JString "EC"]> azureJwk in
  let azureJwk := <["crv" := JString "secp256k1"]> azureJwk in
  let* x := toString_base64url (azureJwk !! "x") in
  let azureJwk := <["x" := JString x]> azureJwk in
  let* y := toString_base64url (azureJwk !! "y") in
  let azureJwk := <["y" := JString y]> azureJwk in
  Ok azureJwk.

(** ... and the conversion to the text handed to [PublicKey.fromString]:
<<
      const keyObject = createPublicKey({ key: azureJwk, format: "jwk" });
      const spkiDer = keyObject.export({ type: "spki", format: "der" });
      ... spkiDer.toString("hex")
>> *)
Definition azure_key_normalize (azureJwk : gmap string jsval)
  : result string :=
  let* azureJwk := azure_rewrite_jwk azureJwk in
  let* keyObject := createPublicKey_jwk azureJwk in
  let spkiDer := export_spki_der keyObject in
  Ok (Hex.encode spkiDer).

(** [fetchKmsPublicKey]:
<<
      const keyObject = createPublicKey(kmsPublicKey.pem);
      const spkiDer = keyObject.export({ type: "spki", format: "der" });
      ... spkiDer.toString("hex")
>> *)
Definition kms_key_normalize (pem : string) : result string :=
  let* keyObject := createPublicKey_pem pem in
  let spkiDer := export_spki_der keyObject in
  Ok (Hex.encode spkiDer).

(** ** DER encoding of an ECDSA signature

    Not part of the scripts: the encoder (X.690, definite short-form
    lengths) says what the signatures sent by the backends look like. *)
Module DerSig.

(** The significant bytes of [v], most significant first; one zero byte
    for 0. *)
Definition min_bytes (v : Z) : list Z :=
  if v =? 0 then [0] else BN.be_bytes (Z.to_nat (BN.byteLength v)) v.

(** Content octets of a non-negative INTEGER: the significant bytes,
    preceded by the sign-padding byte 0x00 when their top bit is set. *)
Definition int_content (v : Z) : list Z :=
  let m := min_bytes v in
  if 128 <=? hd 0 m then 0 :: m else m.

(** Content octets with the sign-padding byte forced or left out. *)
Definition int_content_pad (pad : bool) (v : Z) : list Z :=
  if pad then 0 :: min_bytes v else min_bytes v.

Definition tlv (t : Z) (content : list Z) : list Z :=
  t :: len content :: content.

(** SEQUENCE of two INTEGERs with the given content octets. *)
Definition seq2 (rc sc : list Z) : list Z :=
  tlv 48 (tlv 2 rc ++ tlv 2 sc).

Definition encode (r s : Z) : list Z :=
  seq2 (int_content r) (int_content s).

Definition encode_pad (pad_r pad_s : bool) (r s : Z) : list Z :=
  seq2 (int_content_pad pad_r r) (int_content_pad pad_s s).

(** A SEQUENCE that holds one INTEGER only. *)
Definition seq1 (rc : list Z) : list Z := tlv 48 (tlv 2 rc).

End DerSig.

(** Left padding with zero bytes to width [n]. *)
Definition left_pad (n : nat) (l : list Z) : list Z :=
  (repeat 0 (n - length l) ++ l)%list.

(** ** Remote services and SDK objects

    What the scripts exchange with the key vault, the KMS, the transit
    engine and the Hedera SDK.  Every call of a client library is a
    [call]; its answer is given by a handler over the state [B] of the
    services, and the calls made are recorded in order.  [console.log]
    lines are left out. *)

Record KeyVaultKey : Type := mkKeyVaultKey {
  kvk_id : option string;                  (* [id?: string] *)
  kvk_key : option (gmap string jsval)     (* [key?: JsonWebKey] *)
}.

Record CryptographyClient : Type := mkCryptographyClient {
  cc_key : option string
}.

Record SignResult : Type := mkSignResult { sr_result : list Z }.

(** [{ name, digest: { sha256: ... } }]: the digest object maps the name
    of a digest field to the bytes placed there. *)
Record AsymmetricSignRequest : Type := mkAsymmetricSignRequest {
  asr_name : string;
  asr_digest : gmap string (list Z)
}.

Record AsymmetricSignResponse : Type := mkAsymmetricSignResponse {
  asr_signature : list Z
}.

Record KmsPublicKey : Type := mkKmsPublicKey { kpk_pem : string }.

(** [data.data.keys[version].public_key] *)
Record TransitKey : Type := mkTransitKey { tk_keys : gmap string string }.

(** [data.data.signature] *)
Record TransitSignature : Type := mkTransitSignature { ts_signature : string }.

(** A [PublicKey] of the Hedera SDK, by the key bytes it holds. *)
Record PublicKey : Type := mkPublicKey { pk_bytes : list Z }.

Inductive call : Type -> Type :=
| KeyClient_getKey (name : string) : call KeyVaultKey
| CryptographyClient_new (key : option string) : call CryptographyClient
| CryptographyClient_sign (client : CryptographyClient) (algorithm : string)
                          (digest : list Z) : call SignResult
| Kms_asymmetricSign (request : AsymmetricSignRequest)
  : call AsymmetricSignResponse
| Kms_getPublicKey (name : string) : call KmsPublicKey
| Axios_get (url : string) : call TransitKey
| Axios_post (url : string) (input : string) : call TransitSignature
| PublicKey_fromString (text : string) : call PublicKey.

Definition logged : Type := { T : Type & call T }.

Record World (B : Type) : Type := mkWorld {
  remote : B;
  calls : list logged
}.
Arguments mkWorld {B} remote calls.
Arguments remote {B} w.
Arguments calls {B} w.

(** An asynchronous function of the scripts: a world transformer with an
    outcome.  [await] sequences. *)
Definition M (B A : Type) : Type := World B -> World B * result A.

Definition ret {B A} (a : A) : M B A := fun w => (w, Ok a).

Definition lift {B A} (r : result A) : M B A := fun w => (w, r).

Definition bind {B A C} (m : M B A) (k : A -> M B C) : M B C :=
  fun w =>
    match m w with
    | (w', Ok a) => k a w'
    | (w', Throw e) => (w', Throw e)
    | (w', Unmodelled why) => (w', Unmodelled why)
    end.

Notation "'let!' x := m 'in' k" := (bind m (fun x => k))
  (at level 10, x pattern, m at level 100, k at level 200).

Definition is_getKey (c : logged) : bool :=
  match projT2 c with KeyClient_getKey _ => true | _ => false end.

Definition is_sign (c : logged) : bool :=
  match projT2 c with CryptographyClient_sign _ _ _ => true | _ => false end.

Definition is_kms_getPublicKey (c : logged) : bool :=
  match projT2 c with Kms_getPublicKey _ => true | _ => false end.

Definition count (f : logged -> bool) (l : list logged) : nat :=
  length (List.filter f l).

(** The payload bytes that a signing request hands to its service: the
    digest argument of [cryptoClient.sign], the content of the "sha256"
    field of [asymmetricSign], the bytes that the base64 text of the
    transit request stands for. *)
Definition transmitted (c : logged) : option (list Z) :=
  match projT2 c with
  | CryptographyClient_sign _ _ digest => Some digest
  | Kms_asymmetricSign request => request.(asr_digest) !! "sha256"
  | Axios_post _ input => Some (Base64.decode input)
  | _ => None
  end.

Section Scripts.

Context {B : Type}.

(** The answers of the services and of the SDK. *)
Variable handler : forall T : Type, call T -> B -> B * result T.

(** [process.env] *)
Variables AZURE_KEY_NAME GCP_KMS_KEY_VERSION : string.

Definition perform {T} (c : call T) : M B T :=
  fun w =>
    let (b, r) := handler T c w.(remote) in
    (mkWorld b (w.(calls) ++ [existT T c]), r).

(** azure-hedera-hsm.js
<<
    async function azureSigner(bytesToSign) {
      const cryptoClient = new CryptographyClient(
        (await keyClient.getKey(AZURE_KEY_NAME)).id,
        credential
      );
      const digest = keccak256(bytesToSign);
      const signResponse = await cryptoClient.sign("ES256K", digest);
      // The signature from Azure is already in the correct format.
      return new Uint8Array(signResponse.result);
    }
>> *)
Definition azureSigner (bytesToSign : list Z) : M B (list Z) :=
  let! key := perform (KeyClient_getKey AZURE_KEY_NAME) in
  let! cryptoClient := perform (CryptographyClient_new key.(kvk_id)) in
  let digest := Keccak.keccak256 bytesToSign in
  let! signResponse :=
    perform (CryptographyClient_sign cryptoClient "ES256K" digest) in
  ret (azure_normalize signResponse.(sr_result)).

(** [fetchAzurePublicKey]: [getKey], the JWK conversion, then
    [PublicKey.fromString] on the hex text. *)
Definition fetchAzurePublicKey : M B PublicKey :=
  let! key := perform (KeyClient_getKey AZURE_KEY_NAME) in
  match key.(kvk_key) with
  | None => lift (Throw (TypeError "Cannot set properties of undefined"))
  | Some azureJwk =>
      let! text := lift (azure_key_normalize azureJwk) in
      perform (PublicKey_fromString text)
  end.

(** gcp-hedera-hsm.js
<<
    async function kmsSigner(bytesToSign) {
      const digest = keccak256(bytesToSign);
      const [signResponse] = await kmsClient.asymmetricSign({
        name: GCP_KMS_KEY_VERSION,
        digest: { sha256: digest },
      });
      const { r, s } = EcdsaSig.decode(signResponse.signature, "der");
      ...
      return signature;
    }
>> *)
Definition kmsSigner (bytesToSign : list Z) : M B (list Z) :=
  let digest := Keccak.keccak256 bytesToSign in
  let! signResponse :=
    perform (Kms_asymmetricSign
               (mkAsymmetricSignRequest GCP_KMS_KEY_VERSION
                                        {[ "sha256" := digest ]})) in
  lift (kms_normalize signResponse.(asr_signature)).

(** [fetchKmsPublicKey]: [getPublicKey], the PEM conversion, then
    [PublicKey.fromString] on the hex text. *)
Definition fetchKmsPublicKey : M B PublicKey :=
  let! kmsPublicKey := perform (Kms_getPublicKey GCP_KMS_KEY_VERSION) in
  let! text := lift (kms_key_normalize kmsPublicKey.(kpk_pem)) in
  perform (PublicKey_fromString text).

(** The transit script
<<
    async function vaultSigner(bytesToSign) {
      const inputData = Buffer.from(bytesToSign).toString("base64");
      const { data } = await axios.post("/v1/transit/sign/hedera-key", {
        input: inputData,
      });
      const signature = data.data.signature.split(":")[2];
      return Buffer.from(signature, "base64");
    }
>> *)
Definition vaultSigner (bytesToSign : list Z) : M B (list Z) :=
  let inputData := Base64.encode (Uint8Array_from bytesToSign) in
  let! data := perform (Axios_post "/v1/transit/sign/hedera-key" inputData) in
  lift (vault_normalize data.(ts_signature)).

(** [getVaultPublicKey]
<<
    const { data } = await axios.get("/v1/transit/keys/hedera-key");
    const pubKeyBase64 = data.data.keys["1"].public_key;
    return PublicKey.fromString(pubKeyBase64);
>> *)
Definition getVaultPublicKey : M B PublicKey :=
  let! data := perform (Axios_get "/v1/transit/keys/hedera-key") in
  match data.(tk_keys) !! "1" with
  | None => lift (Throw (TypeError "Cannot read properties of undefined"))
  | Some pubKeyBase64 => perform (PublicKey_fromString pubKeyBase64)
  end.

(** Calling an asynchronous function once per element, whatever the
    outcomes, as the SDK does with a signer over its transactions. *)
Fixpoint for_each {A C} (f : A -> M B C) (l : list A) (w : World B)
  : World B :=
  match l with
  | [] => w
  | a :: rest => for_each f rest (fst (f a w))
  end.

(** [n] calls of a function without arguments. *)
Definition times {C} (n : nat) (m : M B C) (w : World B) : World B :=
  for_each (fun _ : unit => m) (repeat tt n) w.

End Scripts.

(** ** A sample deployment

    Services that hold the key whose public point is the generator of
    secp256k1 and answer every request. *)
Module Sample.

Definition Gx : Z :=
  0x79BE667EF9DCBBAC55A06295CE870B07029BFCDB2DCE28D959F2815B16F81798.
Definition Gy : Z :=
  0x483ADA7726A3C4655DA4FBFC0E1108A8FD17B448A68554199C47D08FFB10D4B8.

Definition jwk : gmap string jsval :=
  <["kty" := JString "EC-HSM"]>
    (<["crv" := JString "P-256K"]>
       (<["x" := JBuffer (BN.be_bytes 32 Gx)]>
          (<["y" := JBuffer (BN.be_bytes 32 Gy)]>
             (<["kid" := JString "https://vault/keys/hedera/1"]> ∅)))).

Definition pem : string := Pem.encode (export_spki_der (mkKeyObject Gx Gy)).

(** The state of the services is the number of requests answered. *)
Definition handler (T : Type) (c : call T) (n : nat) : nat * result T :=
  (S n,
   match c in call T return result T with
   | KeyClient_getKey name =>
       Ok (mkKeyVaultKey (Some "https://vault/keys/hedera/1") (Some jwk))
   | CryptographyClient_new key => Ok (mkCryptographyClient key)
   | CryptographyClient_sign _ _ _ =>
       Ok (mkSignResult (BN.be_bytes 32 5 ++ BN.be_bytes 32 7))
   | Kms_asymmetricSign _ =>
       Ok (mkAsymmetricSignResponse (DerSig.encode 5 7))
   | Kms_getPublicKey _ => Ok (mkKmsPublicKey pem)
   | Axios_get _ => Ok (mkTransitKey {[ "1" := "AAEC" ]})
   | Axios_post _ _ => Ok (mkTransitSignature "vault:v1:QUJD")
   | PublicKey_fromString text =>
       Ok (mkPublicKey (map (fun c => Z.of_nat (nat_of_ascii c))
                            (list_ascii_of_string text)))
   end).

Definition world : World nat := mkWorld 0%nat [].

End Sample.

(** ** The layout detection the specification describes

    Stated from the specification's words, to be compared with
    [azure_normalize]: bytes of length 64 that do not start with the
    SEQUENCE tag are taken as they are, anything else is DER-decoded. *)
Definition layout_detecting_normalize (sig : list Z) : result (list Z) :=
  if (length sig =? 64)%nat && negb (hd 0 sig =? 48) then Ok sig
  else kms_normalize sig.

Definition bytes_okb (l : list Z) : bool :=
  forallb (fun b => (0 <=? b) && (b <? 256)) l.

(** ** Other deployments, for the edge cases of the scripts *)
Module Variants.

(** Services that reject every request. *)
Definition outage (T : Type) (c : call T) (n : nat) : nat * result T :=
  (n, Throw (BackendError "unavailable")).

(** A transit engine whose key has been rotated past version 1, and
    whose signatures come in two fields only. *)
Definition rotated (T : Type) (c : call T) (n : nat) : nat * result T :=
  match c in call T return nat * result T with
  | Axios_get _ => (S n, Ok (mkTransitKey {[ "2" := "AAEC" ]}))
  | Axios_post _ _ => (S n, Ok (mkTransitSignature "v2:QUJD"))
  | other => Sample.handler _ other n
  end.

(** A vault that answers [getKey] with a key that carries no JWK. *)
Definition no_jwk (T : Type) (c : call T) (n : nat) : nat * result T :=
  match c in call T return nat * result T with
  | KeyClient_getKey _ => (S n, Ok (mkKeyVaultKey (Some "id") None))
  | other => Sample.handler _ other n
  end.

(** A vault whose JWK lacks the [y] coordinate. *)
Definition no_y (T : Type) (c : call T) (n : nat) : nat * result T :=
  match c in call T return nat * result T with
  | KeyClient_getKey _ =>
      (S n, Ok (mkKeyVaultKey (Some "id") (Some (delete "y" Sample.jwk))))
  | other => Sample.handler _ other n
  end.

(** A KMS whose PEM holds a point that is not on secp256k1. *)
Definition off_curve (T : Type) (c : call T) (n : nat) : nat * result T :=
  match c in call T return nat * result T with
  | Kms_getPublicKey _ =>
      (S n, Ok (mkKmsPublicKey
                  (Pem.encode (export_spki_der (mkKeyObject 1 1)))))
  | other => Sample.handler _ other n
  end.

End Variants.

(** ** Start of the scripts and account creation *)
Module Script.

(** [throw new Error(msg)] in a script, and a rejection by the Hedera
    SDK. *)
Inductive error : Type :=
| Error (msg : string)
| SdkError (msg : string).

Inductive outcome (A : Type) : Type :=
| Done (a : A)
| Raise (e : error).
Arguments Done {A} a.
Arguments Raise {A} e.

(** [!v] for a variable of [process.env]: a missing variable is
    [undefined], and the empty string is falsy as well. *)
Definition falsy (v : option string) : bool :=
  match v with
  | None => true
  | Some s => String.eqb s ""
  end.

Definition missing_variables : error :=
  Error "Missing required environment variables. Please check your .env file.".

(** gcp-hedera-hsm.js
<<
    if (!GCP_KMS_KEY_VERSION || !HEDERA_ACCOUNT_ID || !HEDERA_PRIVATE_KEY) {
      throw new Error(
        "Missing required environment variables. Please check your .env file."
      );
    }
>> *)
Definition gcp_check_env (env : gmap string string) : outcome unit :=
  if falsy (env !! "GCP_KMS_KEY_VERSION")
     || falsy (env !! "HEDERA_ACCOUNT_ID")
     || falsy (env !! "HEDERA_PRIVATE_KEY")
  then Raise missing_variables
  else Done tt.

(** azure-hedera-hsm.js
<<
    if (
      !AZURE_KEY_VAULT_URI ||
      !AZURE_KEY_NAME ||
      !HEDERA_ACCOUNT_ID ||
      !HEDERA_PRIVATE_KEY
    ) {
      throw new Error(
        "Missing required environment variables. Please check your .env file."
      );
    }
>> *)
Definition azure_check_env (env : gmap string string) : outcome unit :=
  if falsy (env !! "AZURE_KEY_VAULT_URI")
     || falsy (env !! "AZURE_KEY_NAME")
     || falsy (env !! "HEDERA_ACCOUNT_ID")
     || falsy (env !! "HEDERA_PRIVATE_KEY")
  then Raise missing_variables
  else Done tt.

(** Objects of the Hedera SDK that account creation handles. *)
Record AccountId : Type := mkAccountId { shard : Z; realm : Z; num : Z }.

(** [new Hbar(amount)] *)
Inductive Hbar : Type := Hbar_new (amount : Z).

(** [Client.forTestnet().setOperator(accountId, privateKey)] *)
Record Client : Type := mkClient {
  network : string;
  operatorAccountId : string;
  operatorPrivateKey : string
}.

Record AccountCreateTransaction : Type := mkAccountCreateTransaction {
  act_key : option PublicKey;
  act_initialBalance : option Hbar
}.

(** [new AccountCreateTransaction()], [.setKey(key)],
    [.setInitialBalance(balance)] *)
Definition AccountCreateTransaction_new : AccountCreateTransaction :=
  mkAccountCreateTransaction None None.

Definition setKey (tx : AccountCreateTransaction) (key : PublicKey)
  : AccountCreateTransaction :=
  mkAccountCreateTransaction (Some key) tx.(act_initialBalance).

Definition setInitialBalance (tx : AccountCreateTransaction) (balance : Hbar)
  : AccountCreateTransaction :=
  mkAccountCreateTransaction tx.(act_key) (Some balance).

Record TransactionResponse : Type := mkTransactionResponse {
  transactionId : string
}.

(** [receipt.accountId] is an [AccountId] or [null]. *)
Record TransactionReceipt : Type := mkTransactionReceipt {
  accountId : option AccountId;
  status : string
}.

Inductive sdk_call : Type -> Type :=
| AccountCreateTransaction_execute (tx : AccountCreateTransaction)
                                   (client : Client)
  : sdk_call TransactionResponse
| TransactionResponse_getReceipt (response : TransactionResponse)
                                 (client : Client)
  : sdk_call TransactionReceipt.

Definition executed : Type := { T : Type & sdk_call T }.

(** The ledger as the SDK shows it, and the SDK calls made so far. *)
Record Run (L : Type) : Type := mkRun {
  ledger : L;
  sdk_calls : list executed
}.
Arguments mkRun {L} ledger sdk_calls.
Arguments ledger {L} r.
Arguments sdk_calls {L} r.

Definition Async (L A : Type) : Type := Run L -> Run L * outcome A.

Definition resolve {L A} (a : A) : Async L A := fun w => (w, Done a).

Definition reject {L A} (e : error) : Async L A := fun w => (w, Raise e).

Definition await {L A C} (m : Async L A) (k : A -> Async L C) : Async L C :=
  fun w =>
    match m w with
    | (w', Done a) => k a w'
    | (w', Raise e) => (w', Raise e)
    end.

Notation "'let?' x := m 'in' k" := (await m (fun x => k))
  (at level 10, x pattern, m at level 100, k at level 200).

Definition is_execute (c : executed) : bool :=
  match projT2 c with AccountCreateTransaction_execute _ _ => true | _ => false end.

Definition is_getReceipt (c : executed) : bool :=
  match projT2 c with TransactionResponse_getReceipt _ _ => true | _ => false end.

Section AccountCreation.

Context {L : Type}.

(** The answers of the SDK. *)
Variable sdk : forall T : Type, sdk_call T -> L -> L * outcome T.

(** [process.env] *)
Variables HEDERA_ACCOUNT_ID HEDERA_PRIVATE_KEY : string.

(** Both scripts:
<<
    const hederaClient = Client.forTestnet().setOperator(
      HEDERA_ACCOUNT_ID,
      HEDERA_PRIVATE_KEY
    );
>> *)
Definition hederaClient : Client :=
  mkClient "testnet" HEDERA_ACCOUNT_ID HEDERA_PRIVATE_KEY.

Definition call_sdk {T} (c : sdk_call T) : Async L T :=
  fun w =>
    let (l, r) := sdk T c w.(ledger) in
    (mkRun l (w.(sdk_calls) ++ [existT T c]), r).

(** gcp-hedera-hsm.js
<<
    async function createAccountWithKmsKey(publicKey) {
      const transaction = new AccountCreateTransaction()
        .setKey(publicKey)
        .setInitialBalance(new Hbar(1)); // 1 Hbar
      const txResponse = await transaction.execute(hederaClient);
      const receipt = await txResponse.getReceipt(hederaClient);
      if (!receipt.accountId) {
        throw new Error("Account creation failed.");
      }
      return receipt.accountId;
    }
>> *)
Definition createAccountWithKmsKey (publicKey : PublicKey)
  : Async L AccountId :=
  let transaction :=
    setInitialBalance (setKey AccountCreateTransaction_new publicKey)
                      (Hbar_new 1) in
  let? txResponse :=
    call_sdk (AccountCreateTransaction_execute transaction hederaClient) in
  let? receipt :=
    call_sdk (TransactionResponse_getReceipt txResponse hederaClient) in
  match receipt.(accountId) with
  | None => reject (Error "Account creation failed.")
  | Some id => resolve id
  end.

(** azure-hedera-hsm.js, [createAccountWithAzureKey]: the same
    statements. *)
Definition createAccountWithAzureKey (publicKey : PublicKey)
  : Async L AccountId :=
  let transaction :=
    setInitialBalance (setKey AccountCreateTransaction_new publicKey)
                      (Hbar_new 1) in
  let? txResponse :=
    call_sdk (AccountCreateTransaction_execute transaction hederaClient) in
  let? receipt :=
    call_sdk (TransactionResponse_getReceipt txResponse hederaClient) in
  match receipt.(accountId) with
  | None => reject (Error "Account creation failed.")
  | Some id => resolve id
  end.

End AccountCreation.

(** A ledger that creates account 0.0.[n] for the [n]-th request, and
    one whose receipts carry no account. *)
Definition testnet (T : Type) (c : sdk_call T) (n : Z) : Z * outcome T :=
  match c in sdk_call T return Z * outcome T with
  | AccountCreateTransaction_execute _ _ =>
      (n + 1, Done (mkTransactionResponse "0.0.2@1"))
  | TransactionResponse_getReceipt _ _ =>
      (n, Done (mkTransactionReceipt (Some (mkAccountId 0 0 n)) "SUCCESS"))
  end.

Definition no_account (T : Type) (c : sdk_call T) (n : Z) : Z * outcome T :=
  match c in sdk_call T return Z * outcome T with
  | AccountCreateTransaction_execute _ _ =>
      (n, Done (mkTransactionResponse "0.0.2@1"))
  | TransactionResponse_getReceipt _ _ =>
      (n, Done (mkTransactionReceipt None "SUCCESS"))
  end.

Definition busy (T : Type) (c : sdk_call T) (n : Z) : Z * outcome T :=
  (n, Raise (SdkError "BUSY")).

End Script.

(** ** Predicates used in the statements *)

(** What one call of an asynchronous function adds to the record. *)
Definition adds {B A} (m : M B A) (w : World B) (evs : list logged) : Prop :=
  calls (fst (m w)) = (calls w ++ evs)%list.

(** An alphabet that the decoder reads back, and that has no ['=']. *)
Definition alphabet_ok (alpha : string) : Prop :=
  forall v, 0 <= v < 64 ->
    Base64.unbase64 (Base64.char_of alpha v) = Some v
    /\ Ascii.eqb (Base64.char_of alpha v) "="%char = false.

Definition alphabet_okb (alpha : string) (v : Z) : bool :=
  (64 <=? v)
  || ((if Base64.unbase64 (Base64.char_of alpha v) is Some u
       then u =? v else false)
      && negb (Ascii.eqb (Base64.char_of alpha v) "="%char)).

(** The request of [kmsSigner] for a payload. *)
Definition kms_request (version : string) (bytesToSign : list Z)
  : AsymmetricSignRequest :=
  mkAsymmetricSignRequest version
                          {[ "sha256" := Keccak.keccak256 bytesToSign ]}.

(** A field of a composite string holds no separator. *)
Definition no_colon (f : string) : Prop := contains ":"%char f = false.

(* ================================================================== *)
(** * Properties *)

(** ** Arithmetic of [BN] *)

Lemma of_bytes_snoc (l : list Z) (b : Z) :
  BN.of_bytes (l ++ [b]) = BN.of_bytes l * 256 + b.
Proof. unfold BN.of_bytes. rewrite fold_left_app. reflexivity. Qed.

Lemma of_bytes_nonneg (l : list Z) : bytes_ok l -> 0 <= BN.of_bytes l.
Proof.
  induction l as [|b l IH] using rev_ind; intros Hl.
  - reflexivity.
  - apply Forall_app in Hl as [Hl Hb]. inversion Hb as [|? ? Hb' _]; subst.
    rewrite of_bytes_snoc. specialize (IH Hl). unfold is_byte in Hb'. lia.
Qed.

Lemma of_bytes_bound (l : list Z) :
  bytes_ok l -> BN.of_bytes l < 256 ^ len l.
Proof.
  induction l as [|b l IH] using rev_ind; intros Hl.
  - reflexivity.
  - apply Forall_app in Hl as [Hl Hb]. inversion Hb as [|? ? Hb' _]; subst.
    rewrite of_bytes_snoc. specialize (IH Hl). unfold is_byte in Hb'.
    unfold len in *. rewrite length_app, Nat2Z.inj_add. simpl.
    rewrite Z.pow_add_r by lia. change (256 ^ 1) with 256. lia.
Qed.

Lemma length_be_bytes (n : nat) (v : Z) : length (BN.be_bytes n v) = n.
Proof.
  revert v; induction n as [|n IH]; intros v; simpl; [reflexivity|].
  rewrite length_app, IH. simpl. lia.
Qed.

Lemma be_bytes_ok (n : nat) (v : Z) : bytes_ok (BN.be_bytes n v).
Proof.
  revert v; induction n as [|n IH]; intros v; simpl.
  - constructor.
  - apply Forall_app. split; [apply IH|].
    constructor; [|constructor]. unfold is_byte.
    apply Z.mod_pos_bound. lia.
Qed.

Lemma be_bytes_of_bytes (l : list Z) :
  bytes_ok l -> BN.be_bytes (length l) (BN.of_bytes l) = l.
Proof.
  induction l as [|b l IH] using rev_ind; intros Hl.
  - reflexivity.
  - apply Forall_app in Hl as [Hl Hb]. inversion Hb as [|? ? Hb' _]; subst.
    unfold is_byte in Hb'.
    rewrite of_bytes_snoc, length_app. simpl length.
    replace (length l + 1)%nat with (S (length l)) by lia. simpl.
    replace ((BN.of_bytes l * 256 + b) / 256) with (BN.of_bytes l)
      by (apply Z.div_unique with b; lia).
    replace ((BN.of_bytes l * 256 + b) mod 256) with b
      by (apply Z.mod_unique with (BN.of_bytes l); lia).
    rewrite IH by assumption. reflexivity.
Qed.

Lemma be_bytes_zero (k : nat) : BN.be_bytes k 0 = repeat 0 k.
Proof.
  induction k as [|k IH]; [reflexivity|].
  cbn [BN.be_bytes]. change (0 / 256) with 0. change (0 mod 256) with 0.
  rewrite IH. change [0] with (repeat 0 1).
  rewrite <- repeat_app. replace (k + 1)%nat with (S k) by lia. reflexivity.
Qed.

Lemma be_bytes_pad (k n : nat) (v : Z) :
  0 <= v < 256 ^ Z.of_nat n ->
  BN.be_bytes (k + n) v = (repeat 0 k ++ BN.be_bytes n v)%list.
Proof.
  revert v; induction n as [|n IH]; intros v Hv.
  - simpl in Hv. assert (v = 0) by lia. subst.
    rewrite Nat.add_0_r, be_bytes_zero. simpl. rewrite app_nil_r. reflexivity.
  - replace (k + S n)%nat with (S (k + n)) by lia. simpl.
    rewrite IH, app_assoc; [reflexivity|].
    rewrite Nat2Z.inj_succ, Z.pow_succ_r in Hv by lia.
    split; [apply Z.div_pos; lia|].
    apply Z.div_lt_upper_bound; lia.
Qed.

Lemma of_bytes_zeros (k : nat) (l : list Z) :
  BN.of_bytes (repeat 0 k ++ l) = BN.of_bytes l.
Proof.
  induction k as [|k IH]; [reflexivity|].
  simpl repeat. rewrite <- IH. reflexivity.
Qed.

Lemma of_bytes_cons_zero (l : list Z) : BN.of_bytes (0 :: l) = BN.of_bytes l.
Proof. exact (of_bytes_zeros 1 l). Qed.

(** A component given by its content bytes, possibly with leading zero
    bytes, is laid out on exactly 32 bytes. *)
Lemma be_bytes_32_content (k : nat) (l : list Z) :
  bytes_ok l -> (length l <= 32)%nat ->
  BN.be_bytes 32 (BN.of_bytes (repeat 0 k ++ l))
  = (repeat 0 (32 - length l) ++ l)%list.
Proof.
  intros Hl Hlen. rewrite of_bytes_zeros.
  replace 32%nat with ((32 - length l) + length l)%nat at 1 by lia.
  rewrite be_bytes_pad.
  - rewrite be_bytes_of_bytes by assumption. reflexivity.
  - split; [apply of_bytes_nonneg|apply of_bytes_bound]; assumption.
Qed.

(** ** The byte window of the decoder *)

(** A property of bytes decided by running over the 256 values. *)
Lemma byte_cases (P : Z -> bool) :
  forallb P (map Z.of_nat (seq 0 256)) = true ->
  forall b, 0 <= b < 256 -> P b = true.
Proof.
  intros H b Hb. rewrite forallb_forall in H. apply H.
  apply in_map_iff. exists (Z.to_nat b). split; [lia|].
  apply in_seq. lia.
Qed.

Lemma and32_128_small (l : Z) : 0 <= l < 128 -> and32 l 128 = 0.
Proof.
  intros H.
  pose proof (byte_cases (fun b => (128 <=? b) || (and32 b 128 =? 0))
                eq_refl l ltac:(lia)) as Hb.
  simpl in Hb. apply orb_true_iff in Hb as [Hb|Hb]; lia.
Qed.

Lemma readUInt8_at (base : list Z) (off lim x : Z) (fail : string) :
  0 <= off -> base !! Z.to_nat off = Some x -> off + 1 <= lim ->
  Asn1.readUInt8 (Asn1.mkBuf base off lim) fail
  = Ok (x, Asn1.mkBuf base (off + 1) lim).
Proof.
  intros Hoff Hx Hlim. unfold Asn1.readUInt8. simpl.
  pose proof (lookup_lt_Some _ _ _ Hx) as Hlt.
  destruct (Z.leb_spec (off + 1) lim); [|lia].
  destruct (Z.leb_spec 0 off); [|lia].
  destruct (Z.ltb_spec off (len base)); [|unfold len in *; lia].
  simpl. rewrite (nth_lookup_Some _ _ 0 _ Hx). reflexivity.
Qed.

(** An element with a one-byte tag and a short-form length. *)
Lemma decodeTag_short (base : list Z) (off lim t l want : Z) :
  0 <= off ->
  base !! Z.to_nat off = Some t ->
  base !! Z.to_nat (off + 1) = Some l ->
  0 <= l < 128 -> off + 2 + l <= lim ->
  and32 t 31 = want -> want <> 31 ->
  Asn1._decodeTag (Asn1.mkBuf base off lim) want
  = Ok (Asn1.mkBuf base (off + 2) (off + 2 + l),
        Asn1.mkBuf base (off + 2 + l) lim).
Proof.
  intros Hoff Ht Hl Hrange Hlim Htag Hwant.
  unfold Asn1._decodeTag, Asn1.derDecodeTag.
  rewrite (readUInt8_at _ _ _ t) by (assumption || lia). cbn [rbind].
  rewrite Htag. destruct (Z.eqb_spec want 31) as [|_]; [contradiction|].
  cbn [rbind]. unfold Asn1.derDecodeLen.
  rewrite (readUInt8_at _ _ _ l) by (assumption || lia). cbn [rbind].
  destruct (Z.eqb_spec l 128) as [|_]; [lia|]. rewrite andb_false_r.
  rewrite and32_128_small by lia. cbn [Z.eqb rbind Asn1.tag Asn1.primitive].
  rewrite Z.eqb_refl. cbn [negb]. rewrite orb_true_r.
  unfold Asn1.skip. cbn [Asn1.offset Asn1.length Asn1.base Asn1.len_number].
  replace (off + 1 + 1) with (off + 2) by lia.
  destruct (Z.leb_spec (off + 2 + l) lim); [|lia]. reflexivity.
Qed.

Lemma raw_window (pre content post : list Z) :
  Asn1.raw (Asn1.mkBuf (pre ++ content ++ post) (len pre)
                       (len pre + len content))
  = content.
Proof.
  unfold Asn1.raw, Asn1.slice, Asn1.adjustOffset, len. simpl.
  rewrite !length_app.
  destruct (Z.ltb_spec (Z.of_nat (length pre)) 0); [lia|].
  destruct (Z.ltb_spec (Z.of_nat (length pre) + Z.of_nat (length content)) 0);
    [lia|].
  rewrite !Z.min_l by lia.
  rewrite Nat2Z.id.
  replace (Z.to_nat _) with (length content) by lia.
  rewrite drop_app_length. apply take_app_length.
Qed.

(** Decoding a SEQUENCE of two INTEGERs given by their content octets;
    what follows the SEQUENCE in the input is not looked at. *)
Lemma EcdsaSig_decode_seq2_trailing (rc sc extra : list Z) :
  len rc + len sc + 4 < 128 ->
  Asn1.EcdsaSig_decode (DerSig.seq2 rc sc ++ extra)
  = Ok (BN.of_bytes rc, BN.of_bytes sc).
Proof.
  intros Hlen.
  set (L := len (DerSig.tlv 2 rc ++ DerSig.tlv 2 sc)).
  assert (HL : L = len rc + len sc + 4).
  { unfold L, DerSig.tlv, len. rewrite length_app. simpl. lia. }
  assert (E : (DerSig.seq2 rc sc ++ extra
               = [48; L; 2; len rc] ++ rc ++ [2; len sc] ++ sc ++ extra)%list).
  { unfold DerSig.seq2, DerSig.tlv. fold L. simpl.
    rewrite <- !app_assoc. reflexivity. }
  rewrite E. clear E.
  set (data := ([48; L; 2; len rc] ++ rc ++ [2; len sc] ++ sc ++ extra)%list).
  assert (Hdata : len data = L + 2 + len extra).
  { unfold data, len in *. rewrite !length_app. simpl. lia. }
  unfold Asn1.EcdsaSig_decode, Asn1.of_bytes.
  rewrite (decodeTag_short data 0 _ 48 L);
    [|lia|reflexivity|reflexivity|unfold len in *; lia|unfold len in *; lia
     |reflexivity|discriminate].
  cbn [rbind].
  rewrite (decodeTag_short data (0 + 2) _ 2 (len rc));
    [|lia|reflexivity|reflexivity|unfold len in *; lia|unfold len in *; lia
     |reflexivity|discriminate].
  cbn [rbind].
  assert (Hs : forall i x, [2; len sc] !! i = Some x ->
               data !! Z.to_nat (0 + 2 + 2 + len rc + Z.of_nat i) = Some x).
  { intros i x Hi. unfold data.
    replace (Z.to_nat _) with (4 + length rc + i)%nat by (unfold len; lia).
    rewrite !lookup_app_r by (simpl; lia).
    replace (_ - _ - _)%nat with i by (simpl; lia).
    apply lookup_app_l_Some, Hi. }
  rewrite (decodeTag_short data (0 + 2 + 2 + len rc) _ 2 (len sc));
    [|unfold len; lia
     |replace (0 + 2 + 2 + len rc) with (0 + 2 + 2 + len rc + Z.of_nat 0) by lia;
      apply Hs; reflexivity
     |apply (Hs 1%nat); reflexivity
     |unfold len in *; lia|unfold len in *; lia|reflexivity|discriminate].
  cbn [rbind]. unfold Asn1._decodeInt. f_equal. f_equal.
  - change (0 + 2 + 2) with (len [48; L; 2; len rc]).
    apply f_equal, raw_window.
  - replace data
      with (([48; L; 2; len rc] ++ rc ++ [2; len sc]) ++ sc ++ extra)%list
      by (unfold data; rewrite <- !app_assoc; reflexivity).
    replace (0 + 2 + 2 + len rc + 2)
      with (len ([48; L; 2; len rc] ++ rc ++ [2; len sc]))
      by (unfold len; rewrite !length_app; simpl; lia).
    apply f_equal, raw_window.
Qed.

Lemma EcdsaSig_decode_seq2 (rc sc : list Z) :
  len rc + len sc + 4 < 128 ->
  Asn1.EcdsaSig_decode (DerSig.seq2 rc sc)
  = Ok (BN.of_bytes rc, BN.of_bytes sc).
Proof.
  intros Hlen. rewrite <- (app_nil_r (DerSig.seq2 rc sc)).
  apply EcdsaSig_decode_seq2_trailing, Hlen.
Qed.

(** ** [toArray("be", 32)] *)

Lemma pow256 (n : Z) : 0 <= n -> 256 ^ n = 2 ^ (8 * n).
Proof. intros H. change 256 with (2 ^ 8). rewrite <- Z.pow_mul_r; lia. Qed.

Lemma bitLength_spec (v : Z) :
  0 < v -> 2 ^ (BN.bitLength v - 1) <= v < 2 ^ BN.bitLength v.
Proof.
  intros H. unfold BN.bitLength.
  destruct (Z.eqb_spec v 0); [lia|].
  pose proof (Z.log2_spec v H) as Hs.
  replace (Z.log2 v + 1 - 1) with (Z.log2 v) by lia.
  replace (Z.log2 v + 1) with (Z.succ (Z.log2 v)) by lia. exact Hs.
Qed.

Lemma byteLength_le (v n : Z) :
  0 <= v -> 0 <= n -> (BN.byteLength v <= n <-> v < 256 ^ n).
Proof.
  intros Hv Hn. rewrite pow256 by assumption. unfold BN.byteLength.
  destruct (Z.eq_dec v 0) as [->|Hnz].
  - change (BN.bitLength 0) with 0. change ((0 + 7) / 8) with 0.
    pose proof (Z.pow_pos_nonneg 2 (8 * n)). lia.
  - pose proof (bitLength_spec v ltac:(lia)) as [Hlo Hhi].
    assert (Hb : 0 < BN.bitLength v).
    { unfold BN.bitLength. destruct (Z.eqb_spec v 0); [lia|].
      pose proof (Z.log2_nonneg v). lia. }
    split; intros H.
    + eapply Z.lt_le_trans; [exact Hhi|].
      apply Z.pow_le_mono_r; [lia|].
      pose proof (Z.div_mod (BN.bitLength v + 7) 8 ltac:(lia)).
      pose proof (Z.mod_pos_bound (BN.bitLength v + 7) 8 ltac:(lia)). lia.
    + assert (BN.bitLength v - 1 < 8 * n).
      { apply (Z.pow_lt_mono_r_iff 2); [lia|lia|]. lia. }
      assert ((BN.bitLength v + 7) / 8 < n + 1)
        by (apply Z.div_lt_upper_bound; lia).
      lia.
Qed.

Lemma byteLength_nonneg (v : Z) : 0 <= v -> 0 <= BN.byteLength v.
Proof.
  intros Hv. unfold BN.byteLength, BN.bitLength.
  destruct (Z.eqb_spec v 0); [reflexivity|].
  pose proof (Z.log2_nonneg v). apply Z.div_pos; lia.
Qed.

Lemma toArray_be_32 (v : Z) :
  0 <= v < 2 ^ 256 -> BN.toArray_be v 32 = Ok (BN.be_bytes 32 v).
Proof.
  intros Hv. unfold BN.toArray_be. cbn [Z.eqb].
  assert (BN.byteLength v <= 32)
    by (apply byteLength_le; [lia|lia|]; rewrite pow256; simpl; lia).
  destruct (Z.leb_spec (BN.byteLength v) 32); [|lia]. reflexivity.
Qed.

Lemma toArray_be_32_wide (v : Z) :
  2 ^ 256 <= v ->
  BN.toArray_be v 32
  = Throw (AssertionError "byte array longer than desired length").
Proof.
  intros Hv. unfold BN.toArray_be. cbn [Z.eqb].
  destruct (Z.leb_spec (BN.byteLength v) 32) as [H|]; [|reflexivity].
  apply byteLength_le in H; [|lia|lia]. rewrite pow256 in H by lia.
  simpl in H. lia.
Qed.

Lemma of_bytes_be_bytes (n : nat) (v : Z) :
  0 <= v < 256 ^ Z.of_nat n -> BN.of_bytes (BN.be_bytes n v) = v.
Proof.
  revert v; induction n as [|n IH]; intros v Hv.
  - change (256 ^ Z.of_nat 0) with 1 in Hv.
    assert (v = 0) by lia. subst. reflexivity.
  - cbn [BN.be_bytes]. rewrite of_bytes_snoc, IH.
    + pose proof (Z.div_mod v 256 ltac:(lia)). lia.
    + rewrite Nat2Z.inj_succ, Z.pow_succ_r in Hv by lia.
      split; [apply Z.div_pos; lia|apply Z.div_lt_upper_bound; lia].
Qed.

(** ** Significant bytes *)

Lemma min_bytes_ok (v : Z) : bytes_ok (DerSig.min_bytes v).
Proof.
  unfold DerSig.min_bytes. destruct (v =? 0).
  - constructor; [unfold is_byte; lia|constructor].
  - apply be_bytes_ok.
Qed.

Lemma min_bytes_length (v : Z) :
  0 <= v ->
  len (DerSig.min_bytes v) = Z.max 1 (BN.byteLength v).
Proof.
  intros Hv. unfold DerSig.min_bytes, len.
  destruct (Z.eqb_spec v 0) as [->|Hnz]; [reflexivity|].
  rewrite length_be_bytes.
  pose proof (byteLength_nonneg v Hv).
  assert (~ BN.byteLength v <= 0).
  { intros Hc. apply byteLength_le in Hc; simpl in Hc; lia. }
  lia.
Qed.

Lemma min_bytes_value (v : Z) :
  0 <= v -> BN.of_bytes (DerSig.min_bytes v) = v.
Proof.
  intros Hv. unfold DerSig.min_bytes.
  destruct (Z.eqb_spec v 0) as [->|Hnz]; [reflexivity|].
  apply of_bytes_be_bytes. split; [lia|].
  pose proof (byteLength_nonneg v Hv).
  rewrite Z2Nat.id by assumption.
  apply byteLength_le; lia.
Qed.

Lemma min_bytes_length_32 (v : Z) :
  0 <= v < 2 ^ 256 -> (length (DerSig.min_bytes v) <= 32)%nat.
Proof.
  intros Hv. pose proof (min_bytes_length v ltac:(lia)) as Hl.
  assert (BN.byteLength v <= 32)
    by (apply byteLength_le; [lia|lia|]; rewrite pow256; simpl; lia).
  unfold len in Hl. lia.
Qed.

(** The 32-byte big-endian layout is the significant bytes left-padded
    with zeros. *)
Lemma be_bytes_32_left_pad (v : Z) :
  0 <= v < 2 ^ 256 ->
  BN.be_bytes 32 v = left_pad 32 (DerSig.min_bytes v).
Proof.
  intros Hv. unfold left_pad.
  rewrite <- (be_bytes_32_content 0)
    by (apply min_bytes_ok || apply min_bytes_length_32; assumption).
  simpl repeat. cbn [app]. rewrite min_bytes_value by lia. reflexivity.
Qed.

(** ** Assembling the 64-byte array *)

Lemma map_mod_bytes (l : list Z) :
  bytes_ok l -> map (fun b => b mod 256) l = l.
Proof.
  induction 1 as [|b l Hb _ IH]; [reflexivity|].
  simpl. rewrite IH, Z.mod_small by exact Hb. reflexivity.
Qed.

Lemma Uint8Array_set_first (a : list Z) :
  bytes_ok a -> length a = 32%nat ->
  Uint8Array_set (Uint8Array_new 64) a 0 = Ok (a ++ repeat 0 32)%list.
Proof.
  intros Ha La. unfold Uint8Array_set, Uint8Array_new.
  rewrite La, map_mod_bytes by assumption. reflexivity.
Qed.

Lemma Uint8Array_set_second (a b : list Z) :
  bytes_ok b -> length a = 32%nat -> length b = 32%nat ->
  Uint8Array_set (a ++ repeat 0 32) b 32 = Ok (a ++ b)%list.
Proof.
  intros Hb La Lb. unfold Uint8Array_set.
  rewrite Lb, length_app, La, repeat_length, map_mod_bytes by assumption.
  cbn [Nat.add Nat.leb].
  rewrite (take_app_length' a _ 32 (eq_sym La)).
  rewrite drop_ge by (rewrite length_app, La, repeat_length; lia).
  rewrite app_nil_r. reflexivity.
Qed.

Lemma Uint8Array_set_halves (a b : list Z) :
  bytes_ok a -> bytes_ok b -> length a = 32%nat -> length b = 32%nat ->
  (let* sig := Uint8Array_set (Uint8Array_new 64) a 0 in
   Uint8Array_set sig b 32) = Ok (a ++ b)%list.
Proof.
  intros Ha Hb La Lb. rewrite Uint8Array_set_first by assumption.
  cbn [rbind]. apply Uint8Array_set_second; assumption.
Qed.

Lemma kms_normalize_decoded (sig : list Z) (r s : Z) :
  Asn1.EcdsaSig_decode sig = Ok (r, s) ->
  0 <= r < 2 ^ 256 -> 0 <= s < 2 ^ 256 ->
  kms_normalize sig = Ok (BN.be_bytes 32 r ++ BN.be_bytes 32 s)%list.
Proof.
  intros Hd Hr Hs. unfold kms_normalize. rewrite Hd. cbn [rbind].
  rewrite (toArray_be_32 r Hr). cbn [rbind].
  pose proof (Uint8Array_set_halves (BN.be_bytes 32 r) (BN.be_bytes 32 s)
                (be_bytes_ok _ _) (be_bytes_ok _ _)
                (length_be_bytes _ _) (length_be_bytes _ _)) as Hset.
  destruct (Uint8Array_set (Uint8Array_new 64) (BN.be_bytes 32 r) 0)
    as [sig1| |]; cbn [rbind] in *; try discriminate.
  rewrite (toArray_be_32 s Hs). cbn [rbind]. rewrite Hset. reflexivity.
Qed.

Lemma bytes_okb_spec (l : list Z) : bytes_okb l = true -> bytes_ok l.
Proof.
  unfold bytes_okb, bytes_ok. rewrite forallb_forall, Forall_forall.
  intros H b Hb. apply list_elem_of_In, H in Hb. unfold is_byte. lia.
Qed.

(** ** Valid DER signatures *)

Lemma int_content_value (v : Z) :
  0 <= v -> BN.of_bytes (DerSig.int_content v) = v.
Proof.
  intros Hv. unfold DerSig.int_content.
  destruct (128 <=? hd 0 (DerSig.min_bytes v)).
  - rewrite of_bytes_cons_zero. apply min_bytes_value, Hv.
  - apply min_bytes_value, Hv.
Qed.

Lemma int_content_length (v : Z) :
  0 <= v < 2 ^ 256 -> 1 <= len (DerSig.int_content v) <= 33.
Proof.
  intros Hv. pose proof (min_bytes_length_32 v Hv) as H32.
  pose proof (min_bytes_length v ltac:(lia)) as Hl.
  unfold DerSig.int_content, len in *.
  destruct (128 <=? hd 0 (DerSig.min_bytes v)); simpl length; lia.
Qed.

Lemma int_content_pad_value (pad : bool) (v : Z) :
  0 <= v -> BN.of_bytes (DerSig.int_content_pad pad v) = v.
Proof.
  intros Hv. destruct pad; simpl.
  - rewrite of_bytes_cons_zero. apply min_bytes_value, Hv.
  - apply min_bytes_value, Hv.
Qed.

Lemma int_content_pad_length (pad : bool) (v : Z) :
  0 <= v < 2 ^ 256 -> 1 <= len (DerSig.int_content_pad pad v) <= 33.
Proof.
  intros Hv. pose proof (min_bytes_length_32 v Hv) as H32.
  pose proof (min_bytes_length v ltac:(lia)) as Hl.
  unfold len in *. destruct pad; simpl; lia.
Qed.

Lemma kms_normalize_seq2 (rc sc : list Z) :
  len rc + len sc + 4 < 128 ->
  0 <= BN.of_bytes rc < 2 ^ 256 -> 0 <= BN.of_bytes sc < 2 ^ 256 ->
  kms_normalize (DerSig.seq2 rc sc)
  = Ok (BN.be_bytes 32 (BN.of_bytes rc) ++ BN.be_bytes 32 (BN.of_bytes sc))%list.
Proof.
  intros Hlen Hr Hs. apply kms_normalize_decoded; try assumption.
  apply EcdsaSig_decode_seq2, Hlen.
Qed.

Lemma kms_normalize_encode (r s : Z) :
  0 <= r < 2 ^ 256 -> 0 <= s < 2 ^ 256 ->
  kms_normalize (DerSig.encode r s)
  = Ok (BN.be_bytes 32 r ++ BN.be_bytes 32 s)%list.
Proof.
  intros Hr Hs. unfold DerSig.encode.
  pose proof (int_content_length r Hr). pose proof (int_content_length s Hs).
  rewrite kms_normalize_seq2;
    rewrite ?int_content_value by lia; try lia.
  reflexivity.
Qed.

(** C1. For a valid DER signature SEQUENCE { INTEGER r, INTEGER s } with
    r and s below 2^256, the reconstruction of [kmsSigner] returns 64
    bytes: the significant bytes of r left-padded with zeros to 32 bytes,
    then those of s likewise, whether or not a component carried a
    sign-padding byte.  In particular, when r is given on 31 bytes and s
    on 33 bytes (0x00 and 32 bytes), the result is 0x00, the 31 bytes of
    r, and the 32 bytes of s. *)
Theorem kms_normalize_valid_der :
  (forall r s : Z,
      0 <= r < 2 ^ 256 -> 0 <= s < 2 ^ 256 ->
      exists out : list Z,
        kms_normalize (DerSig.encode r s) = Ok out
        /\ length out = 64%nat
        /\ take 32 out = left_pad 32 (DerSig.min_bytes r)
        /\ drop 32 out = left_pad 32 (DerSig.min_bytes s))
  /\ (forall rb sb : list Z,
        bytes_ok rb -> bytes_ok sb ->
        length rb = 31%nat -> length sb = 32%nat ->
        kms_normalize (DerSig.seq2 rb (0 :: sb)) = Ok ((0 :: rb) ++ sb)%list).
Proof.
  split.
  - intros r s Hr Hs. exists (BN.be_bytes 32 r ++ BN.be_bytes 32 s)%list.
    split; [apply kms_normalize_encode; assumption|].
    split; [rewrite length_app, !length_be_bytes; reflexivity|].
    rewrite <- !be_bytes_32_left_pad by assumption.
    split.
    + apply take_app_length', eq_sym, length_be_bytes.
    + apply drop_app_length', eq_sym, length_be_bytes.
  - intros rb sb Hrb Hsb Lr Ls.
    pose proof (be_bytes_32_content 0 rb Hrb ltac:(lia)) as Er.
    pose proof (be_bytes_32_content 1 sb Hsb ltac:(lia)) as Es.
    rewrite Lr in Er. rewrite Ls in Es.
    cbn [repeat app Nat.sub] in Er, Es.
    rewrite kms_normalize_seq2.
    + rewrite Er, Es. reflexivity.
    + unfold len. simpl. lia.
    + split; [apply of_bytes_nonneg, Hrb|].
      pose proof (of_bytes_bound rb Hrb) as Hb. unfold len in Hb.
      rewrite Lr in Hb. eapply Z.lt_trans; [exact Hb|]. reflexivity.
    + rewrite of_bytes_cons_zero.
      split; [apply of_bytes_nonneg, Hsb|].
      pose proof (of_bytes_bound sb Hsb) as Hb. unfold len in Hb.
      rewrite Ls in Hb. exact Hb.
Qed.

Lemma kms_normalize_valid_der_witness :
  (exists out : list Z,
      kms_normalize (DerSig.encode 5 (2 ^ 255 + 9)) = Ok out
      /\ length out = 64%nat
      /\ take 32 out = left_pad 32 (DerSig.min_bytes 5)
      /\ drop 32 out = left_pad 32 (DerSig.min_bytes (2 ^ 255 + 9)))
  /\ kms_normalize (DerSig.seq2 (repeat 7 31) (0 :: repeat 200 32))
     = Ok ((0 :: repeat 7 31) ++ repeat 200 32)%list.
Proof.
  split.
  - apply (proj1 kms_normalize_valid_der 5 (2 ^ 255 + 9)); lia.
  - apply (proj2 kms_normalize_valid_der (repeat 7 31) (repeat 200 32));
      try reflexivity; apply bytes_okb_spec; reflexivity.
Defined.

(** ** Rejected signatures *)

Lemma decodeTag_exhausted (base : list Z) (off lim want : Z) :
  lim <= off ->
  Asn1._decodeTag (Asn1.mkBuf base off lim) want
  = Throw (ReporterError "Failed to decode tag").
Proof.
  intros H. unfold Asn1._decodeTag, Asn1.derDecodeTag, Asn1.readUInt8. simpl.
  destruct (Z.leb_spec (off + 1) lim); [lia|]. reflexivity.
Qed.

Lemma EcdsaSig_decode_seq1 (rc : list Z) :
  len rc + 2 < 128 ->
  Asn1.EcdsaSig_decode (DerSig.seq1 rc)
  = Throw (ReporterError "Failed to decode tag").
Proof.
  intros Hlen. unfold Asn1.EcdsaSig_decode, DerSig.seq1, Asn1.of_bytes.
  set (body := DerSig.tlv 2 rc).
  assert (Hbody : len body = len rc + 2).
  { unfold body, DerSig.tlv, len. simpl. lia. }
  set (data := DerSig.tlv 48 body).
  assert (Hdata : len data = len body + 2).
  { unfold data, DerSig.tlv, len. simpl. lia. }
  rewrite (decodeTag_short data 0 _ 48 (len body));
    [|lia|reflexivity|reflexivity|unfold len in *; lia|unfold len in *; lia
     |reflexivity|discriminate].
  cbn [rbind].
  rewrite (decodeTag_short data (0 + 2) _ 2 (len rc));
    [|lia|reflexivity|reflexivity|unfold len in *; lia|unfold len in *; lia
     |reflexivity|discriminate].
  cbn [rbind]. rewrite decodeTag_exhausted by lia. reflexivity.
Qed.

Lemma kms_normalize_wide (sig : list Z) (r s : Z) :
  Asn1.EcdsaSig_decode sig = Ok (r, s) ->
  0 <= r -> 0 <= s -> 2 ^ 256 <= r \/ 2 ^ 256 <= s ->
  kms_normalize sig
  = Throw (AssertionError "byte array longer than desired length").
Proof.
  intros Hd Hr Hs Hwide. unfold kms_normalize. rewrite Hd. cbn [rbind].
  destruct (Z.lt_ge_cases r (2 ^ 256)) as [Hrs|Hrw].
  - rewrite toArray_be_32 by lia. cbn [rbind].
    rewrite Uint8Array_set_first
      by (apply be_bytes_ok || apply length_be_bytes).
    cbn [rbind]. rewrite toArray_be_32_wide by lia. reflexivity.
  - rewrite toArray_be_32_wide by lia. reflexivity.
Qed.

Lemma kms_normalize_trailing (rc sc extra : list Z) :
  len rc + len sc + 4 < 128 ->
  kms_normalize (DerSig.seq2 rc sc ++ extra)
  = kms_normalize (DerSig.seq2 rc sc).
Proof.
  intros Hlen. unfold kms_normalize.
  rewrite EcdsaSig_decode_seq2_trailing, EcdsaSig_decode_seq2 by assumption.
  reflexivity.
Qed.

(** C5 (as the code has it).  A SEQUENCE that lacks its second INTEGER
    makes the reconstruction of [kmsSigner] throw the decoder's error,
    and a component that needs more than 32 bytes makes it throw the
    assertion error of [toArray]; in both cases no bytes are returned.
    Bytes after the SEQUENCE are not looked at: with them the outcome is
    that of the SEQUENCE alone. *)
Theorem kms_normalize_rejects :
  (forall rc : list Z,
      len rc + 2 < 128 ->
      kms_normalize (DerSig.seq1 rc)
      = Throw (ReporterError "Failed to decode tag"))
  /\ (forall rc sc : list Z,
        bytes_ok rc -> bytes_ok sc -> len rc + len sc + 4 < 128 ->
        2 ^ 256 <= BN.of_bytes rc \/ 2 ^ 256 <= BN.of_bytes sc ->
        kms_normalize (DerSig.seq2 rc sc)
        = Throw (AssertionError "byte array longer than desired length"))
  /\ (forall rc sc extra : list Z,
        len rc + len sc + 4 < 128 ->
        kms_normalize (DerSig.seq2 rc sc ++ extra)
        = kms_normalize (DerSig.seq2 rc sc)).
Proof.
  split; [|split].
  - intros rc Hlen. unfold kms_normalize.
    rewrite EcdsaSig_decode_seq1 by assumption. reflexivity.
  - intros rc sc Hrc Hsc Hlen Hwide.
    apply (kms_normalize_wide _ (BN.of_bytes rc) (BN.of_bytes sc));
      try assumption.
    + apply EcdsaSig_decode_seq2, Hlen.
    + apply of_bytes_nonneg, Hrc.
    + apply of_bytes_nonneg, Hsc.
  - exact kms_normalize_trailing.
Qed.

Lemma kms_normalize_rejects_witness :
  kms_normalize (DerSig.seq1 [5]) = Throw (ReporterError "Failed to decode tag")
  /\ kms_normalize (DerSig.seq2 (1 :: repeat 0 32) [7])
     = Throw (AssertionError "byte array longer than desired length")
  /\ kms_normalize (DerSig.seq2 [5] [7] ++ [222; 173])
     = kms_normalize (DerSig.seq2 [5] [7]).
Proof.
  destruct kms_normalize_rejects as (H1 & H2 & H3).
  split; [|split].
  - apply (H1 [5]). reflexivity.
  - apply (H2 (1 :: repeat 0 32) [7]).
    + apply bytes_okb_spec. reflexivity.
    + apply bytes_okb_spec. reflexivity.
    + reflexivity.
    + left. vm_compute. discriminate.
  - apply (H3 [5] [7] [222; 173]). reflexivity.
Defined.

(** C5, counterexample.  A malformed input that is accepted: the valid
    encoding of (5, 7) followed by one more byte is no DER encoding of
    any pair, and yet it is decoded like the encoding of (5, 7). *)
Lemma kms_normalize_accepts_trailing_byte :
  (forall r s : Z, (DerSig.encode 5 7 ++ [222])%list <> DerSig.encode r s)
  /\ kms_normalize (DerSig.encode 5 7 ++ [222])
     = Ok (BN.be_bytes 32 5 ++ BN.be_bytes 32 7)%list.
Proof.
  split; [|vm_compute; reflexivity].
  intros r s H.
  assert (E : nth 1 (DerSig.encode r s) 0 = len (drop 2 (DerSig.encode r s)))
    by reflexivity.
  rewrite <- H in E. vm_compute in E. discriminate.
Qed.

(** ** Round trip *)

Lemma kms_normalize_encode_pad (pad_r pad_s : bool) (r s : Z) :
  0 <= r < 2 ^ 256 -> 0 <= s < 2 ^ 256 ->
  kms_normalize (DerSig.encode_pad pad_r pad_s r s)
  = Ok (BN.be_bytes 32 r ++ BN.be_bytes 32 s)%list.
Proof.
  intros Hr Hs. unfold DerSig.encode_pad.
  pose proof (int_content_pad_length pad_r r Hr).
  pose proof (int_content_pad_length pad_s s Hs).
  rewrite kms_normalize_seq2;
    rewrite ?int_content_pad_value by lia; try lia.
  reflexivity.
Qed.

Lemma azure_normalize_id (raw : list Z) :
  bytes_ok raw -> azure_normalize raw = raw.
Proof. apply map_mod_bytes. Qed.

(** A first byte whose tag number is neither 16 (SEQUENCE) nor 31 (the
    mark of a tag number in the following bytes), followed by a length
    in the short form, is rejected by the reconstruction of [kmsSigner].
    The class bits and the constructed bit of the first byte are not
    looked at, so this is not every first byte other than 0x30. *)
Lemma kms_normalize_not_sequence (t l : Z) (rest : list Z) :
  0 <= l < 128 -> and32 t 31 <> 16 -> and32 t 31 <> 31 ->
  kms_normalize (t :: l :: rest) = Throw (ReporterError "Failed to match tag").
Proof.
  intros Hl H16 H31.
  unfold kms_normalize, Asn1.EcdsaSig_decode, Asn1._decodeTag,
    Asn1.derDecodeTag, Asn1.of_bytes.
  rewrite (readUInt8_at _ 0 _ t)
    by (reflexivity || lia || (unfold len; simpl; lia)).
  cbn [rbind]. destruct (Z.eqb_spec (and32 t 31) 31) as [|_]; [contradiction|].
  cbn [rbind]. unfold Asn1.derDecodeLen.
  rewrite (readUInt8_at _ (0 + 1) _ l)
    by (reflexivity || lia || (unfold len; simpl; lia)).
  cbn [rbind]. destruct (Z.eqb_spec l 128) as [|_]; [lia|].
  rewrite andb_false_r, and32_128_small by lia.
  cbn [Z.eqb rbind Asn1.tag].
  destruct (Z.eqb_spec (and32 t 31) Asn1.tag_seq) as [|_]; [contradiction|].
  reflexivity.
Qed.

(** C7 (as the code has it).  For r and s below 2^256, the DER encoding
    of (r, s), with or without a sign-padding byte on either component,
    is reconstructed by [kmsSigner] to 64 bytes whose halves read back as
    r and s.  Raw bytes, 64 of them or any other number, are returned
    unchanged by the signature handling of [azureSigner], which decodes
    nothing. *)
Theorem der_round_trip :
  (forall (pad_r pad_s : bool) (r s : Z),
      0 <= r < 2 ^ 256 -> 0 <= s < 2 ^ 256 ->
      exists out : list Z,
        kms_normalize (DerSig.encode_pad pad_r pad_s r s) = Ok out
        /\ kms_normalize (DerSig.encode r s) = Ok out
        /\ length out = 64%nat
        /\ BN.of_bytes (take 32 out) = r
        /\ BN.of_bytes (drop 32 out) = s)
  /\ (forall raw : list Z, bytes_ok raw -> azure_normalize raw = raw).
Proof.
  split; [|exact azure_normalize_id].
  intros pad_r pad_s r s Hr Hs.
  exists (BN.be_bytes 32 r ++ BN.be_bytes 32 s)%list.
  split; [apply kms_normalize_encode_pad; assumption|].
  split; [apply kms_normalize_encode; assumption|].
  split; [rewrite length_app, !length_be_bytes; reflexivity|].
  rewrite take_app_length' by (symmetry; apply length_be_bytes).
  rewrite drop_app_length' by (symmetry; apply length_be_bytes).
  split; apply of_bytes_be_bytes; rewrite pow256 by lia; simpl; lia.
Qed.

Lemma der_round_trip_witness :
  (exists out : list Z,
      kms_normalize (DerSig.encode_pad true false 5 (2 ^ 255 + 9)) = Ok out
      /\ kms_normalize (DerSig.encode 5 (2 ^ 255 + 9)) = Ok out
      /\ length out = 64%nat
      /\ BN.of_bytes (take 32 out) = 5
      /\ BN.of_bytes (drop 32 out) = 2 ^ 255 + 9)
  /\ azure_normalize (BN.be_bytes 32 5 ++ BN.be_bytes 32 7)
     = (BN.be_bytes 32 5 ++ BN.be_bytes 32 7)%list.
Proof.
  destruct der_round_trip as (H1 & H2).
  split.
  - apply (H1 true false 5 (2 ^ 255 + 9)); lia.
  - apply (H2 (BN.be_bytes 32 5 ++ BN.be_bytes 32 7)%list).
    apply bytes_okb_spec. reflexivity.
Defined.

(** C7, counterexample.  The 64 raw bytes that [kmsSigner] returns for
    the signature (5, 7) are not returned unchanged when they are given
    to the same reconstruction again: they are rejected. *)
Lemma kms_normalize_raw_rejected :
  kms_normalize (DerSig.encode 5 7)
  = Ok (BN.be_bytes 32 5 ++ BN.be_bytes 32 7)%list
  /\ length (BN.be_bytes 32 5 ++ BN.be_bytes 32 7) = 64%nat
  /\ kms_normalize (BN.be_bytes 32 5 ++ BN.be_bytes 32 7)
     <> Ok (BN.be_bytes 32 5 ++ BN.be_bytes 32 7)%list.
Proof.
  split; [vm_compute; reflexivity|].
  split; [reflexivity|].
  vm_compute. discriminate.
Qed.

(** ** No layout detection in [azureSigner] *)

(** C8 (as the code has it).  The signature handling of [azureSigner]
    inspects nothing: whatever bytes the vault returns are returned
    unchanged.  On 64 bytes that do not start with the SEQUENCE tag this
    is what layout detection would do. *)
Theorem azure_normalize_passes_through (sig : list Z) :
  bytes_ok sig ->
  azure_normalize sig = sig
  /\ ((length sig = 64%nat /\ hd 0 sig <> 48) ->
      layout_detecting_normalize sig = Ok (azure_normalize sig)).
Proof.
  intros Hsig. split; [apply azure_normalize_id, Hsig|].
  intros [Hlen Hhd]. unfold layout_detecting_normalize.
  rewrite Hlen. destruct (Z.eqb_spec (hd 0 sig) 48); [contradiction|].
  simpl. rewrite azure_normalize_id by assumption. reflexivity.
Qed.

Lemma azure_normalize_passes_through_witness :
  azure_normalize (repeat 200 64) = repeat 200 64
  /\ layout_detecting_normalize (repeat 200 64)
     = Ok (azure_normalize (repeat 200 64)).
Proof.
  destruct (azure_normalize_passes_through
              (repeat 200 64) (bytes_okb_spec (repeat 200 64) eq_refl))
    as [Hid Hraw].
  split; [exact Hid|].
  apply Hraw. split; [reflexivity|vm_compute; discriminate].
Defined.

(** C8, counterexample.  A DER signature is not decoded by the
    signature handling of [azureSigner]: the 8 bytes of the encoding of
    (5, 7) come back as they are, where layout detection would give the
    64 raw bytes. *)
Lemma azure_normalize_keeps_der :
  azure_normalize (DerSig.encode 5 7) = DerSig.encode 5 7
  /\ layout_detecting_normalize (DerSig.encode 5 7)
     = Ok (BN.be_bytes 32 5 ++ BN.be_bytes 32 7)%list
  /\ Ok (azure_normalize (DerSig.encode 5 7))
     <> layout_detecting_normalize (DerSig.encode 5 7).
Proof.
  split; [reflexivity|]. split; [vm_compute; reflexivity|].
  vm_compute. discriminate.
Qed.

(** ** Calls made by the scripts *)

Lemma count_app (f : logged -> bool) (l1 l2 : list logged) :
  count f (l1 ++ l2) = (count f l1 + count f l2)%nat.
Proof. unfold count. rewrite List.filter_app, length_app. reflexivity. Qed.

Section ScriptProperties.

Context {B : Type}.
Variable handler : forall T : Type, call T -> B -> B * result T.
Variables AZURE_KEY_NAME GCP_KMS_KEY_VERSION : string.

Lemma perform_eq {T} (c : call T) (w : World B) :
  perform handler c w
  = (mkWorld (fst (handler T c (remote w))) (calls w ++ [existT T c]),
     snd (handler T c (remote w))).
Proof. unfold perform. destruct (handler T c (remote w)); reflexivity. Qed.

Lemma for_each_count {A C} (f : A -> M B C) (p : logged -> bool) :
  (forall a w, count p (calls (fst (f a w))) = S (count p (calls w))) ->
  forall l w,
    count p (calls (for_each f l w)) = (count p (calls w) + length l)%nat.
Proof.
  intros Hf l. induction l as [|a l IH]; intros w; simpl.
  - lia.
  - rewrite IH, Hf. lia.
Qed.

Lemma for_each_count_le {A C} (f : A -> M B C) (p : logged -> bool) :
  (forall a w, (count p (calls (fst (f a w))) <= S (count p (calls w)))%nat) ->
  forall l w,
    (count p (calls (for_each f l w)) <= count p (calls w) + length l)%nat.
Proof.
  intros Hf l. induction l as [|a l IH]; intros w; simpl.
  - lia.
  - specialize (IH (fst (f a w))). specialize (Hf a w). lia.
Qed.

Lemma azureSigner_adds (bytesToSign : list Z) (w : World B) :
  exists evs : list logged,
    adds (azureSigner handler AZURE_KEY_NAME bytesToSign) w
         (existT _ (KeyClient_getKey AZURE_KEY_NAME) :: evs)
    /\ count is_getKey evs = 0%nat
    /\ (forall out : list Z,
          snd (azureSigner handler AZURE_KEY_NAME bytesToSign w) = Ok out ->
          exists key client response,
            snd (handler _ (KeyClient_getKey AZURE_KEY_NAME) (remote w))
            = Ok key
            /\ evs = [existT _ (CryptographyClient_new key.(kvk_id));
                      existT _ (CryptographyClient_sign
                                  client "ES256K"
                                  (Keccak.keccak256 bytesToSign))]
            /\ out = azure_normalize response.(sr_result)).
Proof.
  unfold adds, azureSigner, bind. rewrite perform_eq.
  destruct (handler _ (KeyClient_getKey AZURE_KEY_NAME) (remote w))
    as [b1 [key|e|why]]; cbn [fst snd].
  2,3: exists []; cbn [fst snd calls]; repeat split; discriminate.
  rewrite perform_eq. cbn [remote calls].
  destruct (handler _ (CryptographyClient_new (kvk_id key)) b1)
    as [b2 [client|e|why]]; cbn [fst snd].
  2,3: exists [existT _ (CryptographyClient_new (kvk_id key))];
       cbn [fst snd calls]; rewrite <- app_assoc;
       repeat split; discriminate.
  rewrite perform_eq. cbn [remote calls].
  destruct (handler _ (CryptographyClient_sign client "ES256K"
                         (Keccak.keccak256 bytesToSign)) b2)
    as [b3 [response|e|why]]; cbn [fst snd].
  2,3: eexists [_; _]; cbn [fst snd calls]; rewrite <- !app_assoc;
       repeat split; discriminate.
  exists [existT _ (CryptographyClient_new (kvk_id key));
          existT _ (CryptographyClient_sign client "ES256K"
                      (Keccak.keccak256 bytesToSign))].
  unfold ret. cbn [fst snd calls]. rewrite <- !app_assoc.
  split; [reflexivity|]. split; [reflexivity|].
  intros out Hout. injection Hout as <-.
  exists key, client, response. repeat split.
Qed.

Lemma azureSigner_count_getKey (bytesToSign : list Z) (w : World B) :
  count is_getKey
        (calls (fst (azureSigner handler AZURE_KEY_NAME bytesToSign w)))
  = S (count is_getKey (calls w)).
Proof.
  destruct (azureSigner_adds bytesToSign w) as (evs & Hadds & Hcount & _).
  unfold adds in Hadds. rewrite Hadds, count_app.
  change (existT _ (KeyClient_getKey AZURE_KEY_NAME) :: evs)
    with ([existT _ (KeyClient_getKey AZURE_KEY_NAME) : logged] ++ evs)%list.
  rewrite count_app, Hcount. cbn. lia.
Qed.

Lemma azureSigner_shape (bytesToSign : list Z) (w : World B) :
  exists evs : list logged,
    adds (azureSigner handler AZURE_KEY_NAME bytesToSign) w
         (existT _ (KeyClient_getKey AZURE_KEY_NAME) :: evs)
    /\ (evs = []
        \/ (exists key, evs = [existT _ (CryptographyClient_new key)])
        \/ (exists key client,
               evs = [existT _ (CryptographyClient_new key);
                      existT _ (CryptographyClient_sign
                                  client "ES256K"
                                  (Keccak.keccak256 bytesToSign))])).
Proof.
  unfold adds, azureSigner, bind. rewrite perform_eq.
  destruct (handler _ (KeyClient_getKey AZURE_KEY_NAME) (remote w))
    as [b1 [key|e|why]]; cbn [fst snd].
  2,3: exists []; cbn [fst snd calls]; split; [reflexivity|left; reflexivity].
  rewrite perform_eq. cbn [remote calls].
  destruct (handler _ (CryptographyClient_new (kvk_id key)) b1)
    as [b2 [client|e|why]]; cbn [fst snd].
  2,3: exists [existT _ (CryptographyClient_new (kvk_id key))];
       cbn [fst snd calls]; rewrite <- app_assoc;
       split; [reflexivity|right; left; eexists; reflexivity].
  rewrite perform_eq. cbn [remote calls].
  exists [existT _ (CryptographyClient_new (kvk_id key));
          existT _ (CryptographyClient_sign client "ES256K"
                      (Keccak.keccak256 bytesToSign))].
  split; [|right; right; eexists _, _; reflexivity].
  destruct (handler _ (CryptographyClient_sign client "ES256K"
                         (Keccak.keccak256 bytesToSign)) b2)
    as [b3 [response|e|why]]; unfold ret; cbn [fst snd calls];
    rewrite <- !app_assoc; reflexivity.
Qed.

Lemma azureSigner_count_sign (bytesToSign : list Z) (w : World B) :
  (count is_sign
         (calls (fst (azureSigner handler AZURE_KEY_NAME bytesToSign w)))
   <= S (count is_sign (calls w)))%nat.
Proof.
  destruct (azureSigner_shape bytesToSign w) as (evs & Hadds & Hshape).
  unfold adds in Hadds. rewrite Hadds, count_app.
  destruct Hshape as [->|[(key & ->)|(key & client & ->)]]; cbn; lia.
Qed.

(** C9.  Each call of [azureSigner] first asks the vault for the key
    ([keyClient.getKey]); when the call succeeds, what it did is exactly:
    fetch the key, build a [CryptographyClient] on the identifier just
    fetched, sign the Keccak-256 digest with that client.  Nothing is
    kept from one call to the next: over n calls the number of key
    fetches grows by n, next to at most n signing requests. *)
Theorem azureSigner_fetches_key_each_call :
  (forall (bytesToSign : list Z) (w : World B),
      exists evs : list logged,
        adds (azureSigner handler AZURE_KEY_NAME bytesToSign) w
             (existT _ (KeyClient_getKey AZURE_KEY_NAME) :: evs)
        /\ count is_getKey evs = 0%nat
        /\ (forall out : list Z,
              snd (azureSigner handler AZURE_KEY_NAME bytesToSign w) = Ok out ->
              exists key client response,
                snd (handler _ (KeyClient_getKey AZURE_KEY_NAME) (remote w))
                = Ok key
                /\ evs = [existT _ (CryptographyClient_new key.(kvk_id));
                          existT _ (CryptographyClient_sign
                                      client "ES256K"
                                      (Keccak.keccak256 bytesToSign))]
                /\ out = azure_normalize response.(sr_result)))
  /\ (forall (payloads : list (list Z)) (w : World B),
        count is_getKey
              (calls (for_each (azureSigner handler AZURE_KEY_NAME) payloads w))
        = (count is_getKey (calls w) + length payloads)%nat
        /\ (count is_sign
                  (calls (for_each (azureSigner handler AZURE_KEY_NAME)
                                   payloads w))
            <= count is_sign (calls w) + length payloads)%nat).
Proof.
  split.
  - exact azureSigner_adds.
  - intros payloads w. split.
    + apply for_each_count. exact azureSigner_count_getKey.
    + apply for_each_count_le. exact azureSigner_count_sign.
Qed.

Lemma fetchKmsPublicKey_count (w : World B) :
  count is_kms_getPublicKey
        (calls (fst (fetchKmsPublicKey handler GCP_KMS_KEY_VERSION w)))
  = S (count is_kms_getPublicKey (calls w)).
Proof.
  unfold fetchKmsPublicKey, bind. rewrite perform_eq.
  destruct (handler _ (Kms_getPublicKey GCP_KMS_KEY_VERSION) (remote w))
    as [b1 [key|e|why]]; cbn [fst snd calls];
    try (rewrite count_app; cbn; lia).
  unfold lift.
  destruct (kms_key_normalize (kpk_pem key)) as [text|e|why];
    cbn [fst snd calls]; try (rewrite count_app; cbn; lia).
  rewrite perform_eq. cbn [fst snd calls remote].
  destruct (handler _ (PublicKey_fromString text) b1) as [b2 r].
  destruct r; cbn [fst snd calls]; rewrite !count_app; cbn; lia.
Qed.

Lemma fetchAzurePublicKey_count (w : World B) :
  count is_getKey
        (calls (fst (fetchAzurePublicKey handler AZURE_KEY_NAME w)))
  = S (count is_getKey (calls w)).
Proof.
  unfold fetchAzurePublicKey, bind. rewrite perform_eq.
  destruct (handler _ (KeyClient_getKey AZURE_KEY_NAME) (remote w))
    as [b1 [key|e|why]]; cbn [fst snd calls];
    try (rewrite count_app; cbn; lia).
  destruct (kvk_key key) as [azureJwk|]; unfold lift;
    cbn [fst snd calls]; try (rewrite count_app; cbn; lia).
  destruct (azure_key_normalize azureJwk) as [text|e|why];
    cbn [fst snd calls]; try (rewrite count_app; cbn; lia).
  rewrite perform_eq. cbn [fst snd calls remote].
  destruct (handler _ (PublicKey_fromString text) b1) as [b2 r].
  destruct r; cbn [fst snd calls]; rewrite !count_app; cbn; lia.
Qed.

(** C6 (as the code has it).  Neither [fetchKmsPublicKey] nor
    [fetchAzurePublicKey] keeps the key it obtained: every call asks the
    service again, so n calls make n public-key requests. *)
Theorem public_key_fetched_on_every_call (n : nat) (w : World B) :
  count is_kms_getPublicKey
        (calls (times n (fetchKmsPublicKey handler GCP_KMS_KEY_VERSION) w))
  = (count is_kms_getPublicKey (calls w) + n)%nat
  /\ count is_getKey
          (calls (times n (fetchAzurePublicKey handler AZURE_KEY_NAME) w))
     = (count is_getKey (calls w) + n)%nat.
Proof.
  unfold times. split.
  - rewrite for_each_count
      by (intros _ w'; apply fetchKmsPublicKey_count).
    rewrite repeat_length. reflexivity.
  - rewrite for_each_count
      by (intros _ w'; apply fetchAzurePublicKey_count).
    rewrite repeat_length. reflexivity.
Qed.

End ScriptProperties.

Lemma azureSigner_fetches_key_each_call_witness :
  (exists evs : list logged,
      adds (azureSigner Sample.handler "hedera" [1; 2; 3]) Sample.world
           (existT _ (KeyClient_getKey "hedera") :: evs)
      /\ count is_getKey evs = 0%nat
      /\ exists key client response,
          snd (Sample.handler _ (KeyClient_getKey "hedera")
                              (remote Sample.world)) = Ok key
          /\ evs = [existT _ (CryptographyClient_new key.(kvk_id));
                    existT _ (CryptographyClient_sign
                                client "ES256K"
                                (Keccak.keccak256 [1; 2; 3]))]
          /\ (BN.be_bytes 32 5 ++ BN.be_bytes 32 7)%list
             = azure_normalize response.(sr_result))
  /\ count is_getKey
           (calls (for_each (azureSigner Sample.handler "hedera")
                            [[1; 2; 3]; [4; 5]; []] Sample.world))
     = 3%nat.
Proof.
  split.
  - destruct (proj1 (azureSigner_fetches_key_each_call
                       Sample.handler "hedera") [1; 2; 3] Sample.world)
      as (evs & Hadds & Hcount & Hok).
    exists evs. split; [exact Hadds|]. split; [exact Hcount|].
    apply Hok. reflexivity.
  - exact (proj1 (proj2 (azureSigner_fetches_key_each_call
                           Sample.handler "hedera")
                        [[1; 2; 3]; [4; 5]; []] Sample.world)).
Defined.

(** C6, counterexample.  Two calls of [fetchKmsPublicKey] on the sample
    deployment make two [getPublicKey] requests, not one; two calls of
    [fetchAzurePublicKey] make two [getKey] requests. *)
Lemma public_key_fetched_twice :
  count is_kms_getPublicKey
        (calls (times 2 (fetchKmsPublicKey Sample.handler "key/1")
                      Sample.world))
  <> 1%nat
  /\ count is_getKey
          (calls (times 2 (fetchAzurePublicKey Sample.handler "hedera")
                        Sample.world))
     <> 1%nat.
Proof. split; vm_compute; discriminate. Qed.

(** ** The digest sent to the secp256k1 services *)

Lemma length_round (st : list Z) (rc : Z) : length (Keccak.round st rc) = 25%nat.
Proof.
  unfold Keccak.round, Keccak.iota.
  assert (H : length (Keccak.chi (Keccak.rho_pi (Keccak.theta st))) = 25%nat).
  { unfold Keccak.chi. rewrite length_map. reflexivity. }
  destruct (Keccak.chi (Keccak.rho_pi (Keccak.theta st))); simpl in *; lia.
Qed.

Lemma length_rounds (rcs : list Z) (st : list Z) :
  length st = 25%nat -> length (fold_left Keccak.round rcs st) = 25%nat.
Proof.
  revert st; induction rcs as [|rc rcs IH]; intros st Hst; simpl.
  - exact Hst.
  - apply IH, length_round.
Qed.

Lemma length_absorb_block (st block : list Z) :
  length (Keccak.absorb_block st block) = 25%nat.
Proof.
  unfold Keccak.absorb_block, Keccak.keccak_f.
  apply length_rounds. rewrite length_map. reflexivity.
Qed.

(** The digest has 32 bytes, whatever the message. *)
Lemma keccak256_length (msg : list Z) :
  length (Keccak.keccak256 msg) = 32%nat.
Proof.
  unfold Keccak.keccak256.
  destruct (Keccak.absorb (repeat 0 25) [] msg) as [st cur].
  pose proof (length_absorb_block st (Keccak.pad cur)) as H.
  destruct (Keccak.absorb_block st (Keccak.pad cur))
    as [|a [|b [|c [|d rest]]]]; try discriminate H.
  reflexivity.
Qed.

Lemma keccak256_bytes (msg : list Z) : bytes_ok (Keccak.keccak256 msg).
Proof.
  unfold Keccak.keccak256.
  destruct (Keccak.absorb (repeat 0 25) [] msg) as [st cur].
  apply Forall_forall. intros b Hb.
  apply list_elem_of_In, in_flat_map in Hb as (l & _ & Hb).
  unfold Keccak.bytes_of_lane in Hb. apply in_map_iff in Hb as (k & <- & _).
  unfold is_byte. apply Z.mod_pos_bound. lia.
Qed.

(** Keccak-256 is not SHA-256, and not the identity: the digests of
    "abc" are the published ones. *)
Lemma keccak256_abc :
  Hex.encode (Keccak.keccak256 [97; 98; 99])
  = "4e03657aea45a94fc7d47ba826c8d667c0d1e6e33a64a036ec44f58fa12d6c45".
Proof. vm_compute. reflexivity. Qed.

Lemma sha256_abc :
  Hex.encode (Sha256.sha256 [97; 98; 99])
  = "ba7816bf8f01cfea414140de5dae2223b00361a396177a9cb410ff61f20015ad".
Proof. vm_compute. reflexivity. Qed.

Lemma keccak256_differs_from_sha256 :
  Keccak.keccak256 [97; 98; 99] <> Sha256.sha256 [97; 98; 99].
Proof. vm_compute. discriminate. Qed.

Section DigestProperties.

Context {B : Type}.
Variable handler : forall T : Type, call T -> B -> B * result T.
Variables AZURE_KEY_NAME GCP_KMS_KEY_VERSION : string.

Lemma kmsSigner_adds (bytesToSign : list Z) (w : World B) :
  adds (kmsSigner handler GCP_KMS_KEY_VERSION bytesToSign) w
       [existT _ (Kms_asymmetricSign
                    (mkAsymmetricSignRequest
                       GCP_KMS_KEY_VERSION
                       {[ "sha256" := Keccak.keccak256 bytesToSign ]}))].
Proof.
  unfold adds, kmsSigner, bind. rewrite perform_eq.
  destruct (handler _ _ (remote w)) as [b1 [response|e|why]];
    reflexivity.
Qed.

(** C10.  The one request of [kmsSigner] is [asymmetricSign] with the
    key version name and a digest object whose only field is named
    "sha256"; the bytes in that field are the Keccak-256 digest of the
    payload, 32 bytes, and they are the SHA-256 digest of the payload
    only if the two digests of that payload coincide; for "abc" they do
    not. *)
Theorem kmsSigner_sha256_field_holds_keccak (bytesToSign : list Z)
        (w : World B) :
  exists request : AsymmetricSignRequest,
    adds (kmsSigner handler GCP_KMS_KEY_VERSION bytesToSign) w
         [existT _ (Kms_asymmetricSign request)]
    /\ request.(asr_name) = GCP_KMS_KEY_VERSION
    /\ dom request.(asr_digest) = ({[ "sha256" ]} : gset string)
    /\ request.(asr_digest) !! "sha256" = Some (Keccak.keccak256 bytesToSign)
    /\ length (Keccak.keccak256 bytesToSign) = 32%nat
    /\ (request.(asr_digest) !! "sha256" = Some (Sha256.sha256 bytesToSign)
        <-> Keccak.keccak256 bytesToSign = Sha256.sha256 bytesToSign)
    /\ Keccak.keccak256 [97; 98; 99] <> Sha256.sha256 [97; 98; 99].
Proof.
  eexists. split; [apply kmsSigner_adds|]. cbn [asr_name asr_digest].
  split; [reflexivity|].
  split; [apply dom_singleton_L|].
  rewrite lookup_singleton_eq.
  split; [reflexivity|].
  split; [apply keccak256_length|].
  split; [|exact keccak256_differs_from_sha256].
  split; [intros H; injection H as H; exact H|intros ->; reflexivity].
Qed.

End DigestProperties.

(** ** Base64 *)

(** Induction on lists three elements at a time. *)
Lemma list_ind3 {A} (P : list A -> Prop) :
  P [] -> (forall a, P [a]) -> (forall a b, P [a; b]) ->
  (forall a b c l, P l -> P (a :: b :: c :: l)) ->
  forall l, P l.
Proof.
  intros H0 H1 H2 H3.
  fix IH 1. intros [|a [|b [|c l]]].
  - exact H0.
  - apply H1.
  - apply H2.
  - apply H3, IH.
Qed.

Lemma alphabet_okb_spec (alpha : string) :
  forallb (alphabet_okb alpha) (map Z.of_nat (seq 0 256)) = true ->
  alphabet_ok alpha.
Proof.
  intros H v Hv.
  pose proof (byte_cases _ H v ltac:(lia)) as Hb.
  unfold alphabet_okb in Hb.
  destruct (Z.leb_spec 64 v); [lia|]. cbn [orb] in Hb.
  apply andb_true_iff in Hb as [Hu Hne].
  destruct (Base64.unbase64 (Base64.char_of alpha v)) as [u|]; [|discriminate].
  apply Z.eqb_eq in Hu. subst u.
  split; [reflexivity|]. apply negb_true_iff, Hne.
Qed.

Lemma alphabet_standard_ok : alphabet_ok Base64.alphabet.
Proof. apply alphabet_okb_spec. vm_compute. reflexivity. Qed.

Lemma alphabet_url_ok : alphabet_ok Base64.alphabet_url.
Proof. apply alphabet_okb_spec. vm_compute. reflexivity. Qed.

Lemma sextets_char (alpha : string) (v : Z) (rest : string) :
  alphabet_ok alpha -> 0 <= v < 64 ->
  Base64.sextets (String (Base64.char_of alpha v) rest)
  = v :: Base64.sextets rest.
Proof.
  intros Hok Hv. destruct (Hok v Hv) as [Hu Hne].
  cbn [Base64.sextets]. rewrite Hne, Hu. reflexivity.
Qed.

Ltac byte_arith :=
  repeat match goal with
         | H : is_byte _ |- _ => unfold is_byte in H
         end;
  Z.div_mod_to_equations; lia.

Lemma decode_encode_with (alpha : string) (pad : bool) (l : list Z) :
  alphabet_ok alpha -> bytes_ok l ->
  Base64.decode (Base64.encode_with alpha pad l) = l.
Proof.
  intros Hok. unfold Base64.decode.
  induction l as [|a|a b|a b c l IH] using list_ind3; intros Hl.
  - reflexivity.
  - inversion Hl as [|? ? Ha _]; subst. unfold is_byte in Ha.
    cbn [Base64.encode_with].
    rewrite !(sextets_char alpha) by (assumption || byte_arith).
    replace (Base64.sextets (if pad then "==" else "")) with (@nil Z)
      by (destruct pad; reflexivity).
    cbn [Base64.bytes_of_sextets]. f_equal. byte_arith.
  - inversion Hl as [|? ? Ha Hl']; subst.
    inversion Hl' as [|? ? Hb _]; subst. unfold is_byte in Ha, Hb.
    cbn [Base64.encode_with].
    rewrite !(sextets_char alpha) by (assumption || byte_arith).
    replace (Base64.sextets (if pad then "=" else "")) with (@nil Z)
      by (destruct pad; reflexivity).
    cbn [Base64.bytes_of_sextets]. f_equal; [|f_equal]; byte_arith.
  - inversion Hl as [|? ? Ha Hl1]; subst.
    inversion Hl1 as [|? ? Hb Hl2]; subst.
    inversion Hl2 as [|? ? Hc Hl3]; subst.
    unfold is_byte in Ha, Hb, Hc.
    cbn [Base64.encode_with].
    rewrite !(sextets_char alpha) by (assumption || byte_arith).
    cbn [Base64.bytes_of_sextets]. rewrite IH by assumption.
    f_equal; [|f_equal; [|f_equal]]; byte_arith.
Qed.

(** What [Buffer.from(s, "base64")] reads from [buf.toString("base64")]
    and from [buf.toString("base64url")] is [buf]. *)
Lemma decode_encode (l : list Z) :
  bytes_ok l -> Base64.decode (Base64.encode l) = l.
Proof. apply decode_encode_with, alphabet_standard_ok. Qed.

Lemma decode_encode_url (l : list Z) :
  bytes_ok l -> Base64.decode (Base64.encode_url l) = l.
Proof. apply decode_encode_with, alphabet_url_ok. Qed.

(** ** Fields of a composite string *)

Lemma split_no_sep (sep : ascii) (s : string) :
  contains sep s = false -> split sep s = [s].
Proof.
  induction s as [|c s IH]; intros H; [reflexivity|].
  cbn [contains] in H. apply orb_false_iff in H as [Hc Hs].
  cbn [split]. rewrite Hc, IH by assumption. reflexivity.
Qed.

Lemma split_app_sep (sep : ascii) (f rest : string) :
  contains sep f = false ->
  split sep (f ++ String sep rest) = f :: split sep rest.
Proof.
  induction f as [|c f IH]; intros H.
  - change (String.append "" (String sep rest)) with (String sep rest).
    cbn [split]. rewrite Ascii.eqb_refl. reflexivity.
  - cbn [contains] in H. apply orb_false_iff in H as [Hc Hs].
    change (String.append (String c f) (String sep rest))
      with (String c (String.append f (String sep rest))).
    cbn [split]. rewrite Hc, IH by assumption. reflexivity.
Qed.

Lemma split_join (sep : ascii) (fields : list string) :
  fields <> [] ->
  Forall (fun f => contains sep f = false) fields ->
  split sep (join sep fields) = fields.
Proof.
  induction fields as [|f [|g rest] IH]; intros Hne Hf.
  - contradiction.
  - cbn [join]. apply split_no_sep. inversion Hf; assumption.
  - inversion Hf as [|? ? Hf1 Hf2]; subst.
    change (join sep (f :: g :: rest))
      with (f ++ String sep (join sep (g :: rest)))%string.
    rewrite split_app_sep by assumption.
    rewrite IH by (assumption || discriminate). reflexivity.
Qed.

Lemma get_contains (s : string) (n : nat) (c : ascii) :
  String.get n s = Some c -> contains c s = true.
Proof.
  revert n; induction s as [|a s IH]; intros n H; [discriminate|].
  destruct n as [|n]; cbn [String.get contains] in *.
  - injection H as ->. rewrite Ascii.eqb_refl. reflexivity.
  - rewrite (IH n H). apply orb_true_r.
Qed.

(** A character that is neither in the alphabet nor ['='] nor ['?'] does
    not occur in an encoded text. *)
Lemma char_of_avoids (alpha : string) (c : ascii) (v : Z) :
  contains c alpha = false -> Ascii.eqb "?"%char c = false ->
  Ascii.eqb (Base64.char_of alpha v) c = false.
Proof.
  intros Halpha Hq. unfold Base64.char_of.
  destruct (String.get (Z.to_nat v) alpha) as [a|] eqn:Hget; [|exact Hq].
  destruct (Ascii.eqb_spec a c) as [->|]; [|reflexivity].
  apply get_contains in Hget. congruence.
Qed.

Lemma encode_with_avoids (alpha : string) (pad : bool) (c : ascii)
      (l : list Z) :
  contains c alpha = false -> Ascii.eqb "?"%char c = false ->
  Ascii.eqb "="%char c = false ->
  contains c (Base64.encode_with alpha pad l) = false.
Proof.
  intros Halpha Hq He.
  induction l as [|a|a b|a b d l IH] using list_ind3;
    cbn [Base64.encode_with contains];
    rewrite ?(char_of_avoids alpha c) by assumption; cbn [orb].
  - reflexivity.
  - destruct pad; cbn [contains]; rewrite ?He; reflexivity.
  - destruct pad; cbn [contains]; rewrite ?He; reflexivity.
  - exact IH.
Qed.

Lemma encode_no_colon (l : list Z) :
  contains ":"%char (Base64.encode l) = false.
Proof. apply encode_with_avoids; reflexivity. Qed.

(** ** The transit signature *)

Lemma vault_normalize_join (fields : list string) :
  Forall no_colon fields ->
  vault_normalize (join ":"%char fields)
  = match fields !! 2%nat with
    | Some field => Ok (Base64.decode field)
    | None => Throw (TypeError "ERR_INVALID_ARG_TYPE")
    end.
Proof.
  intros Hf. unfold vault_normalize.
  destruct fields as [|f fields]; [reflexivity|].
  rewrite split_join by (assumption || discriminate). reflexivity.
Qed.

(** C3 (as the code has it).  Of a composite string the third
    colon-delimited field is base64-decoded, whatever follows it, and
    with fewer than three fields the call throws.  For the form with two
    prefix fields, such as "1:1:<base64>", the third field is the last
    one: the result is the base64-decoding of the trailing field, and
    for the base64 text of a signature it is that signature. *)
Theorem vault_normalize_third_field :
  (forall fields : list string,
      Forall no_colon fields ->
      vault_normalize (join ":"%char fields)
      = match fields !! 2%nat with
        | Some field => Ok (Base64.decode field)
        | None => Throw (TypeError "ERR_INVALID_ARG_TYPE")
        end)
  /\ (forall v1 v2 last : string,
        no_colon v1 -> no_colon v2 -> no_colon last ->
        vault_normalize (join ":"%char [v1; v2; last])
        = Ok (Base64.decode last))
  /\ (forall (v1 v2 : string) (sig : list Z),
        no_colon v1 -> no_colon v2 -> bytes_ok sig ->
        vault_normalize (join ":"%char [v1; v2; Base64.encode sig]) = Ok sig).
Proof.
  split; [exact vault_normalize_join|]. split.
  - intros v1 v2 last H1 H2 H3.
    rewrite vault_normalize_join by (repeat constructor; assumption).
    reflexivity.
  - intros v1 v2 sig H1 H2 Hsig.
    rewrite vault_normalize_join
      by (repeat constructor; try assumption; apply encode_no_colon).
    cbn [lookup list_lookup]. rewrite decode_encode by assumption.
    reflexivity.
Qed.

Lemma vault_normalize_third_field_witness :
  vault_normalize (join ":"%char ["vault"; "v1"; "QUJD"; "x"])
  = Ok (Base64.decode "QUJD")
  /\ vault_normalize (join ":"%char ["1"; "1"; "QUJD"])
     = Ok (Base64.decode "QUJD")
  /\ vault_normalize (join ":"%char ["1"; "1"; Base64.encode [65; 66; 67]])
     = Ok [65; 66; 67].
Proof.
  destruct vault_normalize_third_field as (H1 & H2 & H3).
  split; [|split].
  - apply (H1 ["vault"; "v1"; "QUJD"; "x"]). repeat constructor.
  - apply (H2 "1" "1" "QUJD"); reflexivity.
  - apply (H3 "1" "1" [65; 66; 67]); try reflexivity.
    apply bytes_okb_spec. reflexivity.
Defined.

(** C3, counterexample.  With three prefix fields the field that is
    decoded is the third prefix, not the trailing base64 field. *)
Lemma vault_normalize_not_last_field :
  vault_normalize (join ":"%char ["1"; "1"; "1"; "QUJD"])
  = Ok (Base64.decode "1")
  /\ vault_normalize (join ":"%char ["1"; "1"; "1"; "QUJD"])
     <> Ok (Base64.decode "QUJD").
Proof. split; [reflexivity|]. vm_compute. discriminate. Qed.

(** ** What each signer transmits *)

Section TransmittedProperties.

Context {B : Type}.
Variable handler : forall T : Type, call T -> B -> B * result T.
Variables AZURE_KEY_NAME GCP_KMS_KEY_VERSION : string.

Lemma vaultSigner_adds (bytesToSign : list Z) (w : World B) :
  adds (vaultSigner handler bytesToSign) w
       [existT _ (Axios_post "/v1/transit/sign/hedera-key"
                             (Base64.encode (Uint8Array_from bytesToSign)))].
Proof.
  unfold adds, vaultSigner, bind. rewrite perform_eq.
  destruct (handler _ _ (remote w)) as [b1 [response|e|why]];
    reflexivity.
Qed.

(** Once the vault has answered the key request and the client has been
    built, [azureSigner] makes the signing request, and the request
    carries the Keccak-256 digest of the payload, whatever the vault
    answers to it. *)
Lemma azureSigner_sends (bytesToSign : list Z) (w : World B) (b1 b2 : B)
      (key : KeyVaultKey) (client : CryptographyClient) :
  handler _ (KeyClient_getKey AZURE_KEY_NAME) (remote w) = (b1, Ok key) ->
  handler _ (CryptographyClient_new key.(kvk_id)) b1 = (b2, Ok client) ->
  adds (azureSigner handler AZURE_KEY_NAME bytesToSign) w
       [existT _ (KeyClient_getKey AZURE_KEY_NAME);
        existT _ (CryptographyClient_new key.(kvk_id));
        existT _ (CryptographyClient_sign client "ES256K"
                                          (Keccak.keccak256 bytesToSign))].
Proof.
  intros Hkey Hclient.
  unfold adds, azureSigner, bind. rewrite perform_eq, Hkey. cbn [fst snd].
  rewrite perform_eq. cbn [remote calls]. rewrite Hclient. cbn [fst snd].
  rewrite perform_eq. cbn [remote calls].
  destruct (handler _ (CryptographyClient_sign client "ES256K"
                         (Keccak.keccak256 bytesToSign)) b2)
    as [b3 [response|e|why]]; unfold ret; cbn [fst snd calls];
    rewrite <- !app_assoc; reflexivity.
Qed.

(** C2.  [azureSigner] and [kmsSigner] hand their service the Keccak-256
    digest of the payload, 32 bytes.  [azureSigner] makes its signing
    request as soon as the vault has answered the key request and the
    client is built, and has made it whenever it returns a signature;
    [kmsSigner] makes its one request in every case.  Every payload that
    a request of either signer carries is that digest: it is the SHA-256
    digest of the payload only for a payload on which the two digests
    coincide, and the payload itself only for a payload of 32 bytes that
    is its own digest.  For "abc" the digest sent is the published
    Keccak-256 one, which is neither the SHA-256 digest nor "abc".
    [vaultSigner] sends the base64 text of the payload itself, from which
    the transit engine reads the payload back unhashed. *)
Theorem signers_transmit (bytesToSign : list Z) (w : World B) :
  bytes_ok bytesToSign ->
  (forall (b1 b2 : B) (key : KeyVaultKey) (client : CryptographyClient),
      handler _ (KeyClient_getKey AZURE_KEY_NAME) (remote w) = (b1, Ok key) ->
      handler _ (CryptographyClient_new key.(kvk_id)) b1 = (b2, Ok client) ->
      adds (azureSigner handler AZURE_KEY_NAME bytesToSign) w
           [existT _ (KeyClient_getKey AZURE_KEY_NAME);
            existT _ (CryptographyClient_new key.(kvk_id));
            existT _ (CryptographyClient_sign
                        client "ES256K" (Keccak.keccak256 bytesToSign))])
  /\ (forall out : list Z,
        snd (azureSigner handler AZURE_KEY_NAME bytesToSign w) = Ok out ->
        exists (key : KeyVaultKey) (client : CryptographyClient),
          adds (azureSigner handler AZURE_KEY_NAME bytesToSign) w
               [existT _ (KeyClient_getKey AZURE_KEY_NAME);
                existT _ (CryptographyClient_new key.(kvk_id));
                existT _ (CryptographyClient_sign
                            client "ES256K" (Keccak.keccak256 bytesToSign))])
  /\ adds (kmsSigner handler GCP_KMS_KEY_VERSION bytesToSign) w
          [existT _ (Kms_asymmetricSign
                       (kms_request GCP_KMS_KEY_VERSION bytesToSign))]
  /\ transmitted (existT _ (Kms_asymmetricSign
                              (kms_request GCP_KMS_KEY_VERSION bytesToSign)))
     = Some (Keccak.keccak256 bytesToSign)
  /\ (exists evs_azure evs_kms : list logged,
        adds (azureSigner handler AZURE_KEY_NAME bytesToSign) w evs_azure
        /\ adds (kmsSigner handler GCP_KMS_KEY_VERSION bytesToSign) w evs_kms
        /\ forall (c : logged) (sent : list Z),
            In c (evs_azure ++ evs_kms) -> transmitted c = Some sent ->
            sent = Keccak.keccak256 bytesToSign
            /\ length sent = 32%nat
            /\ bytes_ok sent
            /\ (sent = Sha256.sha256 bytesToSign ->
                Keccak.keccak256 bytesToSign = Sha256.sha256 bytesToSign)
            /\ (sent = bytesToSign ->
                length bytesToSign = 32%nat
                /\ Keccak.keccak256 bytesToSign = bytesToSign)
            /\ (bytesToSign = [97; 98; 99] ->
                Hex.encode sent
                = "4e03657aea45a94fc7d47ba826c8d667c0d1e6e33a64a036ec44f58fa12d6c45"
                /\ sent <> Sha256.sha256 bytesToSign
                /\ sent <> bytesToSign))
  /\ ~ (forall payload, Keccak.keccak256 payload = Sha256.sha256 payload)
  /\ ~ (forall payload, Keccak.keccak256 payload = payload)
  /\ (exists c : logged,
        adds (vaultSigner handler bytesToSign) w [c]
        /\ c = existT _ (Axios_post "/v1/transit/sign/hedera-key"
                                    (Base64.encode bytesToSign))
        /\ transmitted c = Some bytesToSign).
Proof.
  intros Hbytes.
  assert (Hkms : transmitted
                   (existT _ (Kms_asymmetricSign
                                (kms_request GCP_KMS_KEY_VERSION bytesToSign)))
                 = Some (Keccak.keccak256 bytesToSign)).
  { unfold transmitted, kms_request. cbn [projT2 asr_digest].
    apply lookup_singleton_eq. }
  split; [intros b1 b2 key client; apply azureSigner_sends|].
  split.
  { intros out Hout.
    destruct (handler _ (KeyClient_getKey AZURE_KEY_NAME) (remote w))
      as [b1 [key|e|why]] eqn:Hkey.
    2,3: exfalso; revert Hout; unfold azureSigner, bind;
         rewrite perform_eq, Hkey; discriminate.
    destruct (handler _ (CryptographyClient_new key.(kvk_id)) b1)
      as [b2 [client|e|why]] eqn:Hclient.
    2,3: exfalso; revert Hout; unfold azureSigner, bind;
         rewrite perform_eq, Hkey; cbn [fst snd];
         rewrite perform_eq; cbn [remote calls]; rewrite Hclient;
         discriminate.
    exists key, client. exact (azureSigner_sends _ _ _ _ _ _ Hkey Hclient). }
  split; [apply kmsSigner_adds|].
  split; [exact Hkms|].
  split.
  { destruct (azureSigner_shape handler AZURE_KEY_NAME bytesToSign w)
      as (evs & Hadds & Hshape).
    eexists _, _. split; [exact Hadds|]. split; [apply kmsSigner_adds|].
    intros c sent Hin Hsent.
    assert (Hdigest : sent = Keccak.keccak256 bytesToSign).
    { apply in_app_or in Hin as [Hin|Hin].
      - destruct Hin as [<-|Hin]; [discriminate Hsent|].
        destruct Hshape as [->|[(key & ->)|(key & client & ->)]].
        + destruct Hin.
        + destruct Hin as [<-|[]]. discriminate Hsent.
        + destruct Hin as [<-|[<-|[]]]; [discriminate Hsent|].
          cbn in Hsent. congruence.
      - destruct Hin as [<-|[]].
        change (mkAsymmetricSignRequest
                  GCP_KMS_KEY_VERSION
                  {[ "sha256" := Keccak.keccak256 bytesToSign ]})
          with (kms_request GCP_KMS_KEY_VERSION bytesToSign) in Hsent.
        congruence. }
    subst sent.
    split; [reflexivity|].
    split; [apply keccak256_length|].
    split; [apply keccak256_bytes|].
    split; [intros H; exact H|].
    split.
    { intros H. split; [|exact H]. rewrite <- H. apply keccak256_length. }
    intros ->. split; [exact keccak256_abc|].
    split; [exact keccak256_differs_from_sha256|].
    intros H. pose proof (keccak256_length [97; 98; 99]) as Hl.
    rewrite H in Hl. discriminate Hl. }
  split.
  { intros H. exact (keccak256_differs_from_sha256 (H [97; 98; 99])). }
  split.
  { intros H. pose proof (keccak256_length []) as Hl.
    rewrite (H []) in Hl. discriminate Hl. }
  eexists. split; [apply vaultSigner_adds|].
  unfold Uint8Array_from. rewrite map_mod_bytes by assumption.
  split; [reflexivity|].
  unfold transmitted. cbn [projT2]. rewrite decode_encode by assumption.
  reflexivity.
Qed.

End TransmittedProperties.

Lemma signers_transmit_witness :
  adds (azureSigner Sample.handler "hedera" [97; 98; 99]) Sample.world
       [existT _ (KeyClient_getKey "hedera");
        existT _ (CryptographyClient_new (Some "https://vault/keys/hedera/1"));
        existT _ (CryptographyClient_sign
                    (mkCryptographyClient (Some "https://vault/keys/hedera/1"))
                    "ES256K" (Keccak.keccak256 [97; 98; 99]))]
  /\ adds (kmsSigner Sample.handler "key/1" [97; 98; 99]) Sample.world
          [existT _ (Kms_asymmetricSign (kms_request "key/1" [97; 98; 99]))]
  /\ transmitted (existT _ (Kms_asymmetricSign
                              (kms_request "key/1" [97; 98; 99])))
     = Some (Keccak.keccak256 [97; 98; 99])
  /\ (exists c : logged,
        adds (vaultSigner Sample.handler [97; 98; 99]) Sample.world [c]
        /\ c = existT _ (Axios_post "/v1/transit/sign/hedera-key"
                                    (Base64.encode [97; 98; 99]))
        /\ transmitted c = Some [97; 98; 99]).
Proof.
  destruct (signers_transmit Sample.handler "hedera" "key/1" [97; 98; 99]
                             Sample.world
                             (bytes_okb_spec [97; 98; 99] eq_refl))
    as (Hazure & _ & Hkms & Hsent & _ & _ & _ & Hvault).
  split; [|split; [exact Hkms|split; [exact Hsent|exact Hvault]]].
  exact (Hazure 1%nat 2%nat
                (mkKeyVaultKey (Some "https://vault/keys/hedera/1")
                               (Some Sample.jwk))
                (mkCryptographyClient (Some "https://vault/keys/hedera/1"))
                eq_refl eq_refl).
Defined.

(** ** PEM *)

Lemma append_cons (c : ascii) (s t : string) :
  String.append (String c s) t = String c (String.append s t).
Proof. reflexivity. Qed.

Lemma strip_prefix_app (pre s : string) :
  Pem.strip_prefix pre (String.append pre s) = Some s.
Proof.
  induction pre as [|a pre IH]; [reflexivity|].
  rewrite append_cons. cbn [Pem.strip_prefix].
  rewrite Ascii.eqb_refl. exact IH.
Qed.

Lemma until_dash_app (body tail : string) :
  contains "-"%char body = false ->
  Pem.until_dash (String.append body (String "-"%char tail))
  = (body, String "-"%char tail).
Proof.
  induction body as [|c body IH]; intros H.
  - reflexivity.
  - cbn [contains] in H. apply orb_false_iff in H as [Hc Hb].
    rewrite append_cons. cbn [Pem.until_dash].
    rewrite Hc, IH by assumption. reflexivity.
Qed.

Lemma remove_newlines_wrap (s : string) (room : nat) :
  contains Pem.nl s = false ->
  Pem.remove_newlines (Pem.wrap room s) = s.
Proof.
  revert room; induction s as [|c s IH]; intros room H.
  - reflexivity.
  - cbn [contains] in H. apply orb_false_iff in H as [Hc Hs].
    destruct room as [|room]; cbn [Pem.wrap Pem.remove_newlines];
      rewrite ?Ascii.eqb_refl, Hc, IH by assumption; reflexivity.
Qed.

Lemma wrap_avoids (c : ascii) (s : string) (room : nat) :
  contains c s = false -> Ascii.eqb Pem.nl c = false ->
  contains c (Pem.wrap room s) = false.
Proof.
  intros Hs Hnl. revert room Hs; induction s as [|a s IH]; intros room Hs.
  - cbn [Pem.wrap contains]. rewrite Hnl. reflexivity.
  - cbn [contains] in Hs. apply orb_false_iff in Hs as [Ha Hs].
    destruct room as [|room]; cbn [Pem.wrap contains];
      rewrite ?Hnl, Ha, IH by assumption; reflexivity.
Qed.

(** Reading the PEM text of a DER structure gives the structure back. *)
Lemma pem_decode_encode (der : list Z) :
  bytes_ok der -> Pem.decode (Pem.encode der) = Ok der.
Proof.
  intros Hder. unfold Pem.decode, Pem.encode.
  rewrite strip_prefix_app.
  change (String.append Pem.footer (String Pem.nl ""))
    with (String "-"%char
                 (String.append "----END PUBLIC KEY-----" (String Pem.nl ""))).
  rewrite until_dash_app
    by (apply wrap_avoids; [apply encode_with_avoids|]; reflexivity).
  rewrite remove_newlines_wrap by (apply encode_with_avoids; reflexivity).
  rewrite decode_encode by assumption.
  rewrite String.eqb_refl. reflexivity.
Qed.

(** ** SubjectPublicKeyInfo *)

Lemma in_field_range (x : Z) :
  Secp256k1.in_field x = true -> 0 <= x < 2 ^ 256.
Proof.
  unfold Secp256k1.in_field, Secp256k1.p. intros H.
  apply andb_true_iff in H as [H0 Hp].
  apply Z.leb_le in H0. apply Z.ltb_lt in Hp. lia.
Qed.

Lemma import_point_ok (refused : exn) (x y : Z) :
  Secp256k1.in_field x = true -> Secp256k1.in_field y = true ->
  Secp256k1.on_curve x y = true ->
  import_point refused x y = Ok (mkKeyObject x y).
Proof. intros Hx Hy Hc. unfold import_point. rewrite Hx, Hy, Hc. reflexivity. Qed.

Lemma parse_spki_export (x y : Z) :
  0 <= x < 2 ^ 256 -> 0 <= y < 2 ^ 256 ->
  parse_spki (export_spki_der (mkKeyObject x y))
  = import_point (CryptoError "ERR_OSSL_EVP_DECODE_ERROR") x y.
Proof.
  intros Hx Hy. unfold parse_spki, export_spki_der. cbn [kx ky].
  rewrite (take_app_length' spki_prefix _ 24) by reflexivity.
  rewrite bool_decide_eq_true_2 by reflexivity.
  rewrite !length_app, !length_be_bytes. cbn [andb].
  change (length spki_prefix + (32 + 32) =? 88)%nat with true. cbv iota.
  rewrite (drop_app_length' spki_prefix _ 24) by reflexivity.
  rewrite (take_app_length' (BN.be_bytes 32 x) _ 32)
    by (symmetry; apply length_be_bytes).
  rewrite app_assoc.
  rewrite (drop_app_length' (spki_prefix ++ BN.be_bytes 32 x) _ 56)
    by (rewrite length_app, length_be_bytes; reflexivity).
  rewrite !of_bytes_be_bytes by (rewrite pow256 by lia; simpl; lia).
  reflexivity.
Qed.

Lemma export_spki_der_ok (k : KeyObject) : bytes_ok (export_spki_der k).
Proof.
  unfold export_spki_der. apply Forall_app. split.
  - apply bytes_okb_spec. reflexivity.
  - apply Forall_app. split; apply be_bytes_ok.
Qed.

Lemma kms_key_normalize_pem (x y : Z) :
  Secp256k1.in_field x = true -> Secp256k1.in_field y = true ->
  Secp256k1.on_curve x y = true ->
  kms_key_normalize (Pem.encode (export_spki_der (mkKeyObject x y)))
  = Ok (Hex.encode (export_spki_der (mkKeyObject x y))).
Proof.
  intros Hx Hy Hc. unfold kms_key_normalize, createPublicKey_pem.
  rewrite pem_decode_encode by apply export_spki_der_ok. cbn [rbind].
  rewrite parse_spki_export by (apply in_field_range; assumption).
  rewrite import_point_ok by assumption. reflexivity.
Qed.

(** ** JSON Web Key *)

Lemma encode_url_plain (l : list Z) :
  contains "="%char (Base64.encode_url l) = false
  /\ contains "+"%char (Base64.encode_url l) = false
  /\ contains "/"%char (Base64.encode_url l) = false.
Proof.
  split; [|split; apply encode_with_avoids; reflexivity].
  unfold Base64.encode_url.
  induction l as [|a|a b|a b d l IH] using list_ind3;
    cbn [Base64.encode_with contains];
    rewrite ?(char_of_avoids Base64.alphabet_url "="%char) by reflexivity;
    cbn [orb]; try reflexivity.
  exact IH.
Qed.

Lemma azure_rewrite_jwk_buffers (jwk : gmap string jsval) (xb yb : list Z) :
  jwk !! "x" = Some (JBuffer xb) -> jwk !! "y" = Some (JBuffer yb) ->
  azure_rewrite_jwk jwk
  = Ok (<["y" := JString (Base64.encode_url yb)]>
          (<["x" := JString (Base64.encode_url xb)]>
             (<["crv" := JString "secp256k1"]>
                (<["kty" := JString "EC"]> jwk)))).
Proof.
  intros Hx Hy. unfold azure_rewrite_jwk.
  rewrite !lookup_insert_ne by discriminate. rewrite Hx.
  cbn [toString_base64url rbind].
  rewrite !lookup_insert_ne by discriminate. rewrite Hy.
  reflexivity.
Qed.

Lemma createPublicKey_jwk_rewritten (jwk : gmap string jsval) (xs ys : string) :
  createPublicKey_jwk
    (<["y" := JString ys]>
       (<["x" := JString xs]>
          (<["crv" := JString "secp256k1"]>
             (<["kty" := JString "EC"]> jwk))))
  = import_point (TypeError "ERR_CRYPTO_INVALID_JWK")
                 (BN.of_bytes (Base64.decode xs))
                 (BN.of_bytes (Base64.decode ys)).
Proof.
  unfold createPublicKey_jwk.
  rewrite !(lookup_insert_ne _ _ "kty") by discriminate.
  rewrite lookup_insert_eq. cbn [one_of existsb String.eqb Ascii.eqb Bool.eqb negb orb andb].
  rewrite !(lookup_insert_ne _ _ "crv") by discriminate.
  rewrite lookup_insert_eq.
  rewrite !(lookup_insert_ne _ "y" "x") by discriminate.
  rewrite !lookup_insert_eq.
  reflexivity.
Qed.

(** ** One key, two services *)

Lemma azure_key_normalize_jwk (jwk : gmap string jsval) (xb yb : list Z) :
  jwk !! "x" = Some (JBuffer xb) -> jwk !! "y" = Some (JBuffer yb) ->
  bytes_ok xb -> bytes_ok yb ->
  Secp256k1.in_field (BN.of_bytes xb) = true ->
  Secp256k1.in_field (BN.of_bytes yb) = true ->
  Secp256k1.on_curve (BN.of_bytes xb) (BN.of_bytes yb) = true ->
  azure_key_normalize jwk
  = Ok (Hex.encode (export_spki_der
                      (mkKeyObject (BN.of_bytes xb) (BN.of_bytes yb)))).
Proof.
  intros Hx Hy Hxb Hyb Fx Fy Hc. unfold azure_key_normalize.
  rewrite (azure_rewrite_jwk_buffers jwk xb yb Hx Hy). cbn [rbind].
  rewrite createPublicKey_jwk_rewritten.
  rewrite !decode_encode_url by assumption.
  rewrite import_point_ok by assumption. reflexivity.
Qed.

Section KeyProperties.

Context {B : Type}.
Variable handler : forall T : Type, call T -> B -> B * result T.
Variables AZURE_KEY_NAME GCP_KMS_KEY_VERSION : string.

Lemma fetchAzurePublicKey_adds (w : World B) (key : KeyVaultKey)
      (jwk : gmap string jsval) (text : string) :
  snd (handler _ (KeyClient_getKey AZURE_KEY_NAME) (remote w)) = Ok key ->
  kvk_key key = Some jwk ->
  azure_key_normalize jwk = Ok text ->
  adds (fetchAzurePublicKey handler AZURE_KEY_NAME) w
       [existT _ (KeyClient_getKey AZURE_KEY_NAME);
        existT _ (PublicKey_fromString text)].
Proof.
  intros Hkey Hjwk Htext. unfold adds, fetchAzurePublicKey, bind.
  rewrite perform_eq, Hkey, Hjwk. unfold lift. rewrite Htext.
  rewrite perform_eq. cbn [fst snd calls remote].
  destruct (handler _ (PublicKey_fromString text)
              (fst (handler _ (KeyClient_getKey AZURE_KEY_NAME) (remote w))))
    as [b2 [pk|e|why]]; cbn [fst snd calls]; rewrite <- app_assoc;
    reflexivity.
Qed.

Lemma fetchKmsPublicKey_adds (w : World B) (key : KmsPublicKey)
      (text : string) :
  snd (handler _ (Kms_getPublicKey GCP_KMS_KEY_VERSION) (remote w)) = Ok key ->
  kms_key_normalize (kpk_pem key) = Ok text ->
  adds (fetchKmsPublicKey handler GCP_KMS_KEY_VERSION) w
       [existT _ (Kms_getPublicKey GCP_KMS_KEY_VERSION);
        existT _ (PublicKey_fromString text)].
Proof.
  intros Hkey Htext. unfold adds, fetchKmsPublicKey, bind.
  rewrite perform_eq, Hkey. unfold lift. rewrite Htext.
  rewrite perform_eq. cbn [fst snd calls remote].
  destruct (handler _ (PublicKey_fromString text)
              (fst (handler _ (Kms_getPublicKey GCP_KMS_KEY_VERSION)
                            (remote w))))
    as [b2 [pk|e|why]]; cbn [fst snd calls]; rewrite <- app_assoc;
    reflexivity.
Qed.

(** C4.  For a vault JWK whose [x] and [y] are the buffers of the
    coordinates of a point of secp256k1 (its [kty] and [crv] may be
    "EC-HSM" and "P-256K", or anything else), the conversion of
    [fetchAzurePublicKey] sets [kty] to "EC" and [crv] to "secp256k1",
    replaces [x] and [y] by their unpadded base64url texts, imports the
    result as the key of that point, and gives the hex text of its
    SubjectPublicKeyInfo.  The conversion of [fetchKmsPublicKey] applied
    to the PEM text of the same SubjectPublicKeyInfo gives the same hex
    text, and both functions hand it to [PublicKey.fromString]. *)
Theorem key_conversions_agree (jwk : gmap string jsval) (xb yb : list Z) :
  jwk !! "x" = Some (JBuffer xb) -> jwk !! "y" = Some (JBuffer yb) ->
  bytes_ok xb -> bytes_ok yb ->
  Secp256k1.in_field (BN.of_bytes xb) = true ->
  Secp256k1.in_field (BN.of_bytes yb) = true ->
  Secp256k1.on_curve (BN.of_bytes xb) (BN.of_bytes yb) = true ->
  let key := mkKeyObject (BN.of_bytes xb) (BN.of_bytes yb) in
  let text := Hex.encode (export_spki_der key) in
  (exists jwk' : gmap string jsval,
      azure_rewrite_jwk jwk = Ok jwk'
      /\ jwk' !! "kty" = Some (JString "EC")
      /\ jwk' !! "crv" = Some (JString "secp256k1")
      /\ jwk' !! "x" = Some (JString (Base64.encode_url xb))
      /\ jwk' !! "y" = Some (JString (Base64.encode_url yb))
      /\ contains "="%char (Base64.encode_url xb) = false
      /\ contains "="%char (Base64.encode_url yb) = false
      /\ createPublicKey_jwk jwk' = Ok key)
  /\ azure_key_normalize jwk = Ok text
  /\ kms_key_normalize (Pem.encode (export_spki_der key)) = Ok text
  /\ (forall (w : World B) (k : KeyVaultKey),
        snd (handler _ (KeyClient_getKey AZURE_KEY_NAME) (remote w)) = Ok k ->
        kvk_key k = Some jwk ->
        adds (fetchAzurePublicKey handler AZURE_KEY_NAME) w
             [existT _ (KeyClient_getKey AZURE_KEY_NAME);
              existT _ (PublicKey_fromString text)])
  /\ (forall w : World B,
        snd (handler _ (Kms_getPublicKey GCP_KMS_KEY_VERSION) (remote w))
        = Ok (mkKmsPublicKey (Pem.encode (export_spki_der key))) ->
        adds (fetchKmsPublicKey handler GCP_KMS_KEY_VERSION) w
             [existT _ (Kms_getPublicKey GCP_KMS_KEY_VERSION);
              existT _ (PublicKey_fromString text)]).
Proof.
  intros Hx Hy Hxb Hyb Fx Fy Hc key text.
  assert (Ha : azure_key_normalize jwk = Ok text)
    by (apply azure_key_normalize_jwk; assumption).
  assert (Hk : kms_key_normalize (Pem.encode (export_spki_der key)) = Ok text)
    by (apply kms_key_normalize_pem; assumption).
  split.
  { eexists. split; [apply azure_rewrite_jwk_buffers; eassumption|].
    split; [rewrite !(lookup_insert_ne _ _ "kty") by discriminate;
            apply lookup_insert_eq|].
    split; [rewrite !(lookup_insert_ne _ _ "crv") by discriminate;
            apply lookup_insert_eq|].
    split; [rewrite !(lookup_insert_ne _ _ "x") by discriminate;
            apply lookup_insert_eq|].
    split; [apply lookup_insert_eq|].
    split; [apply encode_url_plain|].
    split; [apply encode_url_plain|].
    rewrite createPublicKey_jwk_rewritten.
    rewrite !decode_encode_url by assumption.
    apply import_point_ok; assumption. }
  split; [exact Ha|]. split; [exact Hk|]. split.
  - intros w k Hkey Hjwk. eapply fetchAzurePublicKey_adds; eassumption.
  - intros w Hkey. eapply fetchKmsPublicKey_adds; [exact Hkey|exact Hk].
Qed.

End KeyProperties.

Lemma key_conversions_agree_witness :
  azure_key_normalize Sample.jwk
  = Ok (Hex.encode (export_spki_der (mkKeyObject Sample.Gx Sample.Gy)))
  /\ kms_key_normalize Sample.pem
     = Ok (Hex.encode (export_spki_der (mkKeyObject Sample.Gx Sample.Gy))).
Proof.
  assert (Ex : BN.of_bytes (BN.be_bytes 32 Sample.Gx) = Sample.Gx)
    by (vm_compute; reflexivity).
  assert (Ey : BN.of_bytes (BN.be_bytes 32 Sample.Gy) = Sample.Gy)
    by (vm_compute; reflexivity).
  pose proof (key_conversions_agree Sample.handler "hedera" "key/1"
                Sample.jwk (BN.be_bytes 32 Sample.Gx)
                (BN.be_bytes 32 Sample.Gy)
                eq_refl eq_refl (be_bytes_ok _ _) (be_bytes_ok _ _)) as H.
  rewrite Ex, Ey in H.
  destruct (H eq_refl eq_refl eq_refl) as (_ & Ha & Hk & _).
  split; [exact Ha|exact Hk].
Defined.

(* ================================================================== *)
(** * Further properties of the scripts *)

(** ** What [kmsSigner] returns *)

Lemma toArray_be_32_inv (v : Z) (l : list Z) :
  BN.toArray_be v 32 = Ok l -> l = BN.be_bytes 32 v.
Proof.
  unfold BN.toArray_be. cbn [Z.eqb].
  destruct (BN.byteLength v <=? 32); cbn [negb]; [|discriminate].
  change (0 <? 32) with true. cbn [negb].
  intros H. change (Z.to_nat 32) with 32%nat in H. congruence.
Qed.

Lemma kms_normalize_ok_inv (sig out : list Z) :
  kms_normalize sig = Ok out ->
  exists r s : Z,
    Asn1.EcdsaSig_decode sig = Ok (r, s)
    /\ out = (BN.be_bytes 32 r ++ BN.be_bytes 32 s)%list.
Proof.
  unfold kms_normalize.
  destruct (Asn1.EcdsaSig_decode sig) as [[r s]|e|why]; cbn [rbind];
    [|discriminate|discriminate].
  destruct (BN.toArray_be r 32) as [rb|e|why] eqn:Er; cbn [rbind];
    [|discriminate|discriminate].
  apply toArray_be_32_inv in Er. subst rb.
  rewrite Uint8Array_set_first by (apply be_bytes_ok || apply length_be_bytes).
  cbn [rbind].
  destruct (BN.toArray_be s 32) as [sb|e|why] eqn:Es; cbn [rbind];
    [|discriminate|discriminate].
  apply toArray_be_32_inv in Es. subst sb.
  rewrite Uint8Array_set_second
    by (apply be_bytes_ok || apply length_be_bytes).
  cbn [rbind]. intros H.
  exists r, s. split; [reflexivity|]. congruence.
Qed.

Lemma be_bytes_pair_shape (r s : Z) :
  length (BN.be_bytes 32 r ++ BN.be_bytes 32 s) = 64%nat
  /\ bytes_ok (BN.be_bytes 32 r ++ BN.be_bytes 32 s).
Proof.
  split.
  - rewrite length_app, !length_be_bytes. reflexivity.
  - apply Forall_app. split; apply be_bytes_ok.
Qed.

(** X1.  Whatever bytes the KMS sends, when the reconstruction of
    [kmsSigner] returns at all it returns exactly 64 bytes, each in
    0..255: the 32-byte big-endian layouts of the two decoded
    integers. *)
Theorem kms_normalize_ok_shape (sig out : list Z) :
  kms_normalize sig = Ok out ->
  exists r s : Z,
    Asn1.EcdsaSig_decode sig = Ok (r, s)
    /\ out = (BN.be_bytes 32 r ++ BN.be_bytes 32 s)%list
    /\ length out = 64%nat
    /\ bytes_ok out.
Proof.
  intros H. destruct (kms_normalize_ok_inv sig out H) as (r & s & Hd & ->).
  exists r, s. split; [exact Hd|]. split; [reflexivity|].
  apply be_bytes_pair_shape.
Qed.

Lemma kms_normalize_ok_shape_witness :
  exists r s : Z,
    Asn1.EcdsaSig_decode (DerSig.encode 5 7 ++ [222]) = Ok (r, s)
    /\ (BN.be_bytes 32 5 ++ BN.be_bytes 32 7)%list
       = (BN.be_bytes 32 r ++ BN.be_bytes 32 s)%list
    /\ length (BN.be_bytes 32 5 ++ BN.be_bytes 32 7) = 64%nat
    /\ bytes_ok (BN.be_bytes 32 5 ++ BN.be_bytes 32 7).
Proof.
  apply (kms_normalize_ok_shape (DerSig.encode 5 7 ++ [222])).
  vm_compute. reflexivity.
Defined.

(** ** Truncated signatures *)

Lemma decodeTag_overrun (base : list Z) (off lim t l want : Z) :
  0 <= off ->
  base !! Z.to_nat off = Some t ->
  base !! Z.to_nat (off + 1) = Some l ->
  0 <= l < 128 -> off + 2 <= lim -> lim < off + 2 + l ->
  and32 t 31 = want -> want <> 31 ->
  Asn1._decodeTag (Asn1.mkBuf base off lim) want
  = Throw (ReporterError "Failed to match body").
Proof.
  intros Hoff Ht Hl Hrange Hlo Hhi Htag Hwant.
  unfold Asn1._decodeTag, Asn1.derDecodeTag.
  rewrite (readUInt8_at _ _ _ t) by (assumption || lia). cbn [rbind].
  rewrite Htag. destruct (Z.eqb_spec want 31) as [|_]; [contradiction|].
  cbn [rbind]. unfold Asn1.derDecodeLen.
  rewrite (readUInt8_at _ _ _ l) by (assumption || lia). cbn [rbind].
  destruct (Z.eqb_spec l 128) as [|_]; [lia|]. rewrite andb_false_r.
  rewrite and32_128_small by lia. cbn [Z.eqb rbind Asn1.tag Asn1.primitive].
  rewrite Z.eqb_refl. cbn [negb]. rewrite orb_true_r.
  unfold Asn1.skip. cbn [Asn1.offset Asn1.length Asn1.base Asn1.len_number].
  destruct (Z.leb_spec (off + 1 + 1 + l) lim); [lia|]. reflexivity.
Qed.

(** X3.  A signature cut short is never accepted: for a SEQUENCE of two
    INTEGERs, the reconstruction of [kmsSigner] throws the decoder's
    error on every proper prefix of it, the empty input included. *)
Theorem kms_normalize_truncated (rc sc : list Z) (n : nat) :
  len rc + len sc + 4 < 128 ->
  (n < length (DerSig.seq2 rc sc))%nat ->
  exists msg : string,
    kms_normalize (take n (DerSig.seq2 rc sc)) = Throw (ReporterError msg).
Proof.
  intros Hlen Hn.
  destruct n as [|[|m]].
  - eexists. reflexivity.
  - eexists. reflexivity.
  - set (body := (DerSig.tlv 2 rc ++ DerSig.tlv 2 sc)%list).
    change (DerSig.seq2 rc sc) with (48 :: len body :: body) in *.
    assert (Hbody : len body = len rc + len sc + 4).
    { unfold body, DerSig.tlv, len. rewrite length_app. simpl. lia. }
    cbn [take] in *. cbn [length] in Hn.
    exists "Failed to match body".
    unfold kms_normalize, Asn1.EcdsaSig_decode, Asn1.of_bytes.
    rewrite (decodeTag_overrun _ 0 _ 48 (len body));
      [reflexivity|lia|reflexivity|reflexivity|unfold len in *; lia
      |unfold len; simpl; lia
      |unfold len; cbn [length]; rewrite length_take; lia
      |reflexivity|discriminate].
Qed.

Lemma kms_normalize_truncated_witness :
  exists msg : string,
    kms_normalize (take 7 (DerSig.seq2 [5] [7])) = Throw (ReporterError msg).
Proof.
  apply (kms_normalize_truncated [5] [7] 7); [reflexivity|simpl; lia].
Defined.

(** ** The signers, from request to result *)

Section SignerProperties.

Context {B : Type}.
Variable handler : forall T : Type, call T -> B -> B * result T.
Variables AZURE_KEY_NAME GCP_KMS_KEY_VERSION : string.

Lemma kmsSigner_result (bytesToSign : list Z) (w : World B) :
  snd (kmsSigner handler GCP_KMS_KEY_VERSION bytesToSign w)
  = rbind (snd (handler _ (Kms_asymmetricSign (kms_request GCP_KMS_KEY_VERSION bytesToSign))
                        (remote w)))
          (fun response => kms_normalize response.(asr_signature)).
Proof.
  unfold kmsSigner, bind, kms_request. rewrite perform_eq.
  destruct (handler _ _ (remote w)) as [b1 [response|e|why]]; reflexivity.
Qed.

(** X2.  When the KMS answers the request with the DER encoding of
    (r, s), r and s below 2^256, [kmsSigner] resolves to the 64 bytes r
    then s, each on 32 bytes, and whenever [kmsSigner] resolves, it is to
    exactly 64 bytes. *)
Theorem kmsSigner_end_to_end (bytesToSign : list Z) (w : World B) :
  (forall (r s : Z) (response : AsymmetricSignResponse),
      0 <= r < 2 ^ 256 -> 0 <= s < 2 ^ 256 ->
      snd (handler _ (Kms_asymmetricSign (kms_request GCP_KMS_KEY_VERSION bytesToSign))
                   (remote w)) = Ok response ->
      response.(asr_signature) = DerSig.encode r s ->
      snd (kmsSigner handler GCP_KMS_KEY_VERSION bytesToSign w)
      = Ok (left_pad 32 (DerSig.min_bytes r)
              ++ left_pad 32 (DerSig.min_bytes s))%list)
  /\ (forall out : list Z,
        snd (kmsSigner handler GCP_KMS_KEY_VERSION bytesToSign w) = Ok out ->
        length out = 64%nat /\ bytes_ok out).
Proof.
  split.
  - intros r s response Hr Hs Hresp Hsig.
    rewrite kmsSigner_result, Hresp. cbn [rbind].
    rewrite Hsig, kms_normalize_encode by assumption.
    rewrite !be_bytes_32_left_pad by assumption. reflexivity.
  - intros out Hout. rewrite kmsSigner_result in Hout.
    destruct (snd (handler _ (Kms_asymmetricSign (kms_request GCP_KMS_KEY_VERSION bytesToSign))
                           (remote w))) as [response|e|why];
      cbn [rbind] in Hout; try discriminate.
    destruct (kms_normalize_ok_inv _ _ Hout) as (r & s & _ & ->).
    apply be_bytes_pair_shape.
Qed.

(** X4.  The signers catch nothing: a request that its service rejects
    makes the signer reject with the same error.  When [getKey] is
    rejected, [azureSigner] has made that one call only: no client is
    built and nothing is signed. *)
Theorem signers_propagate_errors (bytesToSign : list Z) (w : World B)
        (e : exn) :
  (snd (handler _ (Kms_asymmetricSign (kms_request GCP_KMS_KEY_VERSION bytesToSign)) (remote w))
   = Throw e ->
   snd (kmsSigner handler GCP_KMS_KEY_VERSION bytesToSign w) = Throw e)
  /\ (snd (handler _ (KeyClient_getKey AZURE_KEY_NAME) (remote w)) = Throw e ->
      snd (azureSigner handler AZURE_KEY_NAME bytesToSign w) = Throw e
      /\ adds (azureSigner handler AZURE_KEY_NAME bytesToSign) w
              [existT _ (KeyClient_getKey AZURE_KEY_NAME)])
  /\ (forall (b1 b2 : B) (key : KeyVaultKey) (client : CryptographyClient),
        handler _ (KeyClient_getKey AZURE_KEY_NAME) (remote w) = (b1, Ok key) ->
        handler _ (CryptographyClient_new key.(kvk_id)) b1 = (b2, Ok client) ->
        snd (handler _ (CryptographyClient_sign
                          client "ES256K" (Keccak.keccak256 bytesToSign)) b2)
        = Throw e ->
        snd (azureSigner handler AZURE_KEY_NAME bytesToSign w) = Throw e)
  /\ (snd (handler _ (Axios_post "/v1/transit/sign/hedera-key"
                                 (Base64.encode (Uint8Array_from bytesToSign)))
                   (remote w)) = Throw e ->
      snd (vaultSigner handler bytesToSign w) = Throw e).
Proof.
  split; [|split; [|split]].
  - intros H. rewrite kmsSigner_result, H. reflexivity.
  - intros H. unfold adds, azureSigner, bind. rewrite perform_eq, H.
    split; reflexivity.
  - intros b1 b2 key client Hkey Hclient Hsign.
    unfold azureSigner, bind, perform. cbn [remote calls].
    rewrite Hkey. cbn [remote calls]. rewrite Hclient. cbn [remote calls].
    destruct (handler _ (CryptographyClient_sign client "ES256K"
                           (Keccak.keccak256 bytesToSign)) b2)
      as [b3 r]. cbn [snd] in Hsign. subst r. reflexivity.
  - intros H. unfold vaultSigner, bind. rewrite perform_eq, H. reflexivity.
Qed.

(** X6.  [vaultSigner] from request to result.  When the transit engine
    answers with a composite string of two prefix fields and the base64
    text of a signature, [vaultSigner] resolves to that signature.  When
    the answer has fewer than three fields, it rejects with a
    [TypeError], after the signing request has been sent. *)
Theorem vaultSigner_end_to_end (bytesToSign : list Z) (w : World B)
        (response : TransitSignature) :
  snd (handler _ (Axios_post "/v1/transit/sign/hedera-key"
                             (Base64.encode (Uint8Array_from bytesToSign)))
               (remote w)) = Ok response ->
  (forall (v1 v2 : string) (sig : list Z),
      no_colon v1 -> no_colon v2 -> bytes_ok sig ->
      response.(ts_signature) = join ":"%char [v1; v2; Base64.encode sig] ->
      snd (vaultSigner handler bytesToSign w) = Ok sig)
  /\ (forall fields : list string,
        Forall no_colon fields -> (length fields < 3)%nat ->
        response.(ts_signature) = join ":"%char fields ->
        snd (vaultSigner handler bytesToSign w)
        = Throw (TypeError "ERR_INVALID_ARG_TYPE")
        /\ adds (vaultSigner handler bytesToSign) w
                [existT _ (Axios_post
                             "/v1/transit/sign/hedera-key"
                             (Base64.encode (Uint8Array_from bytesToSign)))]).
Proof.
  intros Hresp.
  assert (Hres : snd (vaultSigner handler bytesToSign w)
                 = vault_normalize response.(ts_signature)).
  { unfold vaultSigner, bind. rewrite perform_eq, Hresp. reflexivity. }
  split.
  - intros v1 v2 sig H1 H2 Hsig Hfmt. rewrite Hres, Hfmt.
    rewrite vault_normalize_join
      by (repeat constructor; try assumption; apply encode_no_colon).
    cbn [lookup list_lookup]. rewrite decode_encode by assumption.
    reflexivity.
  - intros fields Hf Hlen Hfmt. split; [|apply vaultSigner_adds].
    rewrite Hres, Hfmt, vault_normalize_join by assumption.
    rewrite lookup_ge_None_2 by lia. reflexivity.
Qed.

End SignerProperties.

Lemma kmsSigner_end_to_end_witness :
  snd (kmsSigner Sample.handler "key/1" [97; 98; 99] Sample.world)
  = Ok (left_pad 32 (DerSig.min_bytes 5) ++ left_pad 32 (DerSig.min_bytes 7))%list
  /\ length (BN.be_bytes 32 5 ++ BN.be_bytes 32 7) = 64%nat
  /\ bytes_ok (BN.be_bytes 32 5 ++ BN.be_bytes 32 7).
Proof.
  destruct (kmsSigner_end_to_end Sample.handler "key/1" [97; 98; 99]
                                 Sample.world) as [H1 H2].
  split.
  - apply (H1 5 7 (mkAsymmetricSignResponse (DerSig.encode 5 7)));
      [lia|lia|reflexivity|reflexivity].
  - apply H2. vm_compute. reflexivity.
Defined.

Lemma signers_propagate_errors_witness :
  snd (kmsSigner Variants.outage "key/1" [97] Sample.world)
  = Throw (BackendError "unavailable")
  /\ snd (azureSigner Variants.outage "hedera" [97] Sample.world)
     = Throw (BackendError "unavailable")
  /\ snd (vaultSigner Variants.outage [97] Sample.world)
     = Throw (BackendError "unavailable").
Proof.
  destruct (signers_propagate_errors Variants.outage "hedera" "key/1" [97]
              Sample.world (BackendError "unavailable"))
    as (H1 & H2 & _ & H4).
  split; [|split].
  - apply H1. reflexivity.
  - apply H2. reflexivity.
  - apply H4. reflexivity.
Defined.

Lemma vaultSigner_end_to_end_witness :
  snd (vaultSigner Sample.handler [97; 98; 99] Sample.world)
  = Ok [65; 66; 67]
  /\ snd (vaultSigner Variants.rotated [97; 98; 99] Sample.world)
     = Throw (TypeError "ERR_INVALID_ARG_TYPE").
Proof.
  split.
  - apply (proj1 (vaultSigner_end_to_end
                    Sample.handler [97; 98; 99] Sample.world
                    (mkTransitSignature "vault:v1:QUJD") eq_refl)
                 "vault" "v1" [65; 66; 67]);
      try reflexivity.
    apply bytes_okb_spec. reflexivity.
  - apply (proj2 (vaultSigner_end_to_end
                    Variants.rotated [97; 98; 99] Sample.world
                    (mkTransitSignature "v2:QUJD") eq_refl)
                 ["v2"; "QUJD"]);
      [repeat constructor|simpl; lia|reflexivity].
Defined.

(** ** The key fetchers, from request to result *)

Section FetcherProperties.

Context {B : Type}.
Variable handler : forall T : Type, call T -> B -> B * result T.
Variables AZURE_KEY_NAME GCP_KMS_KEY_VERSION : string.

(** X5.  The key fetchers catch nothing either: when the service rejects
    the key request, the fetcher rejects with the same error and has made
    that one call only; [PublicKey.fromString] is not reached. *)
Theorem fetchers_propagate_errors (w : World B) (e : exn) :
  (snd (handler _ (Kms_getPublicKey GCP_KMS_KEY_VERSION) (remote w)) = Throw e ->
   snd (fetchKmsPublicKey handler GCP_KMS_KEY_VERSION w) = Throw e
   /\ adds (fetchKmsPublicKey handler GCP_KMS_KEY_VERSION) w
           [existT _ (Kms_getPublicKey GCP_KMS_KEY_VERSION)])
  /\ (snd (handler _ (KeyClient_getKey AZURE_KEY_NAME) (remote w)) = Throw e ->
      snd (fetchAzurePublicKey handler AZURE_KEY_NAME w) = Throw e
      /\ adds (fetchAzurePublicKey handler AZURE_KEY_NAME) w
              [existT _ (KeyClient_getKey AZURE_KEY_NAME)])
  /\ (snd (handler _ (Axios_get "/v1/transit/keys/hedera-key") (remote w))
      = Throw e ->
      snd (getVaultPublicKey handler w) = Throw e
      /\ adds (getVaultPublicKey handler) w
              [existT _ (Axios_get "/v1/transit/keys/hedera-key")]).
Proof.
  split; [|split]; intros H.
  - unfold adds, fetchKmsPublicKey, bind. rewrite perform_eq, H.
    split; reflexivity.
  - unfold adds, fetchAzurePublicKey, bind. rewrite perform_eq, H.
    split; reflexivity.
  - unfold adds, getVaultPublicKey, bind. rewrite perform_eq, H.
    split; reflexivity.
Qed.

(** X7.  [getVaultPublicKey] reads version "1" of the transit key and no
    other.  When the key has no version "1", whatever other versions it
    has, the function rejects with a [TypeError] after its one GET, and
    [PublicKey.fromString] is not called.  Otherwise the base64 text of
    version "1" goes to [PublicKey.fromString] as it is, and the outcome
    is the outcome of that call. *)
Theorem getVaultPublicKey_version_1 (w : World B) (data : TransitKey) :
  snd (handler _ (Axios_get "/v1/transit/keys/hedera-key") (remote w))
  = Ok data ->
  (data.(tk_keys) !! "1" = None ->
   snd (getVaultPublicKey handler w)
   = Throw (TypeError "Cannot read properties of undefined")
   /\ adds (getVaultPublicKey handler) w
           [existT _ (Axios_get "/v1/transit/keys/hedera-key")])
  /\ (forall pubKeyBase64 : string,
        data.(tk_keys) !! "1" = Some pubKeyBase64 ->
        adds (getVaultPublicKey handler) w
             [existT _ (Axios_get "/v1/transit/keys/hedera-key");
              existT _ (PublicKey_fromString pubKeyBase64)]
        /\ snd (getVaultPublicKey handler w)
           = snd (handler _ (PublicKey_fromString pubKeyBase64)
                          (fst (handler _ (Axios_get "/v1/transit/keys/hedera-key")
                                        (remote w))))).
Proof.
  intros Hdata. split.
  - intros Hnone. unfold adds, getVaultPublicKey, bind.
    rewrite perform_eq, Hdata, Hnone. split; reflexivity.
  - intros k Hk. unfold adds, getVaultPublicKey, bind.
    rewrite perform_eq, Hdata, Hk. rewrite perform_eq.
    cbn [fst snd calls remote]. rewrite <- app_assoc.
    split; reflexivity.
Qed.

(** X10.  A failed conversion ends the fetch: when the vault key carries
    no JWK, or its JWK lacks [x] or [y], [fetchAzurePublicKey] rejects
    with a [TypeError]; when [createPublicKey] refuses the key material
    of either service, the fetcher rejects with that error.  In each case
    the key request is the only call made: [PublicKey.fromString] is
    never called on a failed conversion.  ([x] is taken to be a Buffer or
    a string where [y] is the missing one.) *)
Theorem failed_conversion_ends_fetch (w : World B) :
  (forall key : KeyVaultKey,
      snd (handler _ (KeyClient_getKey AZURE_KEY_NAME) (remote w)) = Ok key ->
      (key.(kvk_key) = None
       \/ exists jwk, key.(kvk_key) = Some jwk
                      /\ (jwk !! "x" = None
                          \/ (jwk !! "y" = None /\ jwk !! "x" <> Some JOther))) ->
      (exists msg,
          snd (fetchAzurePublicKey handler AZURE_KEY_NAME w)
          = Throw (TypeError msg))
      /\ adds (fetchAzurePublicKey handler AZURE_KEY_NAME) w
              [existT _ (KeyClient_getKey AZURE_KEY_NAME)])
  /\ (forall (key : KeyVaultKey) (jwk : gmap string jsval) (e : exn),
        snd (handler _ (KeyClient_getKey AZURE_KEY_NAME) (remote w)) = Ok key ->
        key.(kvk_key) = Some jwk ->
        azure_key_normalize jwk = Throw e ->
        snd (fetchAzurePublicKey handler AZURE_KEY_NAME w) = Throw e
        /\ adds (fetchAzurePublicKey handler AZURE_KEY_NAME) w
                [existT _ (KeyClient_getKey AZURE_KEY_NAME)])
  /\ (forall (key : KmsPublicKey) (e : exn),
        snd (handler _ (Kms_getPublicKey GCP_KMS_KEY_VERSION) (remote w))
        = Ok key ->
        kms_key_normalize key.(kpk_pem) = Throw e ->
        snd (fetchKmsPublicKey handler GCP_KMS_KEY_VERSION w) = Throw e
        /\ adds (fetchKmsPublicKey handler GCP_KMS_KEY_VERSION) w
                [existT _ (Kms_getPublicKey GCP_KMS_KEY_VERSION)]).
Proof.
  assert (Hfail : forall key jwk e,
             snd (handler _ (KeyClient_getKey AZURE_KEY_NAME) (remote w))
             = Ok key ->
             key.(kvk_key) = Some jwk ->
             azure_key_normalize jwk = Throw e ->
             snd (fetchAzurePublicKey handler AZURE_KEY_NAME w) = Throw e
             /\ adds (fetchAzurePublicKey handler AZURE_KEY_NAME) w
                     [existT _ (KeyClient_getKey AZURE_KEY_NAME)]).
  { intros key jwk e Hkey Hjwk He.
    unfold adds, fetchAzurePublicKey, bind, lift.
    rewrite perform_eq, Hkey, Hjwk, He. split; reflexivity. }
  split; [|split].
  - intros key Hkey [Hnone|(jwk & Hjwk & Hxy)].
    + unfold adds, fetchAzurePublicKey, bind, lift.
      rewrite perform_eq, Hkey, Hnone.
      split; [eexists; reflexivity|reflexivity].
    + assert (He : exists msg, azure_key_normalize jwk = Throw (TypeError msg)).
      { unfold azure_key_normalize, azure_rewrite_jwk.
        rewrite !lookup_insert_ne by discriminate.
        destruct Hxy as [Hx|[Hy Hx]].
        - rewrite Hx. eexists. reflexivity.
        - destruct (jwk !! "x") as [[xs|xb|]|]; cbn [toString_base64url rbind];
            try (rewrite !lookup_insert_ne by discriminate; rewrite Hy);
            try (eexists; reflexivity).
          contradiction. }
      destruct He as [msg He].
      destruct (Hfail key jwk _ Hkey Hjwk He) as [Hr Ha].
      split; [exists msg; exact Hr|exact Ha].
  - exact Hfail.
  - intros key e Hkey He.
    unfold adds, fetchKmsPublicKey, bind, lift.
    rewrite perform_eq, Hkey, He. split; reflexivity.
Qed.

End FetcherProperties.

Lemma fetchers_propagate_errors_witness :
  snd (fetchKmsPublicKey Variants.outage "key/1" Sample.world)
  = Throw (BackendError "unavailable")
  /\ snd (fetchAzurePublicKey Variants.outage "hedera" Sample.world)
     = Throw (BackendError "unavailable")
  /\ snd (getVaultPublicKey Variants.outage Sample.world)
     = Throw (BackendError "unavailable").
Proof.
  destruct (fetchers_propagate_errors Variants.outage "hedera" "key/1"
              Sample.world (BackendError "unavailable")) as (H1 & H2 & H3).
  split; [|split].
  - apply H1. reflexivity.
  - apply H2. reflexivity.
  - apply H3. reflexivity.
Defined.

Lemma getVaultPublicKey_version_1_witness :
  snd (getVaultPublicKey Variants.rotated Sample.world)
  = Throw (TypeError "Cannot read properties of undefined")
  /\ adds (getVaultPublicKey Sample.handler) Sample.world
          [existT _ (Axios_get "/v1/transit/keys/hedera-key");
           existT _ (PublicKey_fromString "AAEC")].
Proof.
  split.
  - apply (proj1 (getVaultPublicKey_version_1
                    Variants.rotated Sample.world
                    (mkTransitKey {[ "2" := "AAEC" ]}) eq_refl)).
    reflexivity.
  - apply (proj2 (getVaultPublicKey_version_1
                    Sample.handler Sample.world
                    (mkTransitKey {[ "1" := "AAEC" ]}) eq_refl) "AAEC").
    reflexivity.
Defined.

Lemma failed_conversion_ends_fetch_witness :
  (exists msg,
      snd (fetchAzurePublicKey Variants.no_jwk "hedera" Sample.world)
      = Throw (TypeError msg))
  /\ (exists msg,
        snd (fetchAzurePublicKey Variants.no_y "hedera" Sample.world)
        = Throw (TypeError msg))
  /\ adds (fetchKmsPublicKey Variants.off_curve "key/1") Sample.world
          [existT _ (Kms_getPublicKey "key/1")].
Proof.
  split; [|split].
  - apply (proj1 (failed_conversion_ends_fetch
                    Variants.no_jwk "hedera" "key/1" Sample.world)
                 (mkKeyVaultKey (Some "id") None) eq_refl).
    left. reflexivity.
  - apply (proj1 (failed_conversion_ends_fetch
                    Variants.no_y "hedera" "key/1" Sample.world)
                 (mkKeyVaultKey (Some "id") (Some (delete "y" Sample.jwk)))
                 eq_refl).
    right. eexists. split; [reflexivity|].
    right. split; [reflexivity|vm_compute; discriminate].
  - apply (proj2 (proj2 (failed_conversion_ends_fetch
                           Variants.off_curve "hedera" "key/1" Sample.world))
                 (mkKmsPublicKey
                    (Pem.encode (export_spki_der (mkKeyObject 1 1))))
                 (CryptoError "ERR_OSSL_EVP_DECODE_ERROR") eq_refl).
    vm_compute. reflexivity.
Defined.

(** ** One request for each signature *)

Section RequestProperties.

Context {B : Type}.
Variable handler : forall T : Type, call T -> B -> B * result T.
Variable GCP_KMS_KEY_VERSION : string.

Lemma for_each_adds {A C} (f : A -> M B C) (g : A -> logged) :
  (forall a w, adds (f a) w [g a]) ->
  forall l w, calls (for_each f l w) = (calls w ++ map g l)%list.
Proof.
  intros Hf l. induction l as [|a l IH]; intros w; cbn [for_each map].
  - rewrite app_nil_r. reflexivity.
  - rewrite IH, (Hf a w). rewrite <- app_assoc. reflexivity.
Qed.

(** X14.  [kmsSigner] and [vaultSigner] make one request for each call
    and no other: after signing a list of payloads, the calls recorded
    are, in order, one [asymmetricSign] per payload with the Keccak-256
    digest of that payload, respectively one POST per payload with the
    base64 text of that payload.  In particular [kmsSigner] never asks
    for the public key. *)
Theorem one_request_per_signature (payloads : list (list Z)) (w : World B) :
  calls (for_each (kmsSigner handler GCP_KMS_KEY_VERSION) payloads w)
  = (calls w
       ++ map (fun bytesToSign =>
                 existT _ (Kms_asymmetricSign
                             (kms_request GCP_KMS_KEY_VERSION bytesToSign)))
              payloads)%list
  /\ count is_kms_getPublicKey
          (calls (for_each (kmsSigner handler GCP_KMS_KEY_VERSION) payloads w))
     = count is_kms_getPublicKey (calls w)
  /\ calls (for_each (vaultSigner handler) payloads w)
     = (calls w
          ++ map (fun bytesToSign =>
                    existT _ (Axios_post
                                "/v1/transit/sign/hedera-key"
                                (Base64.encode (Uint8Array_from bytesToSign))))
                 payloads)%list.
Proof.
  assert (Hk := for_each_adds
                  (kmsSigner handler GCP_KMS_KEY_VERSION)
                  (fun bytesToSign =>
                     existT _ (Kms_asymmetricSign
                                 (kms_request GCP_KMS_KEY_VERSION bytesToSign)))
                  (kmsSigner_adds handler GCP_KMS_KEY_VERSION)).
  split; [apply Hk|]. split; [|apply for_each_adds, vaultSigner_adds].
  rewrite Hk, count_app.
  assert (Hz : forall l : list (list Z),
             count is_kms_getPublicKey
                   (map (fun bytesToSign =>
                           existT _ (Kms_asymmetricSign
                                       (kms_request GCP_KMS_KEY_VERSION
                                                    bytesToSign)) : logged) l)
             = 0%nat).
  { induction l as [|a l IH]; [reflexivity|exact IH]. }
  rewrite Hz. lia.
Qed.

End RequestProperties.

(** ** The JWK rewrite of [fetchAzurePublicKey] *)

Lemma azure_rewrite_jwk_inv (jwk jwk' : gmap string jsval) :
  azure_rewrite_jwk jwk = Ok jwk' ->
  exists xs ys : string,
    toString_base64url (jwk !! "x") = Ok xs
    /\ toString_base64url (jwk !! "y") = Ok ys
    /\ jwk' = <["y" := JString ys]>
                (<["x" := JString xs]>
                   (<["crv" := JString "secp256k1"]> (<["kty" := JString "EC"]> jwk))).
Proof.
  unfold azure_rewrite_jwk.
  rewrite !lookup_insert_ne by discriminate.
  destruct (toString_base64url (jwk !! "x")) as [xs|e|why]; cbn [rbind];
    [|discriminate|discriminate].
  rewrite !lookup_insert_ne by discriminate.
  destruct (toString_base64url (jwk !! "y")) as [ys|e|why]; cbn [rbind];
    [|discriminate|discriminate].
  intros H. exists xs, ys. split; [reflexivity|]. split; [reflexivity|].
  congruence.
Qed.

Lemma azure_rewrite_jwk_fixed (m : gmap string jsval) (xs ys : string) :
  m !! "kty" = Some (JString "EC") -> m !! "crv" = Some (JString "secp256k1") ->
  m !! "x" = Some (JString xs) -> m !! "y" = Some (JString ys) ->
  azure_rewrite_jwk m = Ok m.
Proof.
  intros Hk Hc Hx Hy. unfold azure_rewrite_jwk.
  rewrite (insert_id m "kty") by exact Hk.
  rewrite (insert_id m "crv") by exact Hc.
  rewrite Hx. cbn [toString_base64url rbind].
  rewrite (insert_id m "x") by exact Hx.
  rewrite Hy. cbn [toString_base64url rbind].
  rewrite (insert_id m "y") by exact Hy.
  reflexivity.
Qed.

(** X8.  The conversion of [fetchAzurePublicKey] never looks at the key
    type or the curve name of the vault's JWK: whatever values [kty] and
    [crv] have, it gives the result that depends on the rest of the JWK
    only. *)
Theorem azure_conversion_ignores_kty_crv (jwk : gmap string jsval)
        (kty crv : jsval) :
  azure_rewrite_jwk (<["kty" := kty]> (<["crv" := crv]> jwk))
  = azure_rewrite_jwk jwk
  /\ azure_key_normalize (<["kty" := kty]> (<["crv" := crv]> jwk))
     = azure_key_normalize jwk.
Proof.
  assert (E : azure_rewrite_jwk (<["kty" := kty]> (<["crv" := crv]> jwk))
              = azure_rewrite_jwk jwk).
  { unfold azure_rewrite_jwk.
    rewrite insert_insert_eq.
    rewrite (insert_insert_ne _ "kty" "crv") by discriminate.
    rewrite insert_insert_eq. reflexivity. }
  split; [exact E|]. unfold azure_key_normalize. rewrite E. reflexivity.
Qed.

(** X9.  The rewrite can be applied again to the object it has changed:
    on its own result it changes nothing.  It touches the four fields
    [kty], [crv], [x], [y] only; every other field of the JWK keeps its
    value, and in the result [x] and [y] are strings. *)
Theorem azure_rewrite_jwk_idempotent (jwk jwk' : gmap string jsval) :
  azure_rewrite_jwk jwk = Ok jwk' ->
  azure_rewrite_jwk jwk' = Ok jwk'
  /\ (forall k : string,
        k <> "kty" -> k <> "crv" -> k <> "x" -> k <> "y" ->
        jwk' !! k = jwk !! k)
  /\ jwk' !! "kty" = Some (JString "EC")
  /\ jwk' !! "crv" = Some (JString "secp256k1")
  /\ (exists xs ys : string,
        jwk' !! "x" = Some (JString xs) /\ jwk' !! "y" = Some (JString ys)).
Proof.
  intros H. apply azure_rewrite_jwk_inv in H as (xs & ys & _ & _ & ->).
  assert (Hk : (<["y" := JString ys]>
                  (<["x" := JString xs]>
                     (<["crv" := JString "secp256k1"]> (<["kty" := JString "EC"]> jwk))))
               !! "kty" = Some (JString "EC"))
    by (rewrite !(lookup_insert_ne _ _ "kty") by discriminate;
        apply lookup_insert_eq).
  assert (Hc : (<["y" := JString ys]>
                  (<["x" := JString xs]>
                     (<["crv" := JString "secp256k1"]> (<["kty" := JString "EC"]> jwk))))
               !! "crv" = Some (JString "secp256k1"))
    by (rewrite !(lookup_insert_ne _ _ "crv") by discriminate;
        apply lookup_insert_eq).
  assert (Hx : (<["y" := JString ys]>
                  (<["x" := JString xs]>
                     (<["crv" := JString "secp256k1"]> (<["kty" := JString "EC"]> jwk))))
               !! "x" = Some (JString xs))
    by (rewrite !(lookup_insert_ne _ _ "x") by discriminate;
        apply lookup_insert_eq).
  assert (Hy : (<["y" := JString ys]>
                  (<["x" := JString xs]>
                     (<["crv" := JString "secp256k1"]> (<["kty" := JString "EC"]> jwk))))
               !! "y" = Some (JString ys))
    by apply lookup_insert_eq.
  split; [eapply azure_rewrite_jwk_fixed; eassumption|].
  split.
  { intros k H1 H2 H3 H4.
    rewrite !lookup_insert_ne by congruence. reflexivity. }
  split; [exact Hk|]. split; [exact Hc|].
  exists xs, ys. split; assumption.
Qed.

Lemma azure_rewrite_jwk_idempotent_witness :
  exists jwk' : gmap string jsval,
    azure_rewrite_jwk Sample.jwk = Ok jwk'
    /\ azure_rewrite_jwk jwk' = Ok jwk'
    /\ jwk' !! "kid" = Sample.jwk !! "kid".
Proof.
  destruct (azure_rewrite_jwk Sample.jwk) as [jwk'|e|why] eqn:E;
    [|exfalso; vm_compute in E; discriminate E
     |exfalso; vm_compute in E; discriminate E].
  exists jwk'. split; [reflexivity|].
  destruct (azure_rewrite_jwk_idempotent Sample.jwk jwk' E)
    as (Hid & Hkeep & _).
  split; [exact Hid|]. apply Hkeep; discriminate.
Defined.

(** ** The text that reaches [PublicKey.fromString] *)

Lemma hex_length (l : list Z) :
  String.length (Hex.encode l) = (2 * length l)%nat.
Proof.
  induction l as [|b l IH]; [reflexivity|].
  cbn [Hex.encode String.length length]. rewrite IH. lia.
Qed.

Lemma import_point_inv (refused : exn) (x y : Z) (k : KeyObject) :
  import_point refused x y = Ok k ->
  k = mkKeyObject x y
  /\ Secp256k1.in_field x = true /\ Secp256k1.in_field y = true
  /\ Secp256k1.on_curve x y = true.
Proof.
  unfold import_point.
  destruct (Secp256k1.in_field x); [|discriminate].
  destruct (Secp256k1.in_field y); [|discriminate].
  destruct (Secp256k1.on_curve x y); [|discriminate].
  cbn [andb]. intros H. split; [congruence|]. repeat split.
Qed.

(** X11.  Whenever the conversion of [fetchAzurePublicKey] gives a text
    at all, it is the hex text, 176 digits, of the SubjectPublicKeyInfo
    of a point of secp256k1 whose coordinates are what [x] and [y] hold:
    coordinates that are not on that curve, as those of a key on another
    curve, never give a key. *)
Theorem azure_key_normalize_ok_shape (jwk : gmap string jsval)
        (text : string) :
  azure_key_normalize jwk = Ok text ->
  exists x y : Z,
    Secp256k1.in_field x = true /\ Secp256k1.in_field y = true
    /\ Secp256k1.on_curve x y = true
    /\ text = Hex.encode (export_spki_der (mkKeyObject x y))
    /\ String.length text = 176%nat
    /\ exists xs ys : string,
        toString_base64url (jwk !! "x") = Ok xs
        /\ toString_base64url (jwk !! "y") = Ok ys
        /\ x = BN.of_bytes (Base64.decode xs)
        /\ y = BN.of_bytes (Base64.decode ys).
Proof.
  unfold azure_key_normalize.
  destruct (azure_rewrite_jwk jwk) as [jwk'|e|why] eqn:E; cbn [rbind];
    [|discriminate|discriminate].
  apply azure_rewrite_jwk_inv in E as (xs & ys & Hx & Hy & ->).
  rewrite createPublicKey_jwk_rewritten.
  destruct (import_point (TypeError "ERR_CRYPTO_INVALID_JWK")
                         (BN.of_bytes (Base64.decode xs))
                         (BN.of_bytes (Base64.decode ys)))
    as [k|e|why] eqn:Ek; cbn [rbind]; [|discriminate|discriminate].
  apply import_point_inv in Ek as (-> & Fx & Fy & Hc).
  intros H.
  assert (Et : text
               = Hex.encode
                   (export_spki_der
                      (mkKeyObject (BN.of_bytes (Base64.decode xs))
                                   (BN.of_bytes (Base64.decode ys)))))
    by congruence.
  clear H.
  exists (BN.of_bytes (Base64.decode xs)), (BN.of_bytes (Base64.decode ys)).
  split; [exact Fx|]. split; [exact Fy|]. split; [exact Hc|].
  split; [exact Et|]. split.
  - rewrite Et, hex_length. unfold export_spki_der.
    rewrite !length_app, !length_be_bytes. reflexivity.
  - exists xs, ys. repeat split; assumption.
Qed.

Lemma azure_key_normalize_ok_shape_witness :
  exists x y : Z,
    Secp256k1.in_field x = true /\ Secp256k1.in_field y = true
    /\ Secp256k1.on_curve x y = true
    /\ Hex.encode (export_spki_der (mkKeyObject Sample.Gx Sample.Gy))
       = Hex.encode (export_spki_der (mkKeyObject x y))
    /\ String.length
         (Hex.encode (export_spki_der (mkKeyObject Sample.Gx Sample.Gy)))
       = 176%nat
    /\ exists xs ys : string,
        toString_base64url (Sample.jwk !! "x") = Ok xs
        /\ toString_base64url (Sample.jwk !! "y") = Ok ys
        /\ x = BN.of_bytes (Base64.decode xs)
        /\ y = BN.of_bytes (Base64.decode ys).
Proof.
  apply (azure_key_normalize_ok_shape Sample.jwk).
  vm_compute. reflexivity.
Defined.

(** ** Leading zero bytes *)

(** X15.  Zero bytes in front of a component of the signature, however
    many, do not change what the reconstruction of [kmsSigner] gives:
    the components are read as numbers, not as byte strings. *)
Theorem kms_normalize_leading_zeros (j k : nat) (rc sc : list Z) :
  Z.of_nat j + Z.of_nat k + len rc + len sc + 4 < 128 ->
  kms_normalize (DerSig.seq2 (repeat 0 j ++ rc) (repeat 0 k ++ sc))
  = kms_normalize (DerSig.seq2 rc sc).
Proof.
  intros Hlen. unfold kms_normalize.
  rewrite !EcdsaSig_decode_seq2
    by (unfold len in *; rewrite ?length_app, ?repeat_length; lia).
  rewrite !of_bytes_zeros. reflexivity.
Qed.

Lemma kms_normalize_leading_zeros_witness :
  kms_normalize (DerSig.seq2 (repeat 0 3 ++ [5]) (repeat 0 40 ++ [7]))
  = kms_normalize (DerSig.seq2 [5] [7]).
Proof.
  apply (kms_normalize_leading_zeros 3 40 [5] [7]). reflexivity.
Defined.

(** ** Start of the scripts *)

Lemma falsy_false (v : option string) :
  Script.falsy v = false <-> exists s, v = Some s /\ s <> ""%string.
Proof.
  unfold Script.falsy. destruct v as [s|].
  - rewrite String.eqb_neq. split.
    + intros H. exists s. split; [reflexivity|exact H].
    + intros (s' & [= <-] & H). exact H.
  - split; [discriminate|intros (s & H & _); discriminate H].
Qed.

Lemma falsy_empty_is_missing (env : gmap string string) (k n : string) :
  Script.falsy (<[k := ""%string]> env !! n)
  = Script.falsy (delete k env !! n).
Proof.
  destruct (decide (k = n)) as [->|Hne].
  - rewrite lookup_insert_eq, lookup_delete_eq. reflexivity.
  - rewrite lookup_insert_ne, lookup_delete_ne by assumption. reflexivity.
Qed.

(** X13.  The start-up check of the two secp256k1 scripts lets the
    script run exactly when each of its variables is set to a string
    that is not empty; a variable set to the empty string counts as a
    missing one and stops the script with the same error. *)
Theorem check_env_spec (env : gmap string string) :
  (Script.gcp_check_env env = Script.Done tt
   <-> Forall (fun n => exists s, env !! n = Some s /\ s <> ""%string)
              ["GCP_KMS_KEY_VERSION"; "HEDERA_ACCOUNT_ID";
               "HEDERA_PRIVATE_KEY"]%string)
  /\ (Script.azure_check_env env = Script.Done tt
      <-> Forall (fun n => exists s, env !! n = Some s /\ s <> ""%string)
                 ["AZURE_KEY_VAULT_URI"; "AZURE_KEY_NAME";
                  "HEDERA_ACCOUNT_ID"; "HEDERA_PRIVATE_KEY"]%string)
  /\ (forall k : string,
        Script.gcp_check_env (<[k := ""%string]> env)
        = Script.gcp_check_env (delete k env)
        /\ Script.azure_check_env (<[k := ""%string]> env)
           = Script.azure_check_env (delete k env)).
Proof.
  split; [|split].
  - unfold Script.gcp_check_env. rewrite !Forall_cons, Forall_nil.
    rewrite <- !falsy_false.
    destruct (Script.falsy (env !! "GCP_KMS_KEY_VERSION"));
      destruct (Script.falsy (env !! "HEDERA_ACCOUNT_ID"));
      destruct (Script.falsy (env !! "HEDERA_PRIVATE_KEY"));
      cbn [orb]; split; intros H; try discriminate H;
      try reflexivity; try tauto; intuition discriminate.
  - unfold Script.azure_check_env. rewrite !Forall_cons, Forall_nil.
    rewrite <- !falsy_false.
    destruct (Script.falsy (env !! "AZURE_KEY_VAULT_URI"));
      destruct (Script.falsy (env !! "AZURE_KEY_NAME"));
      destruct (Script.falsy (env !! "HEDERA_ACCOUNT_ID"));
      destruct (Script.falsy (env !! "HEDERA_PRIVATE_KEY"));
      cbn [orb]; split; intros H; try discriminate H;
      try reflexivity; try tauto; intuition discriminate.
  - intros k. unfold Script.gcp_check_env, Script.azure_check_env.
    rewrite !falsy_empty_is_missing. split; reflexivity.
Qed.

(** ** Account creation *)

Section AccountProperties.

Context {L : Type}.
Variable sdk : forall T : Type, Script.sdk_call T -> L -> L * Script.outcome T.
Variables HEDERA_ACCOUNT_ID HEDERA_PRIVATE_KEY : string.

(** X12.  [createAccountWithKmsKey] executes one transaction, which
    carries the given key and an initial balance of 1 hbar, with the
    operator's client, and then asks for its receipt.  When the
    execution is rejected the function rejects with the same error and
    asks for no receipt; it resolves only to the account of the receipt,
    and a receipt without an account makes it reject with "Account
    creation failed.".  [createAccountWithAzureKey] is the same
    function. *)
Theorem createAccount_outcomes (publicKey : PublicKey) (w : Script.Run L) :
  let tx :=
    Script.mkAccountCreateTransaction (Some publicKey)
                                      (Some (Script.Hbar_new 1)) in
  let client := Script.mkClient "testnet" HEDERA_ACCOUNT_ID
                                HEDERA_PRIVATE_KEY in
  let create :=
    Script.createAccountWithKmsKey sdk HEDERA_ACCOUNT_ID HEDERA_PRIVATE_KEY
                                   publicKey in
  (forall e,
      snd (sdk _ (Script.AccountCreateTransaction_execute tx client)
               (Script.ledger w)) = Script.Raise e ->
      snd (create w) = Script.Raise e
      /\ Script.sdk_calls (fst (create w))
         = (Script.sdk_calls w
              ++ [existT _ (Script.AccountCreateTransaction_execute tx client)])%list)
  /\ (forall l1 response receipt,
        sdk _ (Script.AccountCreateTransaction_execute tx client)
            (Script.ledger w) = (l1, Script.Done response) ->
        snd (sdk _ (Script.TransactionResponse_getReceipt response client) l1)
        = Script.Done receipt ->
        Script.sdk_calls (fst (create w))
        = (Script.sdk_calls w
             ++ [existT _ (Script.AccountCreateTransaction_execute tx client);
                 existT _ (Script.TransactionResponse_getReceipt
                             response client)])%list
        /\ snd (create w)
           = match Script.accountId receipt with
             | Some id => Script.Done id
             | None => Script.Raise (Script.Error "Account creation failed.")
             end)
  /\ (forall id,
        snd (create w) = Script.Done id ->
        exists l1 response receipt,
          sdk _ (Script.AccountCreateTransaction_execute tx client)
              (Script.ledger w) = (l1, Script.Done response)
          /\ snd (sdk _ (Script.TransactionResponse_getReceipt response client)
                      l1) = Script.Done receipt
          /\ Script.accountId receipt = Some id)
  /\ Script.createAccountWithAzureKey sdk HEDERA_ACCOUNT_ID HEDERA_PRIVATE_KEY
                                      publicKey w
     = create w.
Proof.
  intros tx client create.
  unfold create, Script.createAccountWithKmsKey, Script.await,
    Script.call_sdk, Script.hederaClient, Script.setInitialBalance,
    Script.setKey, Script.AccountCreateTransaction_new.
  cbn [Script.act_key Script.act_initialBalance Script.ledger
       Script.sdk_calls].
  fold tx. fold client.
  split; [|split; [|split]].
  - intros e He.
    destruct (sdk _ (Script.AccountCreateTransaction_execute tx client)
                  (Script.ledger w)) as [l1 r].
    cbn [snd] in He. subst r. split; reflexivity.
  - intros l1 response receipt Hex Hrec. rewrite Hex.
    cbn [Script.ledger Script.sdk_calls].
    destruct (sdk _ (Script.TransactionResponse_getReceipt response client) l1)
      as [l2 r].
    cbn [snd] in Hrec. subst r.
    destruct (Script.accountId receipt);
      unfold Script.resolve, Script.reject; cbn [fst snd Script.sdk_calls];
      rewrite <- app_assoc; split; reflexivity.
  - intros id.
    destruct (sdk _ (Script.AccountCreateTransaction_execute tx client)
                  (Script.ledger w)) as [l1 [response|e]];
      [|discriminate].
    cbn [Script.ledger Script.sdk_calls].
    destruct (sdk _ (Script.TransactionResponse_getReceipt response client) l1)
      as [l2 [receipt|e]] eqn:Hrec; [|discriminate].
    destruct (Script.accountId receipt) as [id'|] eqn:Hid;
      unfold Script.resolve, Script.reject; cbn [snd]; [|discriminate].
    intros H. exists l1, response, receipt.
    split; [reflexivity|]. rewrite Hrec. split; [reflexivity|].
    congruence.
  - reflexivity.
Qed.

End AccountProperties.

Lemma createAccount_outcomes_witness :
  snd (Script.createAccountWithKmsKey Script.busy "0.0.2" "key"
                                      (mkPublicKey [1; 2; 3])
                                      (Script.mkRun 1001 []))
  = Script.Raise (Script.SdkError "BUSY")
  /\ snd (Script.createAccountWithKmsKey Script.no_account "0.0.2" "key"
                                         (mkPublicKey [1; 2; 3])
                                         (Script.mkRun 1001 []))
     = Script.Raise (Script.Error "Account creation failed.")
  /\ exists l1 response receipt,
      Script.testnet _ (Script.AccountCreateTransaction_execute
                          (Script.mkAccountCreateTransaction
                             (Some (mkPublicKey [1; 2; 3]))
                             (Some (Script.Hbar_new 1)))
                          (Script.mkClient "testnet" "0.0.2" "key"))
                     1001
      = (l1, Script.Done response)
      /\ snd (Script.testnet _ (Script.TransactionResponse_getReceipt
                                  response
                                  (Script.mkClient "testnet" "0.0.2" "key"))
                             l1) = Script.Done receipt
      /\ Script.accountId receipt = Some (Script.mkAccountId 0 0 1002).
Proof.
  split; [|split].
  - apply (proj1 (createAccount_outcomes Script.busy "0.0.2" "key"
                    (mkPublicKey [1; 2; 3]) (Script.mkRun 1001 []))).
    reflexivity.
  - refine (proj2 (proj1 (proj2 (createAccount_outcomes
                                   Script.no_account "0.0.2" "key"
                                   (mkPublicKey [1; 2; 3])
                                   (Script.mkRun 1001 [])))
                         1001 (Script.mkTransactionResponse "0.0.2@1")
                         (Script.mkTransactionReceipt None "SUCCESS")
                         eq_refl eq_refl)).
  - apply (proj1 (proj2 (proj2 (createAccount_outcomes
                                  Script.testnet "0.0.2" "key"
                                  (mkPublicKey [1; 2; 3])
                                  (Script.mkRun 1001 []))))
                 (Script.mkAccountId 0 0 1002)).
    reflexivity.
Defined.
